(** * The task queue of the conversion list (src/ui/convertlist.cpp)

    A shallow embedding of [ConvertList]: the vector of shared task
    pointers, the raw pointer to the running task, the busy flag, the id
    counter, and the rows of the tree widget the tasks are shown in.
    Task objects and tree items live in two stores indexed by address, so
    that [m_current_task] and [Task::listitem] are pointers as in the
    C++ code and do not move when the vector is edited.  A member function
    is a computation in a small monad with state, undefined behaviour
    (null or dangling dereference, vector index out of range) and a log of
    the signals emitted and of the calls made to the converter. *)

From stdpp Require Import gmap strings list fin_maps sorting pretty.
From Stdlib Require Import ZArith.

Local Open Scope Z_scope.

(** ** Data *)

(** [Task::TaskStatus] *)
Inductive TaskStatus := QUEUED | RUNNING | FINISHED | FAILED.

#[global] Instance TaskStatus_eq_dec : EqDecision TaskStatus.
Proof. solve_decision. Defined.

(** [ConversionParameters]: the controller reads [source] and
    [destination] and passes the value on; the encoder settings are
    carried along unread. *)
Record ConversionParameters := mkParam {
  source : string;
  destination : string;
  options : string
}.

#[global] Instance ConversionParameters_eq_dec : EqDecision ConversionParameters.
Proof. solve_decision. Defined.

(** Addresses of heap objects; a pointer is an [option loc], the null
    pointer being [None]. *)
Abbreviation loc := positive.

(** Modelled from the spec: the declarations of [Task::id] and
    [ConvertList::prev_index] are in convertlist.h, which is not part of
    the sources at hand; the spec describes the id as a monotonically
    increasing integer, so both are integers here and [++prev_index] is
    the successor. *)
Abbreviation id_t := Z.

(** [struct Task] *)
Record Task := mkTask {
  id : id_t;
  status : TaskStatus;
  param : ConversionParameters;
  listitem : option loc
}.

Definition set_id (v : id_t) (t : Task) : Task :=
  mkTask v (status t) (param t) (listitem t).
Definition set_status (v : TaskStatus) (t : Task) : Task :=
  mkTask (id t) v (param t) (listitem t).
Definition set_param (v : ConversionParameters) (t : Task) : Task :=
  mkTask (id t) (status t) v (listitem t).
Definition set_listitem (v : option loc) (t : Task) : Task :=
  mkTask (id t) (status t) (param t) v.

(** [new Task()] value-initialises the object. *)
Definition Task_new : Task := mkTask 0 QUEUED (mkParam EmptyString EmptyString EmptyString) None.

(** Modelled from the spec: [ProgressBar] (progressbar.h) is not part of
    the sources at hand; the spec has [setValue] show the percentage it is
    given, so a bar is the value it displays. *)
Record ProgressBar := mkBar { value : Z }.

Definition setValue (v : Z) (_ : ProgressBar) : ProgressBar := mkBar v.

(** A row of the tree widget: the texts and tool tips of its columns and
    the widget installed in its progress column by [setItemWidget]
    ([None] while there is none). *)
Record QTreeWidgetItem := mkItem {
  text : list string;
  toolTip : gmap nat string;
  widget : option ProgressBar
}.

(** [item->setText(column, s)]: Qt grows the item to [column + 1]
    columns with empty texts when it has fewer. *)
Definition setText (column : nat) (s : string) (it : QTreeWidgetItem) : QTreeWidgetItem :=
  mkItem (<[column := s]> (text it ++ replicate (S column - length (text it)) EmptyString))
         (toolTip it) (widget it).
Definition setToolTip (column : nat) (s : string) (it : QTreeWidgetItem) : QTreeWidgetItem :=
  mkItem (text it) (<[column := s]> (toolTip it)) (widget it).
Definition set_widget (w : option ProgressBar) (it : QTreeWidgetItem) : QTreeWidgetItem :=
  mkItem (text it) (toolTip it) w.

(** [init_treewidget] sets the progress column once, in the constructor. *)
Definition m_progress_column_index : nat := 3.

(** The members of [ConvertList], the two stores, and the top-level
    items of the [QTreeWidget] base object in display order. *)
Record ConvertList := mkList {
  prev_index : id_t;
  m_tasks : list loc;
  m_current_task : option loc;
  is_busy : bool;
  tasks : gmap loc Task;
  items : gmap loc QTreeWidgetItem;
  topLevelItems : list loc
}.

Definition set_prev_index (v : id_t) (s : ConvertList) : ConvertList :=
  mkList v (m_tasks s) (m_current_task s) (is_busy s) (tasks s) (items s) (topLevelItems s).
Definition set_m_tasks (v : list loc) (s : ConvertList) : ConvertList :=
  mkList (prev_index s) v (m_current_task s) (is_busy s) (tasks s) (items s) (topLevelItems s).
Definition set_m_current_task (v : option loc) (s : ConvertList) : ConvertList :=
  mkList (prev_index s) (m_tasks s) v (is_busy s) (tasks s) (items s) (topLevelItems s).
Definition set_is_busy (v : bool) (s : ConvertList) : ConvertList :=
  mkList (prev_index s) (m_tasks s) (m_current_task s) v (tasks s) (items s) (topLevelItems s).
Definition set_tasks (v : gmap loc Task) (s : ConvertList) : ConvertList :=
  mkList (prev_index s) (m_tasks s) (m_current_task s) (is_busy s) v (items s) (topLevelItems s).
Definition set_items (v : gmap loc QTreeWidgetItem) (s : ConvertList) : ConvertList :=
  mkList (prev_index s) (m_tasks s) (m_current_task s) (is_busy s) (tasks s) v (topLevelItems s).
Definition set_topLevelItems (v : list loc) (s : ConvertList) : ConvertList :=
  mkList (prev_index s) (m_tasks s) (m_current_task s) (is_busy s) (tasks s) (items s) v.

(** The constructor: counter 0, no task, null current task, not busy. *)
Definition ConvertList_new : ConvertList := mkList 0 [] None false ∅ ∅ [].

(** What leaves the controller: the calls on [m_converter] and the
    signals it emits. *)
Inductive Event :=
| converter_start (p : ConversionParameters)
| converter_stop
| start_conversion (index : Z) (p : ConversionParameters)
| task_finished (exitcode : Z)
| all_tasks_finished.

#[global] Instance Event_eq_dec : EqDecision Event.
Proof. solve_decision. Defined.

(** ** The monad of member functions *)

Definition M (A : Type) : Type := ConvertList → option (A * ConvertList * list Event).

Definition ret {A} (a : A) : M A := λ s, Some (a, s, []).

Definition bind {A B} (c : M A) (k : A → M B) : M B :=
  λ s, match c s with
       | Some (a, s1, e1) =>
           match k a s1 with
           | Some (b, s2, e2) => Some (b, s2, e1 ++ e2)
           | None => None
           end
       | None => None
       end.

(** Undefined behaviour: the computation has no result. *)
Definition undefined {A} : M A := λ _, None.

Definition gets {A} (f : ConvertList → A) : M A := λ s, Some (f s, s, []).
Definition modify (f : ConvertList → ConvertList) : M unit := λ s, Some (tt, f s, []).
Definition emit (e : Event) : M unit := λ s, Some (tt, s, [e]).

Declare Scope conv_scope.
Delimit Scope conv_scope with conv.
Notation "x <- c ;; k" := (bind c (λ x, k))
  (at level 20, c at level 99, k at level 200) : conv_scope.
Notation "c ;; k" := (bind c (λ _, k))
  (at level 100, k at level 200, right associativity) : conv_scope.
Local Open Scope conv_scope.

(** [*p] for a task pointer. *)
Definition deref (p : loc) : M Task :=
  λ s, match tasks s !! p with Some t => Some (t, s, []) | None => None end.

(** [p->field = v] for a task pointer. *)
Definition modify_task (p : loc) (f : Task → Task) : M unit :=
  t <- deref p ;; modify (λ s, set_tasks (<[p := f t]> (tasks s)) s).

(** [*item] and [item->...] for a tree item pointer. *)
Definition deref_item (i : loc) : M QTreeWidgetItem :=
  λ s, match items s !! i with Some it => Some (it, s, []) | None => None end.

Definition modify_item (i : loc) (f : QTreeWidgetItem → QTreeWidgetItem) : M unit :=
  it <- deref_item i ;; modify (λ s, set_items (<[i := f it]> (items s)) s).

(** [m_tasks[index]]: undefined outside [0 .. size-1]. *)
Definition task_at (index : Z) : M loc :=
  λ s, if decide (0 ≤ index)
       then match m_tasks s !! Z.to_nat index with Some p => Some (p, s, []) | None => None end
       else None.

(** [itemWidget(item, m_progress_column_index)->setValue(v)]: the item
    pointer is [task->listitem]; a null item has no widget, and calling
    through the null widget is undefined. *)
Definition set_progress (item : option loc) (v : Z) : M unit :=
  match item with
  | None => undefined
  | Some i =>
      it <- deref_item i ;;
      match widget it with
      | None => undefined
      | Some w => modify_item i (set_widget (Some (setValue v w)))
      end
  end.

(** ** Collaborators that are not part of the controller *)

(** The Qt and C library functions [addTask] and [task_finished_slot]
    call to build the texts of a row, and the state of a freshly
    constructed progress bar.  [double] is the type of
    [MediaProbe::seconds()]. *)
Class Platform := {
  double : Type;
  fileName : string → string;
  sprintf_duration : Z → Z → double → string;
  tr : string → string;
  ProgressBar_new : ProgressBar
}.

(** What the probe answers for one source file: the results of [wait()]
    and [error()], and the duration it read. *)
Record ProbeResult `{Platform} := mkProbe {
  probe_wait : bool;
  probe_error : bool;
  hours : Z;
  minutes : Z;
  seconds : double
}.

(** ** Member functions *)

Section member_functions.
Context `{Platform}.

(** [new Task()] at a fresh address. *)
Definition new_Task : M loc :=
  λ s, let p := fresh (dom (tasks s)) in
       Some (p, set_tasks (<[p := Task_new]> (tasks s)) s, []).

(** [new QTreeWidgetItem(this, columns)]: the constructor with a parent
    view appends the new item to the view's top-level items. *)
Definition new_QTreeWidgetItem (columns : list string) : M loc :=
  λ s, let i := fresh (dom (items s)) in
       Some (i, set_topLevelItems (topLevelItems s ++ [i])
                  (set_items (<[i := mkItem columns ∅ None]> (items s)) s), []).

(** [addTopLevelItem(item)]: Qt ignores an item that is in a view. *)
Definition addTopLevelItem (item : loc) : M unit :=
  modify (λ s, if decide (item ∈ topLevelItems s) then s
               else set_topLevelItems (topLevelItems s ++ [item]) s).

(** [bool ConvertList::addTask(const ConversionParameters& param)];
    [probe] is what [m_probe] answers for [param.source]. *)
Definition addTask (param_ : ConversionParameters) (probe : ProbeResult) : M bool :=
  if negb (probe_wait probe) || probe_error probe then ret false
  else
    task <- new_Task ;;
    modify_task task (set_param param_) ;;
    modify_task task (set_status QUEUED) ;;
    modify (λ s, set_prev_index (prev_index s + 1) s) ;;
    n <- gets prev_index ;;
    modify_task task (set_id n) ;;
    modify (λ s, set_m_tasks (m_tasks s ++ [task]) s) ;;
    let columns := [ fileName (source param_);
                     fileName (destination param_);
                     sprintf_duration (hours probe) (minutes probe) (seconds probe);
                     EmptyString ] in
    item <- new_QTreeWidgetItem columns ;;
    modify_task task (set_listitem (Some item)) ;;
    addTopLevelItem item ;;
    modify_item item (set_widget (Some ProgressBar_new)) ;;
    it <- deref_item item ;;
    (if widget it is Some _ then ret tt else undefined) ;;
    modify_item item (setToolTip 0 (source param_)) ;;
    modify_item item (setToolTip 1 (destination param_)) ;;
    ret true.

(** [takeTopLevelItem(index)]: removes and returns the item at [index],
    or returns null when there is none. *)
Definition takeTopLevelItem (index : Z) : M (option loc) :=
  λ s, if decide (0 ≤ index)
       then match topLevelItems s !! Z.to_nat index with
            | Some i => Some (Some i, set_topLevelItems (delete (Z.to_nat index) (topLevelItems s)) s, [])
            | None => Some (None, s, [])
            end
       else Some (None, s, []).

(** [delete item] for an item that has been taken out of its view:
    nothing for the null pointer, else the item and the widget it
    carries are destroyed. *)
Definition delete_item (item : option loc) : M unit :=
  match item with
  | None => ret tt
  | Some i => deref_item i ;; modify (λ s, set_items (delete i (items s)) s)
  end.

(** [m_tasks.remove(index)]: the shared pointer at [index] is
    destroyed, and the task with it unless another element of the
    vector still shares it. *)
Definition m_tasks_remove (index : Z) : M unit :=
  p <- task_at index ;;
  modify (λ s, set_m_tasks (delete (Z.to_nat index) (m_tasks s)) s) ;;
  modify (λ s, if decide (p ∈ m_tasks s) then s
               else set_tasks (delete p (tasks s)) s).

(** [void ConvertList::removeTask(int index)] *)
Definition removeTask (index : Z) : M unit :=
  p <- task_at index ;;
  t <- deref p ;;
  if decide (status t ≠ RUNNING) then
    m_tasks_remove index ;;
    item <- takeTopLevelItem index ;;
    delete_item item
  else ret tt.

(** [isBusy], [isEmpty], [count] *)
Definition isBusy : M bool := gets is_busy.
Definition topLevelItemCount : M Z := gets (λ s, Z.of_nat (length (topLevelItems s))).
Definition isEmpty : M bool := n <- topLevelItemCount ;; ret (bool_decide (n = 0)).
Definition count : M Z := topLevelItemCount.

(** [void ConvertList::progress_refreshed(int percentage)] *)
Definition progress_refreshed (percentage : Z) : M unit :=
  cur <- gets m_current_task ;;
  match cur with
  | Some p => t <- deref p ;; set_progress (listitem t) percentage
  | None => ret tt
  end.

(** [void ConvertList::stop()] *)
Definition stop : M unit :=
  cur <- gets m_current_task ;;
  match cur with
  | Some p =>
      progress_refreshed 0 ;;
      modify_task p (set_status QUEUED) ;;
      modify (set_m_current_task None)
  | None => ret tt
  end ;;
  modify (set_is_busy false) ;;
  emit converter_stop.

(** The [for] loop of [start] from index [i] with [n] iterations to
    go; the result says whether the body returned from [start]. *)
Fixpoint start_loop (n : nat) (i : Z) : M bool :=
  match n with
  | O => ret false
  | S n' =>
      p <- task_at i ;;
      t <- deref p ;;
      if decide (status t = QUEUED) then
        modify (set_is_busy true) ;;
        modify_task p (set_status RUNNING) ;;
        modify (set_m_current_task (Some p)) ;;
        t' <- deref p ;;
        emit (converter_start (param t')) ;;
        emit (start_conversion i (param t')) ;;
        ret true
      else start_loop n' (i + 1)
  end.

(** [void ConvertList::start()] *)
Definition start : M unit :=
  busy <- gets is_busy ;;
  if busy then ret tt
  else
    task_count <- gets (λ s, length (m_tasks s)) ;;
    if decide (task_count = 0%nat) then stop
    else
      returned <- start_loop task_count 0 ;;
      if returned then ret tt
      else stop ;; emit all_tasks_finished.

(** [void ConvertList::task_finished_slot(int exitcode)] *)
Definition task_finished_slot (exitcode : Z) : M unit :=
  cur <- gets m_current_task ;;
  match cur with
  | Some p =>
      modify_task p (set_status (if decide (exitcode = 0) then FINISHED else FAILED)) ;;
      (if decide (exitcode ≠ 0) then
         t <- deref p ;;
         set_progress (listitem t) 0 ;;
         match listitem t with
         | Some i => modify_item i (setText m_progress_column_index (tr "Failed"))
         | None => undefined
         end
       else ret tt) ;;
      modify (set_m_current_task None) ;;
      emit (task_finished exitcode) ;;
      modify (set_is_busy false) ;;
      start
  | None => ret tt
  end.

End member_functions.

(** ** Operations and reachable states *)

Section operations.
Context `{Platform}.

(** The commands of the presentation layer and the two signals of the
    converter ([progressRefreshed] and [finished], connected in the
    constructor to [progress_refreshed] and [task_finished_slot]). *)
Inductive Op :=
| op_addTask (p : ConversionParameters) (probe : ProbeResult)
| op_removeTask (index : Z)
| op_start
| op_stop
| op_progress (percentage : Z)
| op_finished (exitcode : Z).

Definition run_op (o : Op) : M unit :=
  match o with
  | op_addTask p probe => addTask p probe ;; ret tt
  | op_removeTask index => removeTask index
  | op_start => start
  | op_stop => stop
  | op_progress percentage => progress_refreshed percentage
  | op_finished exitcode => task_finished_slot exitcode
  end.

(** One operation with defined behaviour takes [s] to [s']. *)
Definition step (s : ConvertList) (o : Op) (s' : ConvertList) : Prop :=
  ∃ e, run_op o s = Some (tt, s', e).

Inductive Reachable : ConvertList → Prop :=
| Reachable_new : Reachable ConvertList_new
| Reachable_step s o s' : Reachable s → step s o s' → Reachable s'.

(** A sequence of operations, with the events of all of them. *)
Fixpoint run_ops (os : list Op) : M unit :=
  match os with
  | [] => ret tt
  | o :: os' => run_op o ;; run_ops os'
  end.

End operations.

(** ** Reading a state *)

(** The status of the task at address [p], when there is one. *)
Definition status_at (s : ConvertList) (p : loc) : option TaskStatus :=
  status <$> tasks s !! p.

(** The tasks of the list that are RUNNING, and how many there are. *)
Definition running (s : ConvertList) : list loc :=
  filter (λ p, status_at s p = Some RUNNING) (m_tasks s).

Definition running_count (s : ConvertList) : nat := length (running s).

(** The task at position [k] of the list. *)
Definition task_of (s : ConvertList) (k : nat) : option Task :=
  p ← m_tasks s !! k; tasks s !! p.

(** The task of the list that carries id [n]. *)
Definition task_with_id (s : ConvertList) (n : id_t) : option Task :=
  head (filter (λ t, id t = n) (omap (λ p, tasks s !! p) (m_tasks s))).

(** The bar shown in the row of the task at [p]. *)
Definition progress_of (s : ConvertList) (p : loc) : option ProgressBar :=
  t ← tasks s !! p; i ← listitem t; it ← items s !! i; widget it.

(** The text of the progress column in the row of the task at [p]. *)
Definition progress_text_of (s : ConvertList) (p : loc) : option string :=
  t ← tasks s !! p; i ← listitem t; it ← items s !! i; text it !! m_progress_column_index.

(** The first task of the list that is QUEUED, with its position. *)
Definition first_queued (s : ConvertList) : option (nat * loc) :=
  list_find (λ p, status_at s p = Some QUEUED) (m_tasks s).

(** ** States after the operations *)

(** [start] has picked the task [t] at address [p]. *)
Definition started (p : loc) (t : Task) (s : ConvertList) : ConvertList :=
  set_m_current_task (Some p)
    (set_tasks (<[p := set_status RUNNING t]> (tasks s)) (set_is_busy true s)).

(** The bar of item [i] shows [v]. *)
Definition shown (i : loc) (it : QTreeWidgetItem) (v : Z) (s : ConvertList) : ConvertList :=
  set_items (<[i := set_widget (Some (mkBar v)) it]> (items s)) s.

(** [stop] has put the running task [t] at address [p] back in the queue. *)
Definition stopped (p : loc) (t : Task) (i : loc) (it : QTreeWidgetItem)
    (s : ConvertList) : ConvertList :=
  set_is_busy false
    (set_m_current_task None
       (set_tasks (<[p := set_status QUEUED t]> (tasks s)) (shown i it 0 s))).

(** [task_finished_slot] has recorded the exit code for the running task
    [t] at address [p], before it calls [start]. *)
Definition finished `{Platform} (exitcode : Z) (p : loc) (t : Task) (i : loc)
    (it : QTreeWidgetItem) (s : ConvertList) : ConvertList :=
  set_is_busy false
    (set_m_current_task None
       (if decide (exitcode = 0)
        then set_tasks (<[p := set_status FINISHED t]> (tasks s)) s
        else set_items
               (<[i := setText m_progress_column_index (tr "Failed")
                         (set_widget (Some (mkBar 0)) it)]> (items s))
               (set_tasks (<[p := set_status FAILED t]> (tasks s)) s))).

(** [addTask] has appended a task for [param_]. *)
Definition added `{Platform} (param_ : ConversionParameters) (probe : ProbeResult)
    (s : ConvertList) : ConvertList :=
  let p := fresh (dom (tasks s)) in
  let i := fresh (dom (items s)) in
  let columns := [ fileName (source param_);
                   fileName (destination param_);
                   sprintf_duration (hours probe) (minutes probe) (seconds probe);
                   EmptyString ] in
  mkList (prev_index s + 1) (m_tasks s ++ [p]) (m_current_task s) (is_busy s)
    (<[p := mkTask (prev_index s + 1) QUEUED param_ (Some i)]> (tasks s))
    (<[i := mkItem columns (<[1%nat := destination param_]> (<[0%nat := source param_]> ∅))
              (Some ProgressBar_new)]> (items s))
    (topLevelItems s ++ [i]).

(** [removeTask] has removed position [k], where the task at [p] with the
    row [i] was. *)
Definition removed (k : nat) (p i : loc) (s : ConvertList) : ConvertList :=
  mkList (prev_index s) (delete k (m_tasks s)) (m_current_task s) (is_busy s)
    (delete p (tasks s)) (delete i (items s)) (delete k (topLevelItems s)).

(** ** The life of a task *)

(** The status changes an operation may make to a task: [start] takes a
    QUEUED task to RUNNING, also when [task_finished_slot] calls it;
    [task_finished_slot] takes the RUNNING task to FINISHED on exit code
    0 and to FAILED otherwise; [stop] takes the RUNNING task back to
    QUEUED. *)
Definition edge `{Platform} (o : Op) (a b : TaskStatus) : Prop :=
  match o, a, b with
  | op_start, QUEUED, RUNNING => True
  | op_finished _, QUEUED, RUNNING => True
  | op_finished exitcode, RUNNING, FINISHED => exitcode = 0
  | op_finished exitcode, RUNNING, FAILED => exitcode ≠ 0
  | op_stop, RUNNING, QUEUED => True
  | _, _, _ => False
  end.

Definition terminal (a : TaskStatus) : Prop := a = FINISHED ∨ a = FAILED.

(** The operations with defined behaviour: every one but [removeTask]
    with an index outside the list. *)
Definition in_range `{Platform} (s : ConvertList) (o : Op) : Prop :=
  match o with
  | op_removeTask index => 0 ≤ index < Z.of_nat (length (m_tasks s))
  | _ => True
  end.

(** The id of the last task of the list. *)
Definition last_id (s : ConvertList) : option id_t :=
  p ← last (m_tasks s); t ← tasks s !! p; Some (id t).

(** The ids given out by the calls of [addTask] that return [true] while
    the operations [os] run from [s], in the order of the calls. *)
Fixpoint assigned_ids `{Platform} (os : list Op) (s : ConvertList) : list id_t :=
  match os with
  | [] => []
  | op_addTask p probe :: os' =>
      match addTask p probe s with
      | Some (true, s', _) => option_list (last_id s') ++ assigned_ids os' s'
      | Some (false, s', _) => assigned_ids os' s'
      | None => []
      end
  | o :: os' =>
      match run_op o s with
      | Some (_, s', _) => assigned_ids os' s'
      | None => []
      end
  end.

(** Between [s] and [s'] the list and the counter are the same and every
    task keeps its id, its parameters and its row, with its status either
    kept or changed along [E]. *)
Definition moves (E : TaskStatus → TaskStatus → Prop) (s s' : ConvertList) : Prop :=
  m_tasks s' = m_tasks s ∧ prev_index s' = prev_index s ∧
  ∀ p t, tasks s !! p = Some t →
         ∃ t', tasks s' !! p = Some t' ∧ id t' = id t ∧ param t' = param t ∧
               listitem t' = listitem t ∧
               (status t' = status t ∨ E (status t) (status t')).

(** A task of the list. *)
Definition listed (s : ConvertList) (t : Task) : Prop :=
  ∃ p, p ∈ m_tasks s ∧ tasks s !! p = Some t.

(** ** A platform to run examples on *)

(** The part of a path after its last slash. *)
Fixpoint after_last_slash (path acc : string) : string :=
  match path with
  | EmptyString => acc
  | String c rest =>
      if Ascii.eqb c (Ascii.ascii_of_nat 47) then after_last_slash rest EmptyString
      else after_last_slash rest (acc +:+ String c EmptyString)
  end.

Definition two_digits (n : Z) : string :=
  if decide (0 ≤ n < 10) then "0" +:+ pretty n else pretty n.

(** Seconds are whole numbers here and [tr] leaves texts untranslated. *)
Definition sample_platform : Platform := {|
  double := Z;
  fileName path := after_last_slash path EmptyString;
  sprintf_duration h m s := two_digits h +:+ ":" +:+ two_digits m +:+ ":" +:+ two_digits s;
  tr s := s;
  ProgressBar_new := mkBar 0
|}.

Definition sample_param (name : string) : ConversionParameters :=
  mkParam ("/home/user/" +:+ name +:+ ".avi") ("/home/user/" +:+ name +:+ ".mp4") EmptyString.

Definition probe_ok : @ProbeResult sample_platform :=
  @mkProbe sample_platform true false 0 1 30.
Definition probe_timeout : @ProbeResult sample_platform :=
  @mkProbe sample_platform false false 0 0 0.
Definition probe_unreadable : @ProbeResult sample_platform :=
  @mkProbe sample_platform true true 0 0 0.

(** The state the operations [os] lead to from the constructor; the
    constructor's state again when one of them is undefined. *)
Definition state_after (os : list (@Op sample_platform)) : ConvertList :=
  match run_ops os ConvertList_new with
  | Some (_, s, _) => s
  | None => ConvertList_new
  end.

(** Two tasks enqueued. *)
Definition two_queued : ConvertList :=
  Eval vm_compute in
    state_after [op_addTask (sample_param "a") probe_ok;
                 op_addTask (sample_param "b") probe_ok].

(** Two tasks, the first one running. *)
Definition first_running : ConvertList :=
  Eval vm_compute in
    state_after [op_addTask (sample_param "a") probe_ok;
                 op_addTask (sample_param "b") probe_ok;
                 op_start].

(** Two tasks, the first one finished and the second one running. *)
Definition second_running : ConvertList :=
  Eval vm_compute in
    state_after [op_addTask (sample_param "a") probe_ok;
                 op_addTask (sample_param "b") probe_ok;
                 op_start; op_finished 0].

(** Two tasks, the first one failed and the second one finished. *)
Definition all_done : ConvertList :=
  Eval vm_compute in
    state_after [op_addTask (sample_param "a") probe_ok;
                 op_addTask (sample_param "b") probe_ok;
                 op_start; op_finished 1; op_finished 0].

(** ** Well-formed states *)

(** The row of a task: its item is allocated and carries a progress bar. *)
Definition has_row (s : ConvertList) (p i : loc) : Prop :=
  ∃ t it, tasks s !! p = Some t ∧ listitem t = Some i ∧
          items s !! i = Some it ∧ is_Some (widget it).

Record WF (s : ConvertList) : Prop := mkWF {
  wf_nodup : NoDup (m_tasks s);
  wf_items_nodup : NoDup (topLevelItems s);
  wf_rows : Forall2 (has_row s) (m_tasks s) (topLevelItems s);
  wf_ids_bound : ∀ p t, p ∈ m_tasks s → tasks s !! p = Some t → id t ≤ prev_index s;
  wf_ids_sorted : ∀ j k p q t u, (j < k)%nat →
      m_tasks s !! j = Some p → m_tasks s !! k = Some q →
      tasks s !! p = Some t → tasks s !! q = Some u → id t < id u;
  wf_current : ∀ p, m_current_task s = Some p ↔
      p ∈ m_tasks s ∧ status_at s p = Some RUNNING;
  wf_busy : is_busy s = true ↔ is_Some (m_current_task s)
}.

(** ** The key and drop events of the widget *)

(** [Qt::Key_Delete] *)
Definition Key_Delete : Z := 16777223.

(** [init_treewidget]: [setColumnCount(4)]. *)
Definition columnCount : nat := 4.

(** [indexOfTopLevelItem(item)]: the position of [item] among the
    top-level items, or -1 when it is not one of them. *)
Definition indexOfTopLevelItem (item : loc) : M Z :=
  gets (λ s, match list_find (λ j, j = item) (topLevelItems s) with
             | Some (k, _) => Z.of_nat k
             | None => -1
             end).

(** [foreach (x, l) body]: Qt's loop over a copy of the container. *)
Fixpoint foreach {A} (l : list A) (body : A → M unit) : M unit :=
  match l with
  | [] => ret tt
  | x :: l' => body x ;; foreach l' body
  end.

Section widget_events.
Context `{Platform}.

(** [void ConvertList::keyPressEvent(QKeyEvent *event)]; [key] is
    [event->key()] and [selectedItems] what [selectedItems()] returns.
    Any other key goes to [QTreeWidget::keyPressEvent], which moves the
    cursor of the view and touches no member of [ConvertList]. *)
Definition keyPressEvent (key : Z) (selectedItems : list loc) : M unit :=
  if decide (key = Key_Delete) then
    foreach selectedItems (λ item,
      index <- indexOfTopLevelItem item ;;
      removeTask index)
  else ret tt.

(** [void ConvertList::dropEvent(QDropEvent *event)]; [hasUrls] is
    [mimeData->hasUrls()], and [paramList] is what the wizard returns
    for the dropped files, each entry with the answer of the probe for
    its source. *)
Definition dropEvent (hasUrls : bool)
    (paramList : list (ConversionParameters * ProbeResult)) : M unit :=
  if hasUrls then
    foreach paramList (λ entry, addTask entry.1 entry.2 ;; ret tt)
  else ret tt.

(** The probe completed without error. *)
Definition probe_succeeded (probe : ProbeResult) : bool :=
  probe_wait probe && negb (probe_error probe).

End widget_events.

(** ** Reading the queue *)

(** The QUEUED tasks, in list order. *)
Definition queued (s : ConvertList) : list loc :=
  filter (λ p, status_at s p = Some QUEUED) (m_tasks s).

(** The tasks of the list, in list order. *)
Definition task_list (s : ConvertList) : list Task :=
  omap (λ p, tasks s !! p) (m_tasks s).

(** The row of the task at [p]. *)
Definition item_at (s : ConvertList) (p : loc) : option loc :=
  t ← tasks s !! p; listitem t.

(** The task at [p] is left in the list by the Delete key on the
    selection [sel]: its row is not selected, or it is RUNNING. *)
Definition survives (s : ConvertList) (sel : list loc) (p : loc) : bool :=
  match item_at s p with
  | Some i => bool_decide (i ∉ sel) || bool_decide (status_at s p = Some RUNNING)
  | None => true
  end.

(** The status [task_finished_slot] gives for an exit code. *)
Definition final (exitcode : Z) : TaskStatus :=
  if decide (exitcode = 0) then FINISHED else FAILED.

(** The exit codes of the [task_finished] signals among the events. *)
Definition finished_codes (e : list Event) : list Z :=
  omap (λ ev, match ev with task_finished c => Some c | _ => None end) e.

(** What the row [it] of the task [t] shows. *)
Definition row_shows `{Platform} (t : Task) (it : QTreeWidgetItem) : Prop :=
  length (text it) = columnCount ∧
  text it !! 0%nat = Some (fileName (source (param t))) ∧
  text it !! 1%nat = Some (fileName (destination (param t))) ∧
  text it !! m_progress_column_index
    = Some (if decide (status t = FAILED) then tr "Failed" else EmptyString) ∧
  toolTip it !! 0%nat = Some (source (param t)) ∧
  toolTip it !! 1%nat = Some (destination (param t)) ∧
  (status t = FAILED → widget it = Some (mkBar 0)) ∧
  (status t = QUEUED → widget it = Some ProgressBar_new ∨ widget it = Some (mkBar 0)).

Definition Rows `{Platform} (s : ConvertList) : Prop :=
  ∀ p t i it, p ∈ m_tasks s → tasks s !! p = Some t → listitem t = Some i →
              items s !! i = Some it → row_shows t it.

(** The parameters of the [start_conversion] signals among the events. *)
Definition started_params (e : list Event) : list ConversionParameters :=
  omap (λ ev, match ev with start_conversion _ pa => Some pa | _ => None end) e.

(** The parameters of the tasks at the addresses [ps]. *)
Definition params_at (s : ConvertList) (ps : list loc) : list ConversionParameters :=
  omap (λ p, param <$> tasks s !! p) ps.

(** The calls on the converter as the events show them: [converter_ok
    busy e] follows the events [e] from a converter that is converting
    ([busy]) or not, and gives whether it is converting at the end, or
    [None] when [start] is called on a converter that is converting.  A
    [task_finished] is the controller's answer to the converter's exit
    code, so the converter has ended by then. *)
Fixpoint converter_ok (busy : bool) (e : list Event) : option bool :=
  match e with
  | [] => Some busy
  | converter_start _ :: e' => if busy then None else converter_ok true e'
  | converter_stop :: e' => converter_ok false e'
  | task_finished _ :: e' => converter_ok false e'
  | _ :: e' => converter_ok busy e'
  end.

(** ** Running a member function on a symbolic state *)

Ltac munfold :=
  cbv beta delta [bind ret gets modify emit undefined deref deref_item
                  modify_task modify_item task_at set_progress].

Ltac mrewrite :=
  repeat match goal with
         | H : tasks _ !! _ = _ |- _ => rewrite H
         | H : items _ !! _ = _ |- _ => rewrite H
         | H : m_tasks _ !! _ = _ |- _ => rewrite H
         | H : topLevelItems _ !! _ = _ |- _ => rewrite H
         | H : m_current_task _ = _ |- _ => rewrite H
         | H : is_busy _ = _ |- _ => rewrite H
         | H : listitem _ = _ |- _ => rewrite H
         | H : widget _ = _ |- _ => rewrite H
         | H : status _ = _ |- _ => rewrite H
         | |- context [ <[?p := _]> _ !! ?p ] => rewrite lookup_insert_eq
         | |- context [ Z.to_nat (Z.of_nat _) ] => rewrite Nat2Z.id
         | |- context [ decide ?P ] =>
             first [ rewrite (decide_True (P := P)) by (done || lia)
                   | rewrite (decide_False (P := P)) by (done || lia) ]
         end.

Ltac mrun := munfold; repeat (progress (cbn; mrewrite)).

#[local] Arguments start : simpl never.
#[local] Arguments stop : simpl never.

Section execution.
Context `{Platform}.

Lemma progress_refreshed_idle percentage s :
  m_current_task s = None →
  progress_refreshed percentage s = Some (tt, s, []).
Proof. intros Hc. unfold progress_refreshed. by mrun. Qed.

Lemma progress_refreshed_current percentage s p t i it w :
  m_current_task s = Some p → tasks s !! p = Some t → listitem t = Some i →
  items s !! i = Some it → widget it = Some w →
  progress_refreshed percentage s
  = Some (tt, shown i it percentage s, []).
Proof. intros Hc Ht Hi Hit Hw. unfold progress_refreshed. by mrun. Qed.

Lemma stop_idle s :
  m_current_task s = None →
  stop s = Some (tt, set_is_busy false s, [converter_stop]).
Proof. intros Hc. unfold stop. by mrun. Qed.

Lemma stop_current s p t i it w :
  m_current_task s = Some p → tasks s !! p = Some t → listitem t = Some i →
  items s !! i = Some it → widget it = Some w →
  stop s
  = Some (tt, stopped p t i it s, [converter_stop]).
Proof.
  intros Hc Ht Hi Hit Hw. unfold stop, progress_refreshed. by mrun.
Qed.

Lemma start_loop_found s k p t : ∀ n i,
  (i + n)%nat = length (m_tasks s) → (i ≤ k)%nat →
  (∀ q, q ∈ m_tasks s → is_Some (tasks s !! q)) →
  m_tasks s !! k = Some p → tasks s !! p = Some t → status t = QUEUED →
  (∀ j q u, (i ≤ j < k)%nat → m_tasks s !! j = Some q → tasks s !! q = Some u →
            status u ≠ QUEUED) →
  start_loop n (Z.of_nat i) s
  = Some (true, started p t s,
          [converter_start (param t); start_conversion (Z.of_nat k) (param t)]).
Proof.
  induction n as [|n IH]; intros i Hlen Hik Halloc Hk Ht Hq Hbefore.
  - apply lookup_lt_Some in Hk. lia.
  - destruct (decide (i = k)) as [->|Hne].
    + cbn [start_loop]. munfold. rewrite decide_True by lia. rewrite Nat2Z.id.
      rewrite Hk. cbn. rewrite Ht. cbn. rewrite decide_True by done. cbn.
      rewrite Ht. cbn. rewrite lookup_insert_eq. cbn. reflexivity.
    + destruct (lookup_lt_is_Some_2 (m_tasks s) i) as [q Hq']; [lia|].
      destruct (Halloc q) as [u Hu]; [by eapply list_elem_of_lookup_2|].
      assert (status u ≠ QUEUED) as Hnq by (eapply (Hbefore i); [lia|done..]).
      specialize (IH (S i)). rewrite Nat2Z.inj_succ in IH.
      cbn [start_loop]. unfold bind at 1, task_at.
      rewrite decide_True by lia. rewrite Nat2Z.id, Hq'.
      unfold bind at 1, deref. rewrite Hu.
      rewrite decide_False by done. unfold Z.succ in IH.
      rewrite IH; [done|lia|lia|done..|].
      intros j q' u' Hj. apply Hbefore. lia.
Qed.

Lemma start_loop_none s : ∀ n i,
  (i + n)%nat = length (m_tasks s) →
  (∀ q, q ∈ m_tasks s → is_Some (tasks s !! q)) →
  (∀ j q u, (i ≤ j)%nat → m_tasks s !! j = Some q → tasks s !! q = Some u →
            status u ≠ QUEUED) →
  start_loop n (Z.of_nat i) s = Some (false, s, []).
Proof.
  induction n as [|n IH]; intros i Hlen Halloc Hnone; [done|].
  destruct (lookup_lt_is_Some_2 (m_tasks s) i) as [q Hq']; [lia|].
  destruct (Halloc q) as [u Hu]; [by eapply list_elem_of_lookup_2|].
  assert (status u ≠ QUEUED) as Hnq by (eapply (Hnone i); [lia|done..]).
  specialize (IH (S i)). rewrite Nat2Z.inj_succ in IH.
  cbn [start_loop]. unfold bind at 1, task_at.
  rewrite decide_True by lia. rewrite Nat2Z.id, Hq'.
  unfold bind at 1, deref. rewrite Hu.
  rewrite decide_False by done. unfold Z.succ in IH.
  rewrite IH; [done|lia|done|].
  intros j q' u' Hj. apply Hnone. lia.
Qed.

Lemma start_busy s : is_busy s = true → start s = Some (tt, s, []).
Proof. intros Hb. unfold start. by mrun. Qed.

Lemma start_empty s : is_busy s = false → m_tasks s = [] → start s = stop s.
Proof.
  intros Hb He. unfold start. unfold bind at 1, gets at 1. rewrite Hb.
  unfold bind at 1, gets at 1. rewrite He, decide_True by done.
  destruct (stop s) as [[[[] s'] e]|]; done.
Qed.

Lemma start_first_queued s k p t :
  is_busy s = false →
  (∀ q, q ∈ m_tasks s → is_Some (tasks s !! q)) →
  m_tasks s !! k = Some p → tasks s !! p = Some t → status t = QUEUED →
  (∀ j q u, (j < k)%nat → m_tasks s !! j = Some q → tasks s !! q = Some u →
            status u ≠ QUEUED) →
  start s
  = Some (tt, started p t s,
          [converter_start (param t); start_conversion (Z.of_nat k) (param t)]).
Proof.
  intros Hb Halloc Hk Ht Hq Hbefore. unfold start.
  unfold bind at 1, gets at 1. rewrite Hb. unfold bind at 1, gets at 1.
  rewrite decide_False; last first.
  { apply lookup_lt_Some in Hk. lia. }
  unfold bind.
  rewrite (start_loop_found s k p t _ 0%nat); try done; [lia|].
  intros j q u Hj. apply Hbefore. lia.
Qed.

Lemma start_none_queued s :
  is_busy s = false → m_tasks s ≠ [] →
  (∀ q, q ∈ m_tasks s → is_Some (tasks s !! q)) →
  (∀ q u, q ∈ m_tasks s → tasks s !! q = Some u → status u ≠ QUEUED) →
  start s = (stop ;; emit all_tasks_finished) s.
Proof.
  intros Hb Hne Halloc Hnone. unfold start.
  unfold bind at 1, gets at 1. rewrite Hb. unfold bind at 1, gets at 1.
  rewrite decide_False; last first.
  { destruct (m_tasks s); [done|]. cbn. lia. }
  unfold bind at 1.
  rewrite (start_loop_none s _ 0%nat); try done.
  - destruct ((stop ;; emit all_tasks_finished) s) as [[[[] s'] e]|]; done.
  - intros j q u _ Hj. apply Hnone. by eapply list_elem_of_lookup_2.
Qed.

Lemma task_finished_slot_idle exitcode s :
  m_current_task s = None → task_finished_slot exitcode s = Some (tt, s, []).
Proof. intros Hc. unfold task_finished_slot. by mrun. Qed.

Lemma task_finished_slot_current exitcode s p t i it w :
  m_current_task s = Some p → tasks s !! p = Some t → listitem t = Some i →
  items s !! i = Some it → widget it = Some w →
  task_finished_slot exitcode s
  = (emit (task_finished exitcode) ;; start) (finished exitcode p t i it s).
Proof.
  intros Hc Ht Hi Hit Hw. unfold task_finished_slot, finished.
  destruct (decide (exitcode = 0)) as [->|Hne].
  - mrun.
    by destruct (start _) as [[[[] s'] e]|].
  - mrun.
    rewrite insert_insert_eq.
    by destruct (start _) as [[[[] s'] e]|].
Qed.

Lemma addTask_probe_failed param_ probe s :
  probe_wait probe = false ∨ probe_error probe = true →
  addTask param_ probe s = Some (false, s, []).
Proof.
  intros Hp. unfold addTask.
  destruct Hp as [-> | ->]; [done|]. by rewrite orb_true_r.
Qed.

Lemma addTask_probe_ok param_ probe s :
  probe_wait probe = true → probe_error probe = false →
  addTask param_ probe s = Some (true, added param_ probe s, []).
Proof.
  intros Hw He. unfold addTask, added, new_Task, new_QTreeWidgetItem, addTopLevelItem.
  rewrite Hw, He. mrun.
  rewrite decide_True by (apply elem_of_app; right; apply list_elem_of_singleton; done).
  mrun.
  rewrite !insert_insert_eq. reflexivity.
Qed.

Lemma removeTask_running index s p t :
  0 ≤ index → m_tasks s !! Z.to_nat index = Some p → tasks s !! p = Some t →
  status t = RUNNING →
  removeTask index s = Some (tt, s, []).
Proof.
  intros Hi Hp Ht Hr. unfold removeTask. munfold.
  rewrite decide_True by done. rewrite Hp. cbn. rewrite Ht. cbn.
  rewrite decide_False; [done|]. intros Hn. by apply Hn.
Qed.

Lemma removeTask_not_running k s p t i it :
  m_tasks s !! k = Some p → tasks s !! p = Some t → status t ≠ RUNNING →
  p ∉ delete k (m_tasks s) →
  topLevelItems s !! k = Some i → items s !! i = Some it →
  removeTask (Z.of_nat k) s = Some (tt, removed k p i s, []).
Proof.
  intros Hp Ht Hr Hnd Hi Hit.
  unfold removeTask, m_tasks_remove, takeTopLevelItem, delete_item, removed.
  by mrun.
Qed.

Lemma removeTask_out_of_range index s :
  index < 0 ∨ Z.of_nat (length (m_tasks s)) ≤ index →
  removeTask index s = None.
Proof.
  intros Hi. unfold removeTask, bind at 1, task_at.
  destruct (decide (0 ≤ index)) as [Hpos|]; [|done].
  rewrite (lookup_ge_None_2 (m_tasks s)); [done|]. lia.
Qed.

End execution.

(** ** Well-formedness is an invariant *)

Section invariant.
Context `{Platform}.

Lemma WF_new : WF ConvertList_new.
Proof.
  split; cbn.
  - constructor.
  - constructor.
  - constructor.
  - intros p t Hp. by apply elem_of_nil in Hp.
  - intros j k p q t u _ Hj. by rewrite lookup_nil in Hj.
  - intros p. split; [done|]. intros [Hp _]. by apply elem_of_nil in Hp.
  - split; [done|]. intros [? ?]. done.
Qed.

(** Every task of the list has its row, at the same position. *)
Lemma WF_row_at s k p :
  WF s → m_tasks s !! k = Some p →
  ∃ t i it w, tasks s !! p = Some t ∧ listitem t = Some i ∧
              topLevelItems s !! k = Some i ∧
              items s !! i = Some it ∧ widget it = Some w.
Proof.
  intros Hwf Hk.
  destruct (Forall2_lookup_l _ _ _ _ _ (wf_rows s Hwf) Hk)
    as (i & Hi & t & it & Ht & Hl & Hit & [w Hw]).
  by exists t, i, it, w.
Qed.

Lemma WF_row s p :
  WF s → p ∈ m_tasks s →
  ∃ t i it w, tasks s !! p = Some t ∧ listitem t = Some i ∧
              items s !! i = Some it ∧ widget it = Some w.
Proof.
  intros Hwf Hp. apply list_elem_of_lookup_1 in Hp as [k Hk].
  destruct (WF_row_at s k p Hwf Hk) as (t & i & it & w & ? & ? & ? & ? & ?).
  by exists t, i, it, w.
Qed.

Lemma WF_alloc s : WF s → ∀ q, q ∈ m_tasks s → is_Some (tasks s !! q).
Proof.
  intros Hwf q Hq. destruct (WF_row s q Hwf Hq) as (t & ? & ? & ? & -> & _). eauto.
Qed.

Lemma WF_current_row s p :
  WF s → m_current_task s = Some p →
  ∃ t i it w, tasks s !! p = Some t ∧ status t = RUNNING ∧ listitem t = Some i ∧
              items s !! i = Some it ∧ widget it = Some w.
Proof.
  intros Hwf Hc. apply (wf_current s Hwf) in Hc as [Hp Hs].
  destruct (WF_row s p Hwf Hp) as (t & i & it & w & Ht & ? & ? & ?).
  exists t, i, it, w. split_and!; try done.
  unfold status_at in Hs. rewrite Ht in Hs. by injection Hs.
Qed.

(** A state with the same list, rows and counter as a well-formed one,
    where every task keeps its id and its row and every row its bar, is
    well formed as soon as its current task and busy flag are right. *)
Lemma WF_same_shape s s' :
  WF s →
  m_tasks s' = m_tasks s → topLevelItems s' = topLevelItems s →
  prev_index s' = prev_index s →
  (∀ p t, tasks s !! p = Some t →
          ∃ t', tasks s' !! p = Some t' ∧ id t' = id t ∧ listitem t' = listitem t) →
  (∀ i it, items s !! i = Some it → is_Some (widget it) →
           ∃ it', items s' !! i = Some it' ∧ is_Some (widget it')) →
  (∀ p, m_current_task s' = Some p ↔ p ∈ m_tasks s' ∧ status_at s' p = Some RUNNING) →
  (is_busy s' = true ↔ is_Some (m_current_task s')) →
  WF s'.
Proof.
  intros Hwf Hm Hi Hn Ht Hit Hc Hb.
  assert (∀ p t', p ∈ m_tasks s → tasks s' !! p = Some t' →
                  ∃ t, tasks s !! p = Some t ∧ id t' = id t) as Hback.
  { intros p t' Hp Hp'. destruct (WF_alloc s Hwf p Hp) as [t Hpt].
    destruct (Ht p t Hpt) as (t'' & Hp'' & Hid & _).
    exists t. split; [done|]. congruence. }
  split; try done.
  - rewrite Hm. apply Hwf.
  - rewrite Hi. apply Hwf.
  - rewrite Hm, Hi. eapply Forall2_impl; [apply Hwf|].
    intros p i (t & it & Hpt & Hl & Hii & Hw).
    destruct (Ht p t Hpt) as (t' & Hp' & _ & Hl').
    destruct (Hit i it Hii Hw) as (it' & Hi' & Hw').
    exists t', it'. split_and!; try done. congruence.
  - rewrite Hm, Hn. intros p t' Hp Hp'.
    destruct (Hback p t' Hp Hp') as (t & Hpt & ->).
    by eapply (wf_ids_bound s Hwf).
  - rewrite Hm. intros j k p q t' u' Hjk Hj Hk Hp' Hq'.
    destruct (Hback p t') as (t & Hpt & ->); [by eapply list_elem_of_lookup_2|done|].
    destruct (Hback q u') as (u & Hqu & ->); [by eapply list_elem_of_lookup_2|done|].
    by eapply (wf_ids_sorted s Hwf j k p q).
Qed.

End invariant.

(** Removing one position of a list without duplicates. *)
Lemma NoDup_delete_lookup {A} (l : list A) k x :
  NoDup l → l !! k = Some x → (x ∉ delete k l) ∧ NoDup (delete k l).
Proof.
  intros Hnd Hk. rewrite (delete_Permutation l k x Hk) in Hnd.
  by apply NoDup_cons in Hnd.
Qed.

Lemma elem_of_delete_other {A} (l : list A) k x y :
  l !! k = Some x → y ∈ l → y ≠ x → y ∈ delete k l.
Proof.
  intros Hk Hy Hne. rewrite (delete_Permutation l k x Hk) in Hy.
  apply elem_of_cons in Hy as [|]; done.
Qed.

Section preservation.
Context `{Platform}.

Lemma WF_shown s i it v :
  WF s → items s !! i = Some it → WF (shown i it v s).
Proof.
  intros Hwf Hit. apply (WF_same_shape s); try done.
  - intros p t Ht. by exists t.
  - intros j jt Hj Hw. cbn. destruct (decide (j = i)) as [->|Hne].
    + rewrite lookup_insert_eq. eexists. split; [done|]. cbn. eauto.
    + rewrite lookup_insert_ne by done. eauto.
  - apply Hwf.
  - apply Hwf.
Qed.

Lemma WF_started s p t :
  WF s → is_busy s = false → p ∈ m_tasks s → tasks s !! p = Some t →
  WF (started p t s).
Proof.
  intros Hwf Hb Hp Ht. apply (WF_same_shape s); try done.
  - intros q u Hq. cbn. destruct (decide (q = p)) as [->|Hne].
    + rewrite lookup_insert_eq. eexists. split; [done|]. cbn. split; congruence.
    + rewrite lookup_insert_ne by done. eauto.
  - intros j jt Hj Hw. eauto.
  - intros q. cbn. unfold status_at. cbn. split.
    + intros [= <-]. split; [done|]. by rewrite lookup_insert_eq.
    + intros [Hq Hs]. destruct (decide (q = p)) as [->|Hne]; [done|].
      rewrite lookup_insert_ne in Hs by done.
      assert (m_current_task s = Some q) as Hc by by apply (wf_current s Hwf).
      assert (is_busy s = true); [|congruence].
      apply (wf_busy s Hwf). rewrite Hc. eauto.
Qed.

(** The running task leaves the RUNNING state and nothing is current. *)
Lemma WF_retired s s' p t st :
  WF s → m_current_task s = Some p → tasks s !! p = Some t → st ≠ RUNNING →
  m_tasks s' = m_tasks s → topLevelItems s' = topLevelItems s →
  prev_index s' = prev_index s →
  tasks s' = <[p := set_status st t]> (tasks s) →
  (∀ i it, items s !! i = Some it → is_Some (widget it) →
           ∃ it', items s' !! i = Some it' ∧ is_Some (widget it')) →
  m_current_task s' = None → is_busy s' = false →
  WF s'.
Proof.
  intros Hwf Hc Ht Hst Hm Hi Hn Hts Hit Hc' Hb'.
  apply (WF_same_shape s); try done.
  - intros q u Hq. rewrite Hts. destruct (decide (q = p)) as [->|Hne].
    + rewrite lookup_insert_eq. eexists. split; [done|]. cbn. split; congruence.
    + rewrite lookup_insert_ne by done. eauto.
  - intros q. rewrite Hc', Hm. unfold status_at. rewrite Hts. split; [done|].
    intros [Hq Hs]. destruct (decide (q = p)) as [->|Hne].
    + rewrite lookup_insert_eq in Hs. cbn in Hs. congruence.
    + rewrite lookup_insert_ne in Hs by done.
      assert (m_current_task s = Some q) as Hcq by by apply (wf_current s Hwf).
      congruence.
  - rewrite Hc', Hb'. split; [done|]. by intros [? ?].
Qed.

Lemma WF_stopped s p t i it :
  WF s → m_current_task s = Some p → tasks s !! p = Some t →
  items s !! i = Some it →
  WF (stopped p t i it s).
Proof.
  intros Hwf Hc Ht Hit. apply (WF_retired s _ p t QUEUED); try done.
  intros j jt Hj Hw. cbn. destruct (decide (j = i)) as [->|Hne].
  - rewrite lookup_insert_eq. eexists. split; [done|]. cbn. eauto.
  - rewrite lookup_insert_ne by done. eauto.
Qed.

Lemma WF_stop_idle s :
  WF s → m_current_task s = None → WF (set_is_busy false s).
Proof.
  intros Hwf Hc. apply (WF_same_shape s); try done; eauto.
  - apply Hwf.
  - cbn. rewrite Hc. split; [done|]. by intros [? ?].
Qed.

Lemma WF_finished exitcode s p t i it w :
  WF s → m_current_task s = Some p → tasks s !! p = Some t →
  items s !! i = Some it → widget it = Some w →
  WF (finished exitcode p t i it s).
Proof.
  intros Hwf Hc Ht Hit Hw. unfold finished.
  destruct (decide (exitcode = 0)) as [->|Hne].
  - apply (WF_retired s _ p t FINISHED); try done. eauto.
  - apply (WF_retired s _ p t FAILED); try done.
    intros j jt Hj Hjw. cbn. destruct (decide (j = i)) as [->|Hnj].
    + rewrite lookup_insert_eq. eexists. split; [done|]. cbn. eauto.
    + rewrite lookup_insert_ne by done. eauto.
Qed.

Lemma WF_added param_ probe s : WF s → WF (added param_ probe s).
Proof.
  intros Hwf. unfold added.
  set (p := fresh (dom (tasks s))). set (i := fresh (dom (items s))).
  assert (tasks s !! p = None) as Hp by apply not_elem_of_dom, is_fresh.
  assert (items s !! i = None) as Hi by apply not_elem_of_dom, is_fresh.
  assert (p ∉ m_tasks s) as Hpm.
  { intros Hin. destruct (WF_alloc s Hwf p Hin) as [? ?]. congruence. }
  assert (i ∉ topLevelItems s) as Him.
  { intros Hin. apply list_elem_of_lookup_1 in Hin as [k Hk].
    destruct (Forall2_lookup_r _ _ _ _ _ (wf_rows s Hwf) Hk)
      as (q & _ & t & it & _ & _ & Hit & _).
    congruence. }
  split; cbn.
  - apply NoDup_app. split; [apply Hwf|]. split; [|apply NoDup_singleton].
    intros q Hq ->%list_elem_of_singleton. done.
  - apply NoDup_app. split; [apply Hwf|]. split; [|apply NoDup_singleton].
    intros q Hq ->%list_elem_of_singleton. done.
  - apply Forall2_app.
    + eapply Forall2_impl; [apply Hwf|].
      intros q j (t & it & Ht & Hl & Hit & Hw). exists t, it. cbn.
      rewrite !lookup_insert_ne by congruence. done.
    + constructor; [|constructor]. eexists _, _. cbn.
      rewrite !lookup_insert_eq. split_and!; try done.
  - intros q t Hq Ht. destruct (decide (q = p)) as [->|Hne].
    + rewrite lookup_insert_eq in Ht. injection Ht as <-. cbn. lia.
    + rewrite lookup_insert_ne in Ht by done.
      apply elem_of_app in Hq as [Hq | Hq%list_elem_of_singleton]; [|done].
      pose proof (wf_ids_bound s Hwf q t Hq Ht). lia.
  - intros j k q r t u Hjk Hj Hk Ht Hu.
    assert (k < length (m_tasks s ++ [p]))%nat as Hlen by by eapply lookup_lt_Some.
    rewrite length_app in Hlen. cbn in Hlen.
    rewrite lookup_app_l in Hj by lia.
    assert (q ∈ m_tasks s) as Hq by by eapply list_elem_of_lookup_2.
    rewrite lookup_insert_ne in Ht by congruence.
    destruct (decide (k < length (m_tasks s))%nat) as [Hlt|Hge].
    + rewrite lookup_app_l in Hk by lia.
      assert (r ∈ m_tasks s) as Hr by by eapply list_elem_of_lookup_2.
      rewrite lookup_insert_ne in Hu by congruence.
      by eapply (wf_ids_sorted s Hwf j k q r).
    + rewrite lookup_app_r in Hk by lia.
      replace (k - length (m_tasks s))%nat with 0%nat in Hk by lia.
      injection Hk as <-. rewrite lookup_insert_eq in Hu. injection Hu as <-.
      cbn. pose proof (wf_ids_bound s Hwf q t Hq Ht). lia.
  - intros q. unfold status_at; cbn. split.
    + intros Hc. apply (wf_current s Hwf) in Hc as [Hq Hs].
      split; [apply elem_of_app; by left|].
      rewrite lookup_insert_ne by congruence. done.
    + intros [Hq Hs]. destruct (decide (q = p)) as [->|Hne].
      * rewrite lookup_insert_eq in Hs. done.
      * rewrite lookup_insert_ne in Hs by done.
        apply elem_of_app in Hq as [Hq|Hq%list_elem_of_singleton]; [|done].
        by apply (wf_current s Hwf).
  - apply Hwf.
Qed.

Lemma WF_removed s k p t i :
  WF s → m_tasks s !! k = Some p → tasks s !! p = Some t → status t ≠ RUNNING →
  topLevelItems s !! k = Some i →
  WF (removed k p i s).
Proof.
  intros Hwf Hk Ht Hst Hi.
  destruct (NoDup_delete_lookup _ _ _ (wf_nodup s Hwf) Hk) as [Hpn Hnd].
  destruct (NoDup_delete_lookup _ _ _ (wf_items_nodup s Hwf) Hi) as [Hin Hnd'].
  split; cbn; try done.
  - pose proof (Forall2_delete _ _ _ k (wf_rows s Hwf)) as HF.
    apply Forall2_same_length_lookup in HF as [Hlen HF].
    apply Forall2_same_length_lookup. split; [done|].
    intros j q r Hq Hr. destruct (HF j q r Hq Hr) as (u & it & Hu & Hl & Hit & Hw).
    exists u, it. cbn.
    assert (q ≠ p) by (intros ->; by eapply Hpn, list_elem_of_lookup_2).
    assert (r ≠ i) by (intros ->; by eapply Hin, list_elem_of_lookup_2).
    rewrite !lookup_delete_ne by done. done.
  - intros q u Hq Hu. apply lookup_delete_Some in Hu as [Hne Hu].
    apply (wf_ids_bound s Hwf q u); [by eapply list_elem_of_delete_inv|done].
  - intros j j' q r u v Hjj Hj Hj' Hu Hv.
    apply lookup_delete_Some in Hu as [_ Hu].
    apply lookup_delete_Some in Hv as [_ Hv].
    destruct (decide (j < k)%nat), (decide (j' < k)%nat).
    + rewrite list_lookup_delete_lt in Hj, Hj' by done.
      by eapply (wf_ids_sorted s Hwf j j' q r).
    + rewrite list_lookup_delete_lt in Hj by done.
      rewrite list_lookup_delete_ge in Hj' by lia.
      eapply (wf_ids_sorted s Hwf j (S j') q r); [lia|done..].
    + lia.
    + rewrite list_lookup_delete_ge in Hj, Hj' by lia.
      eapply (wf_ids_sorted s Hwf (S j) (S j') q r); [lia|done..].
  - intros q. unfold status_at; cbn. split.
    + intros Hc. apply (wf_current s Hwf) in Hc as [Hq Hs].
      assert (q ≠ p).
      { intros ->. unfold status_at in Hs. rewrite Ht in Hs. cbn in Hs. congruence. }
      split; [by eapply elem_of_delete_other|]. by rewrite lookup_delete_ne.
    + intros [Hq Hs]. assert (q ≠ p) by (intros ->; done).
      rewrite lookup_delete_ne in Hs by done.
      apply (wf_current s Hwf). split; [by eapply list_elem_of_delete_inv|done].
  - apply Hwf.
Qed.

End preservation.

(** ** Every operation keeps the state well formed *)

Section steps.
Context `{Platform}.

Lemma status_at_Some s p st :
  status_at s p = Some st ↔ ∃ t, tasks s !! p = Some t ∧ status t = st.
Proof.
  unfold status_at. destruct (tasks s !! p) as [t|]; cbn; split.
  - intros [= <-]. eauto.
  - intros (? & [= <-] & <-). done.
  - done.
  - intros (? & ? & _). done.
Qed.

Lemma start_first s k p :
  (∀ q, q ∈ m_tasks s → is_Some (tasks s !! q)) →
  is_busy s = false → first_queued s = Some (k, p) →
  ∃ t, tasks s !! p = Some t ∧ status t = QUEUED ∧
       start s = Some (tt, started p t s,
                       [converter_start (param t);
                        start_conversion (Z.of_nat k) (param t)]).
Proof.
  intros Halloc Hb Hf. apply list_find_Some in Hf as (Hk & Hs & Hbefore).
  apply status_at_Some in Hs as (t & Ht & Hq).
  exists t. split; [done|]. split; [done|].
  apply start_first_queued; try done.
  intros j q u Hj Hjq Hu Hst. apply (Hbefore j q Hjq Hj).
  apply status_at_Some. eauto.
Qed.

Lemma start_drained s :
  (∀ q, q ∈ m_tasks s → is_Some (tasks s !! q)) →
  is_busy s = false → first_queued s = None → m_tasks s ≠ [] →
  start s = (stop ;; emit all_tasks_finished) s.
Proof.
  intros Halloc Hb Hf Hne. apply list_find_None in Hf.
  apply start_none_queued; try done.
  intros q u Hq Hu Hst. rewrite Forall_forall in Hf. apply (Hf q Hq).
  apply status_at_Some. eauto.
Qed.

Lemma stop_WF s :
  WF s →
  ∃ s', stop s = Some (tt, s', [converter_stop]) ∧ WF s' ∧
        m_current_task s' = None ∧ is_busy s' = false ∧
        m_tasks s' = m_tasks s.
Proof.
  intros Hwf. destruct (m_current_task s) as [p|] eqn:Hc.
  - destruct (WF_current_row s p Hwf Hc) as (t & i & it & w & Ht & Hr & Hl & Hit & Hw).
    exists (stopped p t i it s). split; [by eapply stop_current|].
    split; [by apply WF_stopped|]. done.
  - exists (set_is_busy false s). split; [by apply stop_idle|].
    split; [by apply WF_stop_idle|]. done.
Qed.

Lemma start_WF s : WF s → ∃ s' e, start s = Some (tt, s', e) ∧ WF s'.
Proof.
  intros Hwf. destruct (is_busy s) eqn:Hb.
  { exists s, []. split; [by apply start_busy|done]. }
  destruct (stop_WF s Hwf) as (s1 & Hstop & Hwf1 & _).
  destruct (decide (m_tasks s = [])) as [He|Hne].
  { exists s1, [converter_stop]. split; [|done]. by rewrite start_empty. }
  destruct (first_queued s) as [[k p]|] eqn:Hf.
  - destruct (start_first s k p (WF_alloc s Hwf) Hb Hf) as (t & Ht & Hq & ->).
    eexists _, _. split; [done|]. apply WF_started; try done.
    apply list_find_Some in Hf as (Hk & _). by eapply list_elem_of_lookup_2.
  - rewrite (start_drained s (WF_alloc s Hwf) Hb Hf Hne).
    exists s1, [converter_stop; all_tasks_finished]. split; [|done].
    unfold bind. by rewrite Hstop.
Qed.

Lemma progress_refreshed_WF percentage s :
  WF s → ∃ s', progress_refreshed percentage s = Some (tt, s', []) ∧ WF s'.
Proof.
  intros Hwf. destruct (m_current_task s) as [p|] eqn:Hc.
  - destruct (WF_current_row s p Hwf Hc) as (t & i & it & w & Ht & Hr & Hl & Hit & Hw).
    exists (shown i it percentage s).
    split; [by eapply progress_refreshed_current|by apply WF_shown].
  - exists s. split; [by apply progress_refreshed_idle|done].
Qed.

Lemma task_finished_slot_WF exitcode s :
  WF s → ∃ s' e, task_finished_slot exitcode s = Some (tt, s', e) ∧ WF s'.
Proof.
  intros Hwf. destruct (m_current_task s) as [p|] eqn:Hc.
  - destruct (WF_current_row s p Hwf Hc) as (t & i & it & w & Ht & Hr & Hl & Hit & Hw).
    rewrite (task_finished_slot_current exitcode s p t i it w) by done.
    destruct (start_WF (finished exitcode p t i it s)) as (s' & e & Hs & Hwf').
    { by eapply WF_finished. }
    exists s', (task_finished exitcode :: e). split; [|done].
    unfold bind, emit. by rewrite Hs.
  - exists s, []. split; [by apply task_finished_slot_idle|done].
Qed.

Lemma addTask_WF param_ probe s :
  WF s → ∃ b s', addTask param_ probe s = Some (b, s', []) ∧ WF s'.
Proof.
  intros Hwf. destruct (probe_wait probe) eqn:Hw, (probe_error probe) eqn:He.
  - exists false, s. split; [|done]. apply addTask_probe_failed. by right.
  - exists true, (added param_ probe s).
    split; [by apply addTask_probe_ok|by apply WF_added].
  - exists false, s. split; [|done]. apply addTask_probe_failed. by left.
  - exists false, s. split; [|done]. apply addTask_probe_failed. by left.
Qed.

Lemma removeTask_WF index s :
  WF s → 0 ≤ index < Z.of_nat (length (m_tasks s)) →
  ∃ s', removeTask index s = Some (tt, s', []) ∧ WF s'.
Proof.
  intros Hwf Hi.
  destruct (lookup_lt_is_Some_2 (m_tasks s) (Z.to_nat index)) as [p Hp]; [lia|].
  destruct (WF_row_at s _ p Hwf Hp) as (t & i & it & w & Ht & Hl & Hti & Hit & Hw).
  destruct (decide (status t = RUNNING)) as [Hr|Hr].
  - exists s. split; [|done]. eapply removeTask_running; [lia|done..].
  - exists (removed (Z.to_nat index) p i s). split; [|by eapply WF_removed].
    rewrite <- (Z2Nat.id index) at 1 by lia.
    eapply removeTask_not_running; try done.
    by apply (NoDup_delete_lookup _ _ _ (wf_nodup s Hwf) Hp).
Qed.

Lemma run_op_WF o s :
  WF s → in_range s o → ∃ s' e, run_op o s = Some (tt, s', e) ∧ WF s'.
Proof.
  intros Hwf Hr. destruct o as [p probe|index| | |pct|exitcode]; cbn.
  - destruct (addTask_WF p probe s Hwf) as (b & s' & Ha & Hwf').
    exists s', []. split; [|done]. unfold bind, ret. by rewrite Ha.
  - destruct (removeTask_WF index s Hwf Hr) as (s' & ? & ?). eauto.
  - by apply start_WF.
  - destruct (stop_WF s Hwf) as (s' & ? & ? & _). eauto.
  - destruct (progress_refreshed_WF pct s Hwf) as (s' & ? & ?). eauto.
  - by apply task_finished_slot_WF.
Qed.

Lemma step_in_range s o s' : step s o s' → in_range s o.
Proof.
  intros [e He]. destruct o as [p probe|index| | |pct|exitcode]; try done.
  cbn in *. destruct (decide (0 ≤ index < Z.of_nat (length (m_tasks s)))); [done|].
  rewrite removeTask_out_of_range in He; [done|lia].
Qed.

Lemma step_WF s o s' : WF s → step s o s' → WF s'.
Proof.
  intros Hwf Hstep. pose proof (step_in_range s o s' Hstep) as Hr.
  destruct Hstep as [e He].
  destruct (run_op_WF o s Hwf Hr) as (s1 & e1 & He1 & Hwf1). congruence.
Qed.

Lemma Reachable_WF s : Reachable s → WF s.
Proof.
  induction 1 as [|s o s' _ IH Hstep]; [apply WF_new|by eapply step_WF].
Qed.

End steps.

(** ** What each operation does to a well-formed state *)

Section cases.
Context `{Platform}.

Lemma WF_idle s : WF s → is_busy s = false → m_current_task s = None.
Proof.
  intros Hwf Hb. destruct (m_current_task s) as [p|] eqn:Hc; [|done].
  assert (is_busy s = true); [|congruence].
  apply (wf_busy s Hwf). rewrite Hc. eauto.
Qed.

Lemma stop_cases s :
  WF s →
  (m_current_task s = None ∧
   stop s = Some (tt, set_is_busy false s, [converter_stop]))
  ∨ (∃ p t i it w,
       m_current_task s = Some p ∧ tasks s !! p = Some t ∧ status t = RUNNING ∧
       listitem t = Some i ∧ items s !! i = Some it ∧ widget it = Some w ∧
       stop s = Some (tt, stopped p t i it s, [converter_stop])).
Proof.
  intros Hwf. destruct (m_current_task s) as [p|] eqn:Hc.
  - right.
    destruct (WF_current_row s p Hwf Hc) as (t & i & it & w & Ht & Hr & Hl & Hit & Hw).
    exists p, t, i, it, w. split_and!; try done. by eapply stop_current.
  - left. split; [done|]. by apply stop_idle.
Qed.

Lemma start_cases s :
  WF s →
  (is_busy s = true ∧ start s = Some (tt, s, []))
  ∨ (is_busy s = false ∧ m_tasks s = [] ∧
     start s = Some (tt, set_is_busy false s, [converter_stop]))
  ∨ (is_busy s = false ∧
     ∃ k p t, first_queued s = Some (k, p) ∧ tasks s !! p = Some t ∧
              status t = QUEUED ∧
              start s = Some (tt, started p t s,
                              [converter_start (param t);
                               start_conversion (Z.of_nat k) (param t)]))
  ∨ (is_busy s = false ∧ m_tasks s ≠ [] ∧ first_queued s = None ∧
     start s = Some (tt, set_is_busy false s,
                     [converter_stop; all_tasks_finished])).
Proof.
  intros Hwf. destruct (is_busy s) eqn:Hb.
  { left. split; [done|]. by apply start_busy. }
  right. pose proof (WF_idle s Hwf Hb) as Hc.
  pose proof (stop_idle s Hc) as Hstop.
  destruct (decide (m_tasks s = [])) as [He|Hne].
  { left. split; [done|]. split; [done|]. by rewrite start_empty. }
  right. destruct (first_queued s) as [[k p]|] eqn:Hf.
  - left. split; [done|].
    destruct (start_first s k p (WF_alloc s Hwf) Hb Hf) as (t & Ht & Hq & Hs).
    by exists k, p, t.
  - right. split_and!; try done.
    rewrite (start_drained s (WF_alloc s Hwf) Hb Hf Hne).
    unfold bind. by rewrite Hstop.
Qed.

Lemma task_finished_slot_cases exitcode s :
  WF s →
  (m_current_task s = None ∧ task_finished_slot exitcode s = Some (tt, s, []))
  ∨ (∃ p t i it w s' e,
       m_current_task s = Some p ∧ tasks s !! p = Some t ∧ status t = RUNNING ∧
       listitem t = Some i ∧ items s !! i = Some it ∧ widget it = Some w ∧
       start (finished exitcode p t i it s) = Some (tt, s', e) ∧
       task_finished_slot exitcode s = Some (tt, s', task_finished exitcode :: e)).
Proof.
  intros Hwf. destruct (m_current_task s) as [p|] eqn:Hc.
  - right.
    destruct (WF_current_row s p Hwf Hc) as (t & i & it & w & Ht & Hr & Hl & Hit & Hw).
    destruct (start_WF (finished exitcode p t i it s)) as (s' & e & Hs & Hwf').
    { by eapply WF_finished. }
    exists p, t, i, it, w, s', e. split_and!; try done.
    rewrite (task_finished_slot_current exitcode s p t i it w) by done.
    unfold bind, emit. by rewrite Hs.
  - left. split; [done|]. by apply task_finished_slot_idle.
Qed.

Lemma progress_refreshed_cases percentage s :
  WF s →
  (m_current_task s = None ∧ progress_refreshed percentage s = Some (tt, s, []))
  ∨ (∃ p t i it w,
       m_current_task s = Some p ∧ tasks s !! p = Some t ∧
       listitem t = Some i ∧ items s !! i = Some it ∧ widget it = Some w ∧
       progress_refreshed percentage s = Some (tt, shown i it percentage s, [])).
Proof.
  intros Hwf. destruct (m_current_task s) as [p|] eqn:Hc.
  - right.
    destruct (WF_current_row s p Hwf Hc) as (t & i & it & w & Ht & Hr & Hl & Hit & Hw).
    exists p, t, i, it, w. split_and!; try done.
    by eapply progress_refreshed_current.
  - left. split; [done|]. by apply progress_refreshed_idle.
Qed.

Lemma removeTask_cases index s :
  WF s → 0 ≤ index < Z.of_nat (length (m_tasks s)) →
  ∃ p t i, m_tasks s !! Z.to_nat index = Some p ∧ tasks s !! p = Some t ∧
           topLevelItems s !! Z.to_nat index = Some i ∧
           ((status t = RUNNING ∧ removeTask index s = Some (tt, s, []))
            ∨ (status t ≠ RUNNING ∧
               removeTask index s = Some (tt, removed (Z.to_nat index) p i s, []))).
Proof.
  intros Hwf Hi.
  destruct (lookup_lt_is_Some_2 (m_tasks s) (Z.to_nat index)) as [p Hp]; [lia|].
  destruct (WF_row_at s _ p Hwf Hp) as (t & i & it & w & Ht & Hl & Hti & Hit & Hw).
  exists p, t, i. split_and!; try done.
  destruct (decide (status t = RUNNING)) as [Hr|Hr].
  - left. split; [done|]. eapply removeTask_running; [lia|done..].
  - right. split; [done|].
    rewrite <- (Z2Nat.id index) at 1 by lia.
    eapply removeTask_not_running; try done.
    by apply (NoDup_delete_lookup _ _ _ (wf_nodup s Hwf) Hp).
Qed.

Lemma addTask_cases param_ probe s :
  addTask param_ probe s = Some (false, s, [])
  ∨ (probe_wait probe = true ∧ probe_error probe = false ∧
     addTask param_ probe s = Some (true, added param_ probe s, [])).
Proof.
  destruct (probe_wait probe) eqn:Hw, (probe_error probe) eqn:He.
  - left. apply addTask_probe_failed. by right.
  - right. split_and!; try done. by apply addTask_probe_ok.
  - left. apply addTask_probe_failed. by left.
  - left. apply addTask_probe_failed. by left.
Qed.

End cases.

(** ** Tasks keep their identity *)

Section lifecycle.
Context `{Platform}.

Lemma moves_same_tasks E s s' :
  m_tasks s' = m_tasks s → prev_index s' = prev_index s → tasks s' = tasks s →
  moves E s s'.
Proof.
  intros Hm Hn Ht. split; [done|]. split; [done|].
  intros p t Hp. exists t. rewrite Ht. split_and!; try done. by left.
Qed.

Lemma moves_update (E : TaskStatus → TaskStatus → Prop) s s' p t st :
  m_tasks s' = m_tasks s → prev_index s' = prev_index s →
  tasks s !! p = Some t → tasks s' = <[p := set_status st t]> (tasks s) →
  E (status t) st →
  moves E s s'.
Proof.
  intros Hm Hn Hp Ht HE. split; [done|]. split; [done|].
  intros q u Hq. rewrite Ht. destruct (decide (q = p)) as [->|Hne].
  - rewrite lookup_insert_eq. eexists. split; [done|].
    assert (u = t) as -> by congruence. cbn. split_and!; try done. by right.
  - rewrite lookup_insert_ne by done. exists u. split_and!; try done. by left.
Qed.

Lemma moves_trans (E1 E2 E : TaskStatus → TaskStatus → Prop) s s1 s2 :
  moves E1 s s1 → moves E2 s1 s2 →
  (∀ a b, E1 a b → E a b) → (∀ a b, E2 a b → E a b) →
  (∀ a b c, E1 a b → E2 b c → E a c) →
  moves E s s2.
Proof.
  intros (Hm1 & Hn1 & H1) (Hm2 & Hn2 & H2) HE1 HE2 HE12.
  split; [congruence|]. split; [congruence|].
  intros p t Hp.
  destruct (H1 p t Hp) as (t1 & Hp1 & Hi1 & Hpa1 & Hl1 & Hs1).
  destruct (H2 p t1 Hp1) as (t2 & Hp2 & Hi2 & Hpa2 & Hl2 & Hs2).
  exists t2. split_and!; try congruence.
  destruct Hs1 as [Hs1|Hs1], Hs2 as [Hs2|Hs2].
  - left. congruence.
  - right. rewrite <- Hs1. by apply HE2.
  - right. rewrite Hs2. by apply HE1.
  - right. by eapply HE12.
Qed.

Lemma stop_moves s s' e :
  WF s → stop s = Some (tt, s', e) →
  moves (λ a b, a = RUNNING ∧ b = QUEUED) s s'.
Proof.
  intros Hwf Hs.
  destruct (stop_cases s Hwf)
    as [[Hc Hs']|(p & t & i & it & w & Hc & Ht & Hr & Hl & Hit & Hw & Hs')];
    rewrite Hs' in Hs; injection Hs as <- <-.
  - by apply moves_same_tasks.
  - by apply (moves_update _ s _ p t QUEUED).
Qed.

Lemma start_moves s s' e :
  WF s → start s = Some (tt, s', e) →
  moves (λ a b, a = QUEUED ∧ b = RUNNING) s s'.
Proof.
  intros Hwf Hs.
  destruct (start_cases s Hwf)
    as [[Hb Hs']|[(Hb & He & Hs')|[(Hb & k & p & t & Hf & Ht & Hq & Hs')
                                  |(Hb & Hne & Hf & Hs')]]];
    rewrite Hs' in Hs; injection Hs as <- <-.
  - by apply moves_same_tasks.
  - by apply moves_same_tasks.
  - by apply (moves_update _ s _ p t RUNNING).
  - by apply moves_same_tasks.
Qed.

Lemma finished_moves exitcode s p t i it :
  tasks s !! p = Some t → status t = RUNNING →
  moves (λ a b, a = RUNNING ∧ b = if decide (exitcode = 0) then FINISHED else FAILED)
        s (finished exitcode p t i it s).
Proof.
  intros Ht Hr. unfold finished.
  destruct (decide (exitcode = 0)) as [->|Hne].
  - by apply (moves_update _ s _ p t FINISHED).
  - by apply (moves_update _ s _ p t FAILED).
Qed.

Lemma task_finished_slot_moves exitcode s s' e :
  WF s → task_finished_slot exitcode s = Some (tt, s', e) →
  moves (edge (op_finished exitcode)) s s'.
Proof.
  intros Hwf Hs.
  destruct (task_finished_slot_cases exitcode s Hwf)
    as [[Hc Hs']|(p & t & i & it & w & s1 & e1 & Hc & Ht & Hr & Hl & Hit & Hw & Hst & Hs')];
    rewrite Hs' in Hs; injection Hs as <- <-.
  - by apply moves_same_tasks.
  - eapply moves_trans.
    + by apply (finished_moves exitcode s p t i it).
    + eapply start_moves; [|done]. by eapply WF_finished.
    + intros a b [-> ->]. cbn. by destruct (decide (exitcode = 0)).
    + intros a b [-> ->]. done.
    + intros a b c [-> ->] [Hb _]. by destruct (decide (exitcode = 0)).
Qed.

Lemma progress_refreshed_moves percentage s s' e :
  WF s → progress_refreshed percentage s = Some (tt, s', e) →
  moves (λ _ _, False) s s'.
Proof.
  intros Hwf Hs.
  destruct (progress_refreshed_cases percentage s Hwf)
    as [[Hc Hs']|(p & t & i & it & w & Hc & Ht & Hl & Hit & Hw & Hs')];
    rewrite Hs' in Hs; injection Hs as <- <-; by apply moves_same_tasks.
Qed.

(** The tasks of the list carry different ids. *)
Lemma listed_id_inj s t u : WF s → listed s t → listed s u → id t = id u → t = u.
Proof.
  intros Hwf (p & Hp & Ht) (q & Hq & Hu) Hid.
  apply list_elem_of_lookup_1 in Hp as [j Hj].
  apply list_elem_of_lookup_1 in Hq as [k Hk].
  destruct (Nat.lt_trichotomy j k) as [Hlt|[->|Hgt]].
  - pose proof (wf_ids_sorted s Hwf j k p q t u Hlt Hj Hk Ht Hu). lia.
  - congruence.
  - pose proof (wf_ids_sorted s Hwf k j q p u t Hgt Hk Hj Hu Ht). lia.
Qed.

Lemma task_with_id_listed s n t :
  WF s → task_with_id s n = Some t ↔ listed s t ∧ id t = n.
Proof.
  intros Hwf. unfold task_with_id.
  assert (∀ u, u ∈ filter (λ t, id t = n) (omap (λ p, tasks s !! p) (m_tasks s))
               ↔ listed s u ∧ id u = n) as Hin.
  { intros u. rewrite list_elem_of_filter, list_elem_of_omap. unfold listed. tauto. }
  split.
  - intros Hh. apply Hin. by eapply head_Some_elem_of.
  - intros Hl. apply Hin in Hl as Hl'.
    destruct (filter _ _) as [|u l] eqn:Hf; [by apply elem_of_nil in Hl'|]. cbn.
    assert (listed s u ∧ id u = n) as [Hu Hun] by (apply Hin; left).
    f_equal. apply (listed_id_inj s); [done|done|tauto|]. destruct Hl. congruence.
Qed.

(** What one operation does to the tasks of the list: a task that
    stays keeps its id and moves along an edge of the operation at
    most, and a task that appears carries the next id. *)
Lemma step_tasks s o s' :
  WF s → step s o s' →
  prev_index s ≤ prev_index s' ∧
  (∀ t, listed s t → ∀ t', listed s' t' → id t' = id t →
        status t' = status t ∨ edge o (status t) (status t')) ∧
  (∀ t', listed s' t' → id t' ≤ prev_index s → ∃ t, listed s t ∧ id t = id t').
Proof.
  intros Hwf Hstep. pose proof (step_WF s o s' Hwf Hstep) as Hwf'.
  assert (∀ E : TaskStatus → TaskStatus → Prop,
            moves E s s' → (∀ a b, E a b → edge o a b) →
            prev_index s ≤ prev_index s' ∧
            (∀ t, listed s t → ∀ t', listed s' t' → id t' = id t →
                  status t' = status t ∨ edge o (status t) (status t')) ∧
            (∀ t', listed s' t' → id t' ≤ prev_index s →
                   ∃ t, listed s t ∧ id t = id t')) as Hmoves.
  { intros E (Hm & Hn & Hts) HE. split; [lia|]. split.
    - intros t (p & Hp & Ht) t' Hl' Hid.
      destruct (Hts p t Ht) as (t1 & Ht1 & Hid1 & _ & _ & Hs1).
      assert (t' = t1) as ->.
      { apply (listed_id_inj s'); [done|done| |congruence].
        exists p. by rewrite Hm. }
      destruct Hs1; [by left|right; by apply HE].
    - intros t' (p & Hp & Ht') _. rewrite Hm in Hp.
      destruct (WF_alloc s Hwf p Hp) as [t Ht].
      destruct (Hts p t Ht) as (t1 & Ht1 & Hid1 & _).
      exists t. split; [by exists p|]. congruence. }
  assert (s' = s →
          prev_index s ≤ prev_index s' ∧
          (∀ t, listed s t → ∀ t', listed s' t' → id t' = id t →
                status t' = status t ∨ edge o (status t) (status t')) ∧
          (∀ t', listed s' t' → id t' ≤ prev_index s →
                 ∃ t, listed s t ∧ id t = id t')) as Hsame.
  { intros ->. apply (Hmoves (λ _ _, False)); [|done]. by apply moves_same_tasks. }
  pose proof (step_in_range s o s' Hstep) as Hr. destruct Hstep as [e He].
  destruct o as [pa probe|index| | |pct|exitcode]; cbn in He.
  - unfold bind, ret in He.
    destruct (addTask_cases pa probe s) as [Ha|(_ & _ & Ha)]; rewrite Ha in He;
      injection He as <- <-; [by apply Hsame|].
    assert (tasks s !! fresh (dom (tasks s)) = None) as Hfresh
      by apply not_elem_of_dom, is_fresh.
    assert (∀ p t, p ∈ m_tasks s → tasks s !! p = Some t →
                   tasks (added pa probe s) !! p = Some t) as Hold.
    { intros p t Hp Ht. cbn. rewrite lookup_insert_ne; [done|]. congruence. }
    split; [cbn; lia|]. split.
    + intros t (p & Hp & Ht) t' Hl' Hid. left. f_equal.
      apply (listed_id_inj (added pa probe s)); [done|done| |done].
      exists p. split; [cbn; apply elem_of_app; by left|by apply Hold].
    + intros t' (p & Hp & Ht') Hle. cbn in Hp, Ht'.
      apply elem_of_app in Hp as [Hp|Hp%list_elem_of_singleton].
      * destruct (WF_alloc s Hwf p Hp) as [t Ht].
        rewrite lookup_insert_ne in Ht' by congruence.
        exists t'. split; [by exists p|done].
      * subst p. rewrite lookup_insert_eq in Ht'. injection Ht' as <-.
        cbn in Hle. lia.
  - cbn in Hr.
    destruct (removeTask_cases index s Hwf Hr)
      as (p & t & i & Hp & Ht & Hi & [[Hs Hrm]|[Hs Hrm]]);
      rewrite Hrm in He; injection He as <- <-; [by apply Hsame|].
    destruct (NoDup_delete_lookup _ _ _ (wf_nodup s Hwf) Hp) as [Hpn _].
    assert (∀ u, listed (removed (Z.to_nat index) p i s) u → listed s u) as Hback.
    { intros u (q & Hq & Hu). cbn in Hq, Hu.
      apply lookup_delete_Some in Hu as [_ Hu].
      exists q. split; [by eapply list_elem_of_delete_inv|done]. }
    split; [cbn; lia|]. split.
    + intros u Hu u' Hu' Hid. left. f_equal.
      apply (listed_id_inj s); [done| |done|done]. by apply Hback.
    + intros u' Hu' _. exists u'. split; [by apply Hback|done].
  - apply (Hmoves _ (start_moves s s' e Hwf He)). by intros a b [-> ->].
  - apply (Hmoves _ (stop_moves s s' e Hwf He)). by intros a b [-> ->].
  - apply (Hmoves _ (progress_refreshed_moves pct s s' e Hwf He)). done.
  - apply (Hmoves _ (task_finished_slot_moves exitcode s s' e Hwf He)). done.
Qed.

End lifecycle.

(** ** Reading well-formed states *)

Lemma filter_none {A} (P : A → Prop) `{!∀ x, Decision (P x)} (l : list A) :
  (∀ x, x ∈ l → ¬ P x) → filter P l = [].
Proof.
  induction l as [|a l IH]; intros Hn; [done|].
  rewrite filter_cons_False.
  - apply IH. intros x Hx. apply Hn. by right.
  - apply Hn. by left.
Qed.

Section reading.
Context `{Platform}.

(** The running tasks of a well-formed state are the current task. *)
Lemma running_current s :
  WF s → running s = match m_current_task s with Some p => [p] | None => [] end.
Proof.
  intros Hwf. unfold running.
  assert (∀ x, x ∈ m_tasks s → status_at s x = Some RUNNING →
               m_current_task s = Some x) as Hcur.
  { intros x Hx Hs. by apply (wf_current s Hwf). }
  destruct (m_current_task s) as [p|] eqn:Hc.
  - apply (wf_current s Hwf) in Hc as [Hp Hs].
    pose proof (wf_nodup s Hwf) as Hnd.
    apply list_elem_of_split in Hp as (l1 & l2 & Hl). rewrite Hl in Hnd, Hcur |- *.
    apply NoDup_app in Hnd as (_ & Hdisj & Hnd2). apply NoDup_cons in Hnd2 as [Hp2 _].
    rewrite filter_app, filter_cons_True by done.
    rewrite (filter_none _ l1), (filter_none _ l2); [done|..].
    + intros x Hx Hsx. assert (Some p = Some x) as [= ->]; [|done].
      apply Hcur; [|done]. apply elem_of_app. right. by right.
    + intros x Hx Hsx. assert (Some p = Some x) as [= ->].
      { apply Hcur; [|done]. apply elem_of_app. by left. }
      apply (Hdisj x Hx). by left.
  - apply filter_none. intros x Hx Hsx. by pose proof (Hcur x Hx Hsx).
Qed.

Lemma run_ops_Reachable os : ∀ s s' e,
  Reachable s → run_ops os s = Some (tt, s', e) → Reachable s'.
Proof.
  induction os as [|o os IH]; intros s s' e Hr Hrun; cbn in Hrun.
  - unfold ret in Hrun. by injection Hrun as <- <-.
  - unfold bind in Hrun.
    destruct (run_op o s) as [[[[] s1] e1]|] eqn:Ho; [|done].
    destruct (run_ops os s1) as [[[[] s2] e2]|] eqn:Hos; [|done].
    injection Hrun as <- <-. eapply IH; [|done].
    eapply Reachable_step; [done|]. by exists e1.
Qed.

End reading.

(** The sample states are reachable. *)
Lemma state_after_Reachable os : @Reachable sample_platform (state_after os).
Proof.
  unfold state_after.
  destruct (run_ops os ConvertList_new) as [[[[] s] e]|] eqn:Hrun.
  - eapply run_ops_Reachable; [apply Reachable_new|done].
  - apply Reachable_new.
Qed.

Lemma two_queued_Reachable : @Reachable sample_platform two_queued.
Proof.
  exact (state_after_Reachable [op_addTask (sample_param "a") probe_ok;
                                op_addTask (sample_param "b") probe_ok]).
Qed.

Lemma first_running_Reachable : @Reachable sample_platform first_running.
Proof.
  exact (state_after_Reachable [op_addTask (sample_param "a") probe_ok;
                                op_addTask (sample_param "b") probe_ok;
                                op_start]).
Qed.

Lemma all_done_Reachable : @Reachable sample_platform all_done.
Proof.
  exact (state_after_Reachable [op_addTask (sample_param "a") probe_ok;
                                op_addTask (sample_param "b") probe_ok;
                                op_start; op_finished 1; op_finished 0]).
Qed.


(** ** The model at work *)

(** The scenario of the spec: A and B are enqueued and started; A
    finishes with exit code 0, then B with exit code 1. *)
Example scenario_events :
  snd <$> @run_ops sample_platform
            [op_addTask (sample_param "a") probe_ok;
             op_addTask (sample_param "b") probe_ok;
             op_start; op_finished 0; op_finished 1] ConvertList_new
  = Some [converter_start (sample_param "a");
          start_conversion 0 (sample_param "a");
          task_finished 0;
          converter_start (sample_param "b");
          start_conversion 1 (sample_param "b");
          task_finished 1;
          converter_stop; all_tasks_finished].
Proof. reflexivity. Qed.

Example scenario_statuses :
  status_at second_running 1%positive = Some FINISHED ∧
  status_at second_running 2%positive = Some RUNNING ∧
  status_at all_done 1%positive = Some FAILED ∧
  progress_text_of all_done 1%positive = Some "Failed" ∧
  status_at all_done 2%positive = Some FINISHED.
Proof. repeat split; reflexivity. Qed.

(** A failed probe gives out no id, and a removal does not free one. *)
Example assigned_ids_example :
  @assigned_ids sample_platform
    [op_addTask (sample_param "a") probe_ok;
     op_addTask (sample_param "b") probe_unreadable;
     op_addTask (sample_param "c") probe_ok;
     op_removeTask 1; op_removeTask 0;
     op_addTask (sample_param "d") probe_ok] ConvertList_new
  = [1; 2; 3].
Proof. reflexivity. Qed.

(** A late exit code after [stop] is dropped. *)
Example late_finished_example :
  @run_ops sample_platform [op_stop; op_finished 1; op_progress 50] first_running
  = Some (tt, two_queued, [converter_stop]).
Proof. reflexivity. Qed.

(** [removeTask] outside the list is undefined. *)
Example removeTask_undefined_example :
  @removeTask 2 two_queued = None ∧ @removeTask (-1) two_queued = None.
Proof. split; reflexivity. Qed.
(** ** The properties of the specification *)

Section single_running.
Context `{Platform}.

(** C1: in every state reachable from the constructor by [addTask],
    [removeTask], [start], [stop], [progress_refreshed] and
    [task_finished_slot], at most one task of the list is RUNNING;
    [isBusy()] returns true exactly when one task is RUNNING; and
    [m_current_task] is non-null exactly when one task is RUNNING. *)
Theorem C1_at_most_one_running s :
  Reachable s →
  (running_count s ≤ 1)%nat ∧
  (∃ b, isBusy s = Some (b, s, []) ∧ (b = true ↔ running_count s = 1%nat)) ∧
  (is_Some (m_current_task s) ↔ running_count s = 1%nat).
Proof.
  intros Hwf%Reachable_WF. unfold running_count. rewrite (running_current s Hwf).
  split; [destruct (m_current_task s); cbn; lia|]. split.
  - exists (is_busy s). split; [done|]. rewrite (wf_busy s Hwf).
    destruct (m_current_task s); cbn; split; try done; try lia; eauto;
      by intros [? ?].
  - destruct (m_current_task s); cbn; split; try done; try lia; eauto;
      by intros [? ?].
Qed.

End single_running.


Section start_and_finish.
Context `{Platform}.

(** The events of [start] hold no [task_finished]. *)
Lemma start_events s s' e c :
  WF s → start s = Some (tt, s', e) → task_finished c ∉ e.
Proof.
  intros Hwf Hs.
  destruct (start_cases s Hwf)
    as [[Hb Hs']|[(Hb & He & Hs')|[(Hb & k & p & t & Hf & Ht & Hq & Hs')
                                  |(Hb & Hne & Hf & Hs')]]];
    rewrite Hs' in Hs; injection Hs as <- <-; intros Hin;
    repeat (apply elem_of_cons in Hin as [?|Hin]; [done|]);
    by apply elem_of_nil in Hin.
Qed.

(** C2: when a task is current, [task_finished_slot(exitcode)] sets its
    status to FINISHED for exit code 0 and to FAILED otherwise; on failure
    it also sets the bar of its row to 0 and the text of the progress
    column to the failure text; it clears [m_current_task] and [is_busy],
    emits [task_finished(exitcode)] once, and then runs [start] on the
    state so obtained ([s1] below), whose result and events are those of
    the slot.  When no task is current the slot does nothing. *)
Theorem C2_task_finished_slot exitcode s :
  Reachable s →
  (m_current_task s = None → task_finished_slot exitcode s = Some (tt, s, [])) ∧
  (∀ p, m_current_task s = Some p →
     ∃ s1 s' e,
       status_at s p = Some RUNNING ∧
       status_at s1 p = Some (if decide (exitcode = 0) then FINISHED else FAILED) ∧
       (exitcode ≠ 0 → progress_of s1 p = Some (mkBar 0) ∧
                       progress_text_of s1 p = Some (tr "Failed")) ∧
       m_current_task s1 = None ∧ is_busy s1 = false ∧
       m_tasks s1 = m_tasks s ∧ prev_index s1 = prev_index s ∧
       (∀ q, q ≠ p → tasks s1 !! q = tasks s !! q) ∧
       start s1 = Some (tt, s', e) ∧
       task_finished_slot exitcode s = Some (tt, s', task_finished exitcode :: e) ∧
       (∀ c, task_finished c ∉ e) ∧
       status_at s' p = Some (if decide (exitcode = 0) then FINISHED else FAILED)).
Proof.
  intros Hwf%Reachable_WF. split; [apply task_finished_slot_idle|].
  intros p Hc.
  destruct (task_finished_slot_cases exitcode s Hwf)
    as [[Hc' _]|(p' & t & i & it & w & s' & e & Hc' & Ht & Hr & Hl & Hit & Hw & Hst & Hs)];
    [congruence|].
  assert (p' = p) as -> by congruence.
  pose proof (WF_finished exitcode s p t i it w Hwf Hc Ht Hit Hw) as Hwf1.
  set (st := if decide (exitcode = 0) then FINISHED else FAILED).
  assert (tasks (finished exitcode p t i it s) !! p = Some (set_status st t)) as Ht1.
  { unfold finished, st. destruct (decide (exitcode = 0)); cbn; by rewrite lookup_insert_eq. }
  exists (finished exitcode p t i it s), s', e. split_and!; try done.
  - apply status_at_Some. eauto.
  - unfold status_at. by rewrite Ht1.
  - intros Hne. unfold progress_of, progress_text_of. rewrite Ht1. cbn. rewrite Hl. cbn.
    unfold finished. rewrite decide_False by done. cbn. rewrite lookup_insert_eq. cbn.
    split; [done|]. apply list_lookup_insert_eq.
    rewrite length_app, length_replicate. unfold m_progress_column_index. lia.
  - unfold finished. by destruct (decide (exitcode = 0)).
  - unfold finished. by destruct (decide (exitcode = 0)).
  - intros q Hq. unfold finished.
    destruct (decide (exitcode = 0)); cbn; by rewrite lookup_insert_ne.
  - intros c. by eapply start_events.
  - destruct (start_moves _ s' e Hwf1 Hst) as (_ & _ & Hts).
    destruct (Hts p _ Ht1) as (t' & Ht' & _ & _ & _ & Hs').
    unfold status_at. rewrite Ht'. cbn. f_equal.
    destruct Hs' as [Hs'|[Hs' _]]; [done|].
    cbn in Hs'. unfold st in Hs'. by destruct (decide (exitcode = 0)).
Qed.

(** C3: [start] while busy changes nothing and emits nothing.  [start]
    while not busy, with a QUEUED task in the list, takes the first QUEUED
    task in list order (position [k], address [p]): it sets [is_busy],
    sets the status of that task and of no other to RUNNING, makes it the
    current task, calls the converter once with its parameters and emits
    [start_conversion] once with its position and parameters. *)
Theorem C3_start s :
  Reachable s →
  (is_busy s = true → start s = Some (tt, s, [])) ∧
  (is_busy s = false → (∃ q, q ∈ m_tasks s ∧ status_at s q = Some QUEUED) →
   ∃ k p t s',
     m_tasks s !! k = Some p ∧ tasks s !! p = Some t ∧ status t = QUEUED ∧
     (∀ j q, (j < k)%nat → m_tasks s !! j = Some q → status_at s q ≠ Some QUEUED) ∧
     start s = Some (tt, s', [converter_start (param t);
                              start_conversion (Z.of_nat k) (param t)]) ∧
     is_busy s' = true ∧ m_current_task s' = Some p ∧
     tasks s' = <[p := set_status RUNNING t]> (tasks s) ∧
     running s' = [p] ∧
     m_tasks s' = m_tasks s ∧ prev_index s' = prev_index s ∧
     items s' = items s ∧ topLevelItems s' = topLevelItems s).
Proof.
  intros Hwf%Reachable_WF. split; [apply start_busy|].
  intros Hb (q & Hq & Hsq).
  destruct (start_cases s Hwf)
    as [[Hb' _]|[(_ & He & _)|[(_ & k & p & t & Hf & Ht & Hst & Hs)
                               |(_ & _ & Hf & _)]]].
  - congruence.
  - rewrite He in Hq. by apply elem_of_nil in Hq.
  - apply list_find_Some in Hf as (Hk & _ & Hbefore).
    exists k, p, t, (started p t s). split_and!; try done.
    + intros j r Hj Hr. by apply (Hbefore j r).
    + assert (WF (started p t s)) as Hwf'.
      { apply WF_started; try done. by eapply list_elem_of_lookup_2. }
      by rewrite (running_current _ Hwf').
  - apply list_find_None in Hf. rewrite Forall_forall in Hf. by destruct (Hf q Hq).
Qed.

End start_and_finish.

Section add_and_remove.
Context `{Platform}.

Lemma last_id_added param_ probe s :
  last_id (added param_ probe s) = Some (prev_index s + 1).
Proof.
  unfold last_id. cbn. rewrite last_snoc. cbn. by rewrite lookup_insert_eq.
Qed.

(** The ids given out from a well-formed state increase and lie above
    its counter. *)
Lemma assigned_ids_sorted os : ∀ s,
  WF s →
  StronglySorted Z.lt (assigned_ids os s) ∧
  Forall (λ n, prev_index s < n) (assigned_ids os s).
Proof.
  induction os as [|o os IH]; intros s Hwf; [split; constructor|].
  assert (∀ s' e, run_op o s = Some (tt, s', e) →
                  StronglySorted Z.lt (assigned_ids os s') ∧
                  Forall (λ n, prev_index s < n) (assigned_ids os s')) as Hnext.
  { intros s' e He.
    assert (step s o s') as Hstep by by exists e.
    destruct (IH s' (step_WF s o s' Hwf Hstep)) as [Hs Hb]. split; [done|].
    destruct (step_tasks s o s' Hwf Hstep) as (Hle & _).
    eapply Forall_impl; [done|]. cbn. intros n Hn. lia. }
  destruct o as [pa probe|index| | |pct|exitcode]; cbn [assigned_ids].
  - destruct (addTask_cases pa probe s) as [Ha|(_ & _ & Ha)]; rewrite Ha.
    + apply (Hnext s []). cbn. unfold bind, ret. by rewrite Ha.
    + rewrite last_id_added. cbn.
      destruct (IH (added pa probe s) (WF_added pa probe s Hwf)) as [Hs Hb].
      cbn in Hb. split.
      * by constructor.
      * constructor; [lia|]. eapply Forall_impl; [done|]. cbn. intros n Hn. lia.
  - destruct (run_op _ s) as [[[[] s'] e]|] eqn:He; [by eapply Hnext|split; constructor].
  - destruct (run_op _ s) as [[[[] s'] e]|] eqn:He; [by eapply Hnext|split; constructor].
  - destruct (run_op _ s) as [[[[] s'] e]|] eqn:He; [by eapply Hnext|split; constructor].
  - destruct (run_op _ s) as [[[[] s'] e]|] eqn:He; [by eapply Hnext|split; constructor].
  - destruct (run_op _ s) as [[[[] s'] e]|] eqn:He; [by eapply Hnext|split; constructor].
Qed.

(** C4: when the probe succeeds, [addTask] returns [true], appends one
    new QUEUED task at the end of the list, whose id is the counter plus
    one, and [count()] grows by one; the tasks already there are left as
    they were.  Hence the ids given out by the successful calls in any
    sequence of operations strictly increase, removals included, and lie
    above the ids of the tasks already in the list. *)
Theorem C4_addTask_ids s :
  Reachable s →
  (∀ param_ probe, probe_wait probe = true → probe_error probe = false →
     ∃ s' p t n,
       addTask param_ probe s = Some (true, s', []) ∧
       m_tasks s' = m_tasks s ++ [p] ∧ (p ∉ m_tasks s) ∧
       tasks s' !! p = Some t ∧ status t = QUEUED ∧ id t = prev_index s + 1 ∧
       param t = param_ ∧
       prev_index s' = prev_index s + 1 ∧
       (∀ q, q ∈ m_tasks s → tasks s' !! q = tasks s !! q) ∧
       count s = Some (n, s, []) ∧ count s' = Some (n + 1, s', [])) ∧
  (∀ os, StronglySorted Z.lt (assigned_ids os s) ∧
         Forall (λ n, prev_index s < n) (assigned_ids os s)) ∧
  (∀ t, listed s t → id t ≤ prev_index s).
Proof.
  intros Hwf%Reachable_WF. split; [|split].
  - intros param_ probe Hw He.
    assert (tasks s !! fresh (dom (tasks s)) = None) as Hfresh
      by apply not_elem_of_dom, is_fresh.
    assert (fresh (dom (tasks s)) ∉ m_tasks s) as Hnew.
    { intros Hin. destruct (WF_alloc s Hwf _ Hin) as [? ?]. congruence. }
    exists (added param_ probe s), (fresh (dom (tasks s))).
    eexists. exists (Z.of_nat (length (topLevelItems s))).
    split; [by apply addTask_probe_ok|]. split_and!; try done.
    + cbn. by rewrite lookup_insert_eq.
    + done.
    + done.
    + done.
    + intros q Hq. cbn. rewrite lookup_insert_ne; [done|]. by intros <-.
    + unfold count, topLevelItemCount, gets. cbn. rewrite length_app. cbn.
      do 3 f_equal. lia.
  - intros os. by apply assigned_ids_sorted.
  - intros t (p & Hp & Ht). by apply (wf_ids_bound s Hwf p).
Qed.

(** C5: when the probe does not complete or reports an error, [addTask]
    returns [false] and leaves the whole state as it was: the list, the
    tasks, the counter and the rows. *)
Theorem C5_addTask_probe_failure param_ probe s :
  probe_wait probe = false ∨ probe_error probe = true →
  addTask param_ probe s = Some (false, s, []) ∧
  (∀ s' e, addTask param_ probe s = Some (false, s', e) →
           count s' = count s ∧ prev_index s' = prev_index s ∧
           m_tasks s' = m_tasks s ∧ tasks s' = tasks s).
Proof.
  intros Hp. pose proof (addTask_probe_failed param_ probe s Hp) as Ha.
  split; [done|]. intros s' e He. rewrite Ha in He. by injection He as <- <-.
Qed.

(** C9: [removeTask(index)] on the position of a RUNNING task does
    nothing: the state is what it was and the call is defined. *)
Theorem C9_removeTask_running index s t :
  0 ≤ index → task_of s (Z.to_nat index) = Some t → status t = RUNNING →
  index < Z.of_nat (length (m_tasks s)) ∧
  removeTask index s = Some (tt, s, []).
Proof.
  intros Hi Ht Hr. unfold task_of in Ht.
  destruct (m_tasks s !! Z.to_nat index) as [p|] eqn:Hp; [|done]. cbn in Ht.
  split; [apply lookup_lt_Some in Hp; lia|]. by eapply removeTask_running.
Qed.

End add_and_remove.

Section stop_and_drain.
Context `{Platform}.

(** C6: [stop] while the task at address [p] is RUNNING sets the bar of
    its row to 0, puts its status back to QUEUED, and clears
    [m_current_task] and [is_busy]; when no QUEUED task stands before it
    in the list, [start] right after takes that same task again. *)
Theorem C6_stop_then_start s k p t :
  Reachable s →
  m_tasks s !! k = Some p → tasks s !! p = Some t → status t = RUNNING →
  ∃ s1,
    stop s = Some (tt, s1, [converter_stop]) ∧
    progress_of s1 p = Some (mkBar 0) ∧ status_at s1 p = Some QUEUED ∧
    m_current_task s1 = None ∧ is_busy s1 = false ∧ m_tasks s1 = m_tasks s ∧
    ((∀ j q, (j < k)%nat → m_tasks s !! j = Some q → status_at s q ≠ Some QUEUED) →
     ∃ s2,
       start s1 = Some (tt, s2, [converter_start (param t);
                                 start_conversion (Z.of_nat k) (param t)]) ∧
       m_current_task s2 = Some p ∧ status_at s2 p = Some RUNNING ∧
       is_busy s2 = true).
Proof.
  intros Hwf%Reachable_WF Hk Ht Hr.
  assert (m_current_task s = Some p) as Hc.
  { apply (wf_current s Hwf). split; [by eapply list_elem_of_lookup_2|].
    apply status_at_Some. eauto. }
  destruct (stop_cases s Hwf)
    as [[Hc' _]|(p' & t' & i & it & w & Hc' & Ht' & _ & Hl & Hit & Hw & Hs)];
    [congruence|].
  assert (p' = p) as -> by congruence. assert (t' = t) as -> by congruence.
  pose proof (WF_stopped s p t i it Hwf Hc Ht Hit) as Hwf1.
  exists (stopped p t i it s). split_and!; try done.
  - unfold progress_of. cbn. rewrite lookup_insert_eq. cbn. rewrite Hl. cbn.
    by rewrite lookup_insert_eq.
  - unfold status_at. cbn. by rewrite lookup_insert_eq.
  - intros Hbefore. eexists. split_and!.
    + apply (start_first_queued (stopped p t i it s) k p (set_status QUEUED t));
        try done.
      * by apply WF_alloc.
      * cbn. by rewrite lookup_insert_eq.
      * intros j q u Hj Hq Hu. cbn in Hq, Hu.
        assert (q ≠ p) as Hne.
        { intros ->. pose proof (NoDup_lookup _ _ _ _ (wf_nodup s Hwf) Hq Hk). lia. }
        rewrite lookup_insert_ne in Hu by done.
        intros Hst. apply (Hbefore j q Hj Hq). apply status_at_Some. eauto.
    + done.
    + unfold status_at. cbn. by rewrite lookup_insert_eq.
    + done.
Qed.

(** C7, as the code has it: [start] while not busy, with no QUEUED task
    in the list, calls [stop], so the busy flag ends false; it then emits
    [all_tasks_finished] when the list is not empty, and nothing more
    when the list is empty. *)
Theorem C7_start_nothing_queued s :
  Reachable s → is_busy s = false →
  (∀ p, p ∈ m_tasks s → status_at s p ≠ Some QUEUED) →
  ∃ s',
    stop s = Some (tt, s', [converter_stop]) ∧ is_busy s' = false ∧
    start s = Some (tt, s', if decide (m_tasks s = []) then [converter_stop]
                            else [converter_stop; all_tasks_finished]).
Proof.
  intros Hwf%Reachable_WF Hb Hnone.
  pose proof (WF_idle s Hwf Hb) as Hc.
  exists (set_is_busy false s). split; [by apply stop_idle|]. split; [done|].
  destruct (start_cases s Hwf)
    as [[Hb' _]|[(_ & He & Hs)|[(_ & k & p & t & Hf & Ht & Hst & Hs)
                               |(_ & Hne & Hf & Hs)]]].
  - congruence.
  - by rewrite decide_True.
  - apply list_find_Some in Hf as (Hk & Hq & _).
    destruct (Hnone p); [by eapply list_elem_of_lookup_2|done].
  - by rewrite decide_False.
Qed.

End stop_and_drain.

(** C7, as the spec has it, fails on the empty list: the state of the
    constructor is not busy and has no QUEUED task, and [start] there
    emits no [all_tasks_finished]. *)
Lemma C7_counterexample :
  @Reachable sample_platform ConvertList_new ∧
  is_busy ConvertList_new = false ∧
  (∀ p, p ∈ m_tasks ConvertList_new → status_at ConvertList_new p ≠ Some QUEUED) ∧
  start ConvertList_new = Some (tt, ConvertList_new, [converter_stop]) ∧
  ¬ (∃ s' e, start ConvertList_new = Some (tt, s', e) ∧ all_tasks_finished ∈ e).
Proof.
  split; [apply Reachable_new|]. split; [reflexivity|]. split.
  { intros p Hp. by apply elem_of_nil in Hp. }
  split; [reflexivity|].
  intros (s' & e & He & Hin).
  assert (start ConvertList_new = Some (tt, ConvertList_new, [converter_stop])) as Hs
    by reflexivity.
  rewrite Hs in He. injection He as <- <-.
  apply elem_of_cons in Hin as [Hin|Hin]; [discriminate|by apply elem_of_nil in Hin].
Qed.

Section task_lifecycle.
Context `{Platform}.

Lemma terminal_no_edge o a b : terminal a → ¬ edge o a b.
Proof. intros [-> | ->]; destruct o, b; cbn; tauto. Qed.

(** A task in a terminal state, found again by its id after more
    operations, has the status it had. *)
Lemma terminal_forever os : ∀ s s' e n t t',
  WF s → run_ops os s = Some (tt, s', e) →
  task_with_id s n = Some t → terminal (status t) →
  task_with_id s' n = Some t' → status t' = status t.
Proof.
  induction os as [|o os IH]; intros s s' e n t t' Hwf Hrun Ht Hterm Ht'.
  - cbn in Hrun. unfold ret in Hrun. injection Hrun as <- <-. congruence.
  - cbn in Hrun. unfold bind in Hrun.
    destruct (run_op o s) as [[[[] s1] e1]|] eqn:Ho; [|done].
    destruct (run_ops os s1) as [[[[] s2] e2]|] eqn:Hos; [|done].
    injection Hrun as <- <-.
    assert (step s o s1) as Hstep by by exists e1.
    pose proof (step_WF s o s1 Hwf Hstep) as Hwf1.
    destruct (step_tasks s o s1 Hwf Hstep) as (Hle & Hedge & _).
    apply (task_with_id_listed s n t Hwf) in Ht as [Hl Hid].
    assert (∃ t1, task_with_id s1 n = Some t1) as [t1 Ht1].
    { assert (n ≤ prev_index s1) as Hn.
      { destruct Hl as (p & Hp & Hpt).
        pose proof (wf_ids_bound s Hwf p t Hp Hpt). lia. }
      clear IH Hedge Hterm Hl Hid Hstep Ho Hle Hwf t.
      revert s1 e2 Hwf1 Hos Hn.
      induction os as [|o' os IH']; intros s1 e2 Hwf1 Hos Hn.
      - cbn in Hos. unfold ret in Hos. injection Hos as <- <-. eauto.
      - cbn in Hos. unfold bind in Hos.
        destruct (run_op o' s1) as [[[[] s3] e3]|] eqn:Ho'; [|done].
        destruct (run_ops os s3) as [[[[] s4] e4]|] eqn:Hos'; [|done].
        injection Hos as <- <-.
        assert (step s1 o' s3) as Hstep' by by exists e3.
        pose proof (step_WF s1 o' s3 Hwf1 Hstep') as Hwf3.
        destruct (step_tasks s1 o' s3 Hwf1 Hstep') as (Hle' & _ & Hback).
        destruct (IH' s3 e4 Hwf3 Hos') as [t3 Ht3]; [lia|].
        apply (task_with_id_listed s3 n t3 Hwf3) in Ht3 as [Hl3 Hid3].
        destruct (Hback t3 Hl3) as (t1 & Hl1 & Hid1); [lia|].
        exists t1. apply task_with_id_listed; [done|]. split; [done|congruence]. }
    apply (task_with_id_listed s1 n t1 Hwf1) in Ht1 as Ht1'. destruct Ht1' as [Hl1 Hid1].
    assert (status t1 = status t) as Hsame.
    { destruct (Hedge t Hl t1 Hl1) as [?|He]; [congruence|done|].
      by apply terminal_no_edge in He. }
    rewrite <- Hsame. eapply (IH s1); try done. by rewrite Hsame.
Qed.

(** C8: over one operation, the task with a given id keeps its status
    or changes it along an edge of that operation: QUEUED to RUNNING in
    [start] (as an operation or called by [task_finished_slot]), RUNNING
    to FINISHED in [task_finished_slot(0)], RUNNING to FAILED in
    [task_finished_slot] with another exit code, RUNNING to QUEUED in
    [stop]; and over any sequence of operations a FINISHED or FAILED task
    keeps its status as long as it is in the list. *)
Theorem C8_status_edges s :
  Reachable s →
  (∀ o s' n t t',
     step s o s' → task_with_id s n = Some t → task_with_id s' n = Some t' →
     status t' = status t ∨ edge o (status t) (status t')) ∧
  (∀ os s' e n t t',
     run_ops os s = Some (tt, s', e) →
     task_with_id s n = Some t → terminal (status t) →
     task_with_id s' n = Some t' → status t' = status t).
Proof.
  intros Hwf%Reachable_WF. split.
  - intros o s' n t t' Hstep Ht Ht'.
    pose proof (step_WF s o s' Hwf Hstep) as Hwf'.
    destruct (step_tasks s o s' Hwf Hstep) as (_ & Hedge & _).
    apply (task_with_id_listed s n t Hwf) in Ht as [Hl Hid].
    apply (task_with_id_listed s' n t' Hwf') in Ht' as [Hl' Hid'].
    apply (Hedge t Hl t' Hl'). congruence.
  - intros os s' e n t t'. by apply terminal_forever.
Qed.

(** C10: [progress_refreshed(percentage)] leaves the list, every task,
    the counter, the busy flag and the current task as they are and emits
    nothing; it changes no row but that of the current task, and nothing
    at all when no task is current; and it is defined in every reachable
    state. *)
Theorem C10_progress_refreshed_frame percentage s :
  (∀ s' e, progress_refreshed percentage s = Some (tt, s', e) →
     e = [] ∧ m_tasks s' = m_tasks s ∧ tasks s' = tasks s ∧
     prev_index s' = prev_index s ∧ is_busy s' = is_busy s ∧
     m_current_task s' = m_current_task s ∧
     topLevelItems s' = topLevelItems s ∧
     (m_current_task s = None → s' = s) ∧
     (∀ p t i, m_current_task s = Some p → tasks s !! p = Some t →
               listitem t = Some i →
               progress_of s' p = Some (mkBar percentage) ∧
               ∀ j, j ≠ i → items s' !! j = items s !! j)) ∧
  (Reachable s → ∃ s', progress_refreshed percentage s = Some (tt, s', [])).
Proof.
  split.
  - intros s' e Hp. unfold progress_refreshed in Hp. revert Hp. munfold. cbn.
    destruct (m_current_task s) as [p|] eqn:Hc; cbn.
    + destruct (tasks s !! p) as [t|] eqn:Ht; cbn; [|done].
      destruct (listitem t) as [i|] eqn:Hl; cbn; [|done].
      destruct (items s !! i) as [it|] eqn:Hit; cbn; [|done].
      destruct (widget it) as [w|] eqn:Hw; cbn; [|done].
      rewrite Hit. cbn. intros [= <- <-]. split_and!; try done.
      intros p' t' i' [= <-] Ht' Hl'.
      assert (t' = t) as -> by congruence. assert (i' = i) as -> by congruence.
      split.
      * unfold progress_of. cbn. rewrite Ht. cbn. rewrite Hl. cbn.
        by rewrite lookup_insert_eq.
      * intros j Hj. cbn. by rewrite lookup_insert_ne.
    + intros [= <- <-]. split_and!; done.
  - intros Hwf%Reachable_WF.
    destruct (progress_refreshed_WF percentage s Hwf) as (s' & Hs & _). eauto.
Qed.

End task_lifecycle.

(** ** The properties at the sample states *)

Lemma C1_at_most_one_running_witness :
  @Reachable sample_platform first_running ∧
  (running_count first_running ≤ 1)%nat ∧
  (∃ b, isBusy first_running = Some (b, first_running, []) ∧
        (b = true ↔ running_count first_running = 1%nat)) ∧
  (is_Some (m_current_task first_running) ↔ running_count first_running = 1%nat).
Proof.
  pose proof first_running_Reachable as Hr.
  split; [exact Hr|].
  exact (@C1_at_most_one_running sample_platform first_running Hr).
Defined.

Lemma C2_task_finished_slot_witness :
  @Reachable sample_platform first_running ∧
  m_current_task first_running = Some 1%positive ∧
  ∃ s' e,
    @task_finished_slot sample_platform 1 first_running
    = Some (tt, s', task_finished 1 :: e) ∧
    status_at s' 1%positive = Some FAILED.
Proof.
  pose proof first_running_Reachable as Hr.
  split; [exact Hr|]. split; [reflexivity|].
  destruct (proj2 (@C2_task_finished_slot sample_platform 1 first_running Hr)
              1%positive eq_refl)
    as (s1 & s' & e & _ & _ & _ & _ & _ & _ & _ & _ & _ & Hs & _ & Hst).
  exists s', e. split; [exact Hs|exact Hst].
Defined.

Lemma C3_start_witness :
  @Reachable sample_platform two_queued ∧
  is_busy two_queued = false ∧
  (∃ q, q ∈ m_tasks two_queued ∧ status_at two_queued q = Some QUEUED) ∧
  ∃ k p t s',
    m_tasks two_queued !! k = Some p ∧ tasks two_queued !! p = Some t ∧
    start two_queued
    = Some (tt, s', [converter_start (param t);
                     start_conversion (Z.of_nat k) (param t)]) ∧
    running s' = [p].
Proof.
  pose proof two_queued_Reachable as Hr.
  assert (∃ q, q ∈ m_tasks two_queued ∧ status_at two_queued q = Some QUEUED) as Hq.
  { exists 2%positive. split; [|reflexivity]. right. left. }
  split; [exact Hr|]. split; [reflexivity|]. split; [exact Hq|].
  destruct (proj2 (@C3_start sample_platform two_queued Hr) eq_refl Hq)
    as (k & p & t & s' & Hk & Ht & _ & _ & Hs & _ & _ & _ & Hrun & _).
  exists k, p, t, s'. split_and!; assumption.
Defined.

Lemma C4_addTask_ids_witness :
  @Reachable sample_platform two_queued ∧
  probe_wait probe_ok = true ∧ probe_error probe_ok = false ∧
  (∃ s' p t,
     @addTask sample_platform (sample_param "c") probe_ok two_queued
     = Some (true, s', []) ∧
     m_tasks s' = m_tasks two_queued ++ [p] ∧ tasks s' !! p = Some t ∧
     status t = QUEUED ∧ id t = 3) ∧
  StronglySorted Z.lt
    (@assigned_ids sample_platform
       [op_addTask (sample_param "c") probe_ok; op_removeTask 0;
        op_addTask (sample_param "d") probe_ok] two_queued).
Proof.
  pose proof two_queued_Reachable as Hr.
  split; [exact Hr|]. split; [reflexivity|]. split; [reflexivity|].
  destruct (@C4_addTask_ids sample_platform two_queued Hr) as (Hadd & Hids & _).
  split.
  - destruct (Hadd (sample_param "c") probe_ok eq_refl eq_refl)
      as (s' & p & t & n & Ha & Hm & _ & Ht & Hs & Hid & _).
    exists s', p, t. split_and!; assumption.
  - apply Hids.
Defined.

Lemma C5_addTask_probe_failure_witness :
  (probe_wait probe_timeout = false ∨ probe_error probe_timeout = true) ∧
  @addTask sample_platform (sample_param "c") probe_timeout two_queued
  = Some (false, two_queued, []).
Proof.
  assert (probe_wait probe_timeout = false ∨ probe_error probe_timeout = true) as Hp
    by (left; reflexivity).
  split; [exact Hp|].
  exact (proj1 (@C5_addTask_probe_failure sample_platform
                  (sample_param "c") probe_timeout two_queued Hp)).
Defined.

Lemma C6_stop_then_start_witness :
  @Reachable sample_platform first_running ∧
  m_tasks first_running !! 0%nat = Some 1%positive ∧
  tasks first_running !! 1%positive
  = Some (mkTask 1 RUNNING (sample_param "a") (Some 1%positive)) ∧
  ∃ s1 s2 e,
    stop first_running = Some (tt, s1, [converter_stop]) ∧
    status_at s1 1%positive = Some QUEUED ∧
    start s1 = Some (tt, s2, e) ∧ m_current_task s2 = Some 1%positive.
Proof.
  pose proof first_running_Reachable as Hr.
  assert (tasks first_running !! 1%positive
          = Some (mkTask 1 RUNNING (sample_param "a") (Some 1%positive))) as Ht
    by reflexivity.
  split; [exact Hr|]. split; [reflexivity|]. split; [exact Ht|].
  destruct (@C6_stop_then_start sample_platform first_running 0%nat 1%positive _
              Hr eq_refl Ht eq_refl)
    as (s1 & Hstop & _ & Hq & _ & _ & _ & Hstart).
  destruct Hstart as (s2 & Hs2 & Hc2 & _).
  { intros j q Hj. lia. }
  exists s1, s2. eexists. split_and!; eassumption.
Defined.

Lemma C7_start_nothing_queued_witness :
  @Reachable sample_platform all_done ∧
  is_busy all_done = false ∧
  (∀ p, p ∈ m_tasks all_done → status_at all_done p ≠ Some QUEUED) ∧
  ∃ s', start all_done = Some (tt, s', [converter_stop; all_tasks_finished]).
Proof.
  pose proof all_done_Reachable as Hr.
  assert (∀ p, p ∈ m_tasks all_done → status_at all_done p ≠ Some QUEUED) as Hnone.
  { intros p Hp.
    apply elem_of_cons in Hp as [->|Hp]; [discriminate|].
    apply elem_of_cons in Hp as [->|Hp]; [discriminate|].
    apply elem_of_nil in Hp. destruct Hp. }
  split; [exact Hr|]. split; [reflexivity|]. split; [exact Hnone|].
  destruct (@C7_start_nothing_queued sample_platform all_done Hr eq_refl Hnone)
    as (s' & _ & _ & Hs).
  exists s'. exact Hs.
Defined.

Lemma C8_status_edges_witness :
  @Reachable sample_platform first_running ∧
  @step sample_platform first_running (op_finished 0) second_running ∧
  task_with_id first_running 1
  = Some (mkTask 1 RUNNING (sample_param "a") (Some 1%positive)) ∧
  task_with_id second_running 1
  = Some (mkTask 1 FINISHED (sample_param "a") (Some 1%positive)) ∧
  (FINISHED = RUNNING ∨ @edge sample_platform (op_finished 0) RUNNING FINISHED).
Proof.
  pose proof first_running_Reachable as Hr.
  assert (@step sample_platform first_running (op_finished 0) second_running) as Hstep.
  { exists [task_finished 0; converter_start (sample_param "b");
            start_conversion 1 (sample_param "b")].
    reflexivity. }
  assert (task_with_id first_running 1
          = Some (mkTask 1 RUNNING (sample_param "a") (Some 1%positive))) as Ht
    by reflexivity.
  assert (task_with_id second_running 1
          = Some (mkTask 1 FINISHED (sample_param "a") (Some 1%positive))) as Ht'
    by reflexivity.
  split; [exact Hr|]. split; [exact Hstep|]. split; [exact Ht|]. split; [exact Ht'|].
  exact (proj1 (@C8_status_edges sample_platform first_running Hr)
           (op_finished 0) second_running 1 _ _ Hstep Ht Ht').
Defined.

Lemma C9_removeTask_running_witness :
  0 ≤ 0 ∧
  task_of first_running (Z.to_nat 0)
  = Some (mkTask 1 RUNNING (sample_param "a") (Some 1%positive)) ∧
  @removeTask 0 first_running = Some (tt, first_running, []).
Proof.
  assert (task_of first_running (Z.to_nat 0)
          = Some (mkTask 1 RUNNING (sample_param "a") (Some 1%positive))) as Ht
    by reflexivity.
  split; [lia|]. split; [exact Ht|].
  exact (proj2 (@C9_removeTask_running 0 first_running _ ltac:(lia) Ht eq_refl)).
Defined.

Lemma C10_progress_refreshed_frame_witness :
  @Reachable sample_platform first_running ∧
  ∃ s', progress_refreshed 40 first_running = Some (tt, s', []) ∧
        tasks s' = tasks first_running ∧
        progress_of s' 1%positive = Some (mkBar 40).
Proof.
  pose proof first_running_Reachable as Hr.
  split; [exact Hr|].
  destruct (@C10_progress_refreshed_frame sample_platform 40 first_running)
    as [Hframe Hdef].
  destruct (Hdef Hr) as [s' Hs].
  destruct (Hframe s' [] Hs) as (_ & _ & Ht & _ & _ & _ & _ & _ & Hrow).
  exists s'. split; [exact Hs|]. split; [exact Ht|].
  exact (proj1 (Hrow 1%positive _ 1%positive eq_refl eq_refl eq_refl)).
Defined.

(** ** Further properties of the member functions *)

Section safety.
Context `{Platform}.

(** X1: in a reachable state an operation has defined behaviour exactly
    when it is not a [removeTask] with an index outside the list: no other
    call goes through a null or dangling pointer, and [removeTask] does
    not check its index. *)
Theorem X1_defined_iff_in_range s o :
  Reachable s → (is_Some (run_op o s) ↔ in_range s o).
Proof.
  intros Hwf%Reachable_WF. split.
  - intros [[[[] s'] e] He]. apply (step_in_range s o s'). by exists e.
  - intros Hr. destruct (run_op_WF o s Hwf Hr) as (s' & e & He & _). eauto.
Qed.

(** X2: in a reachable state the rows of the view and the tasks of the
    list stand side by side: the task at position [k] owns the item at
    position [k], which is alive and carries a progress bar; no task and
    no item occurs twice; and the current task is a task of the list. *)
Theorem X2_rows_beside_tasks s :
  Reachable s →
  length (topLevelItems s) = length (m_tasks s) ∧
  NoDup (m_tasks s) ∧ NoDup (topLevelItems s) ∧
  (∀ k p, m_tasks s !! k = Some p →
     ∃ t i it w, tasks s !! p = Some t ∧ listitem t = Some i ∧
                 topLevelItems s !! k = Some i ∧
                 items s !! i = Some it ∧ widget it = Some w) ∧
  (∀ p, m_current_task s = Some p → p ∈ m_tasks s ∧ is_Some (tasks s !! p)).
Proof.
  intros Hwf%Reachable_WF. split_and!.
  - symmetry. eapply Forall2_length, Hwf.
  - apply Hwf.
  - apply Hwf.
  - intros k p. by apply WF_row_at.
  - intros p Hc. apply (wf_current s Hwf) in Hc as [Hp _].
    split; [done|]. by apply WF_alloc.
Qed.

Lemma count_WF s :
  WF s → count s = Some (Z.of_nat (length (m_tasks s)), s, []).
Proof.
  intros Hwf. unfold count, topLevelItemCount, gets.
  by rewrite (Forall2_length _ _ _ (wf_rows s Hwf)).
Qed.

(** X3: [count()] and [isEmpty()] read the view, and in a reachable state
    they give the length of the task list and whether it is empty. *)
Theorem X3_count_is_list_length s :
  Reachable s →
  count s = Some (Z.of_nat (length (m_tasks s)), s, []) ∧
  isEmpty s = Some (bool_decide (m_tasks s = []), s, []).
Proof.
  intros Hwf%Reachable_WF. split; [by apply count_WF|].
  unfold isEmpty, topLevelItemCount, bind, gets, ret.
  rewrite <- (Forall2_length _ _ _ (wf_rows s Hwf)). cbn. do 3 f_equal.
  apply bool_decide_ext. destruct (m_tasks s); cbn; split; try done; lia.
Qed.

(** X4: [removeTask] on a position whose task is not RUNNING takes that
    task out of the list and its row out of the view, deletes the row,
    and leaves every other task and row, the order of the list, the
    counter, the current task and the busy flag as they were; [count()]
    drops by one. *)
Theorem X4_removeTask_not_running index s p t :
  Reachable s → 0 ≤ index →
  m_tasks s !! Z.to_nat index = Some p → tasks s !! p = Some t →
  status t ≠ RUNNING →
  ∃ s' i,
    removeTask index s = Some (tt, s', []) ∧
    m_tasks s' = delete (Z.to_nat index) (m_tasks s) ∧
    (p ∉ m_tasks s') ∧
    listitem t = Some i ∧ (i ∉ topLevelItems s') ∧ items s' !! i = None ∧
    (∀ q, q ≠ p → tasks s' !! q = tasks s !! q) ∧
    (∀ j, j ≠ i → items s' !! j = items s !! j) ∧
    prev_index s' = prev_index s ∧
    m_current_task s' = m_current_task s ∧ is_busy s' = is_busy s ∧
    count s' = Some (Z.of_nat (length (m_tasks s)) - 1, s', []) ∧
    Reachable s'.
Proof.
  intros Hr Hi Hp Ht Hs. pose proof (Reachable_WF s Hr) as Hwf.
  assert (0 ≤ index < Z.of_nat (length (m_tasks s))) as Hrange.
  { apply lookup_lt_Some in Hp. lia. }
  destruct (removeTask_cases index s Hwf Hrange)
    as (p' & t' & i & Hp' & Ht' & Hti & [[Hs' _]|[_ Hrm]]).
  { congruence. }
  assert (p' = p) as -> by congruence. assert (t' = t) as -> by congruence.
  destruct (WF_row_at s _ p Hwf Hp) as (t' & i' & it & w & Ht'' & Hl & Hti' & Hit & Hw).
  assert (t' = t) as -> by congruence. assert (i' = i) as -> by congruence.
  destruct (NoDup_delete_lookup _ _ _ (wf_nodup s Hwf) Hp) as [Hpn _].
  destruct (NoDup_delete_lookup _ _ _ (wf_items_nodup s Hwf) Hti) as [Hin _].
  assert (Reachable (removed (Z.to_nat index) p i s)) as Hr'.
  { apply (Reachable_step s (op_removeTask index)); [done|]. by exists []. }
  exists (removed (Z.to_nat index) p i s), i. split_and!; try done.
  - cbn. by rewrite lookup_delete_eq.
  - intros q Hq. cbn. by rewrite lookup_delete_ne.
  - intros j Hj. cbn. by rewrite lookup_delete_ne.
  - rewrite (count_WF _ (Reachable_WF _ Hr')). do 3 f_equal.
    cbn. rewrite length_delete by eauto. apply lookup_lt_Some in Hp. lia.
Qed.


End safety.

Section stop_and_advance.
Context `{Platform}.

Lemma set_is_busy_same s : set_is_busy (is_busy s) s = s.
Proof. by destruct s. Qed.

Lemma WF_not_busy s : WF s → m_current_task s = None → is_busy s = false.
Proof.
  intros Hwf Hc. destruct (is_busy s) eqn:Hb; [|done].
  apply (wf_busy s Hwf) in Hb as [p Hp]. congruence.
Qed.

(** [stop] on a well-formed state with nothing current changes nothing. *)
Lemma stop_quiet s :
  WF s → m_current_task s = None → stop s = Some (tt, s, [converter_stop]).
Proof.
  intros Hwf Hc. rewrite (stop_idle s Hc).
  by rewrite <- (WF_not_busy s Hwf Hc), set_is_busy_same.
Qed.

(** X6: after [stop] the controller is at rest: nothing is current, and
    a second [stop], a late exit code and a late percentage each leave
    the state as it is (a second [stop] still tells the converter to
    stop); [stop] on a state with nothing current changes nothing. *)
Theorem X6_at_rest_after_stop s :
  Reachable s →
  ∃ s1,
    stop s = Some (tt, s1, [converter_stop]) ∧
    m_current_task s1 = None ∧ is_busy s1 = false ∧
    stop s1 = Some (tt, s1, [converter_stop]) ∧
    (∀ exitcode, task_finished_slot exitcode s1 = Some (tt, s1, [])) ∧
    (∀ percentage, progress_refreshed percentage s1 = Some (tt, s1, [])) ∧
    (m_current_task s = None → s1 = s).
Proof.
  intros Hwf%Reachable_WF.
  destruct (stop_WF s Hwf) as (s1 & Hs & Hwf1 & Hc1 & Hb1 & _).
  exists s1. split_and!; try done.
  - by apply stop_quiet.
  - intros c. by apply task_finished_slot_idle.
  - intros pct. by apply progress_refreshed_idle.
  - intros Hc. rewrite (stop_quiet s Hwf Hc) in Hs. by injection Hs.
Qed.

(** The first QUEUED task is the same before and after the running task
    is given its final status. *)
Lemma first_queued_finished exitcode s p t i it :
  tasks s !! p = Some t → status t = RUNNING →
  first_queued (finished exitcode p t i it s) = first_queued s.
Proof.
  intros Ht Hr. unfold first_queued.
  replace (m_tasks (finished exitcode p t i it s)) with (m_tasks s)
    by (unfold finished; by destruct (decide (exitcode = 0))).
  apply list_find_ext. intros r. unfold status_at.
  replace (tasks (finished exitcode p t i it s))
    with (<[p := set_status (final exitcode) t]> (tasks s))
    by (unfold finished, final; by destruct (decide (exitcode = 0))).
  destruct (decide (r = p)) as [->|Hne].
  - rewrite lookup_insert_eq, Ht. cbn. unfold final. rewrite Hr.
    destruct (decide (exitcode = 0)); split; intros [=].
  - by rewrite lookup_insert_ne.
Qed.

(** X7: when the running task ends, with whatever exit code, the queue
    goes on by itself: the first QUEUED task of the list is started, or,
    when none is left, the controller stops and emits
    [all_tasks_finished].  A failure does not hold up the tasks behind
    it. *)
Theorem X7_queue_goes_on exitcode s p :
  Reachable s → m_current_task s = Some p →
  match first_queued s with
  | Some (k, q) =>
      ∃ t s',
        tasks s !! q = Some t ∧ q ≠ p ∧
        task_finished_slot exitcode s
        = Some (tt, s', [task_finished exitcode; converter_start (param t);
                         start_conversion (Z.of_nat k) (param t)]) ∧
        m_current_task s' = Some q ∧ is_busy s' = true ∧
        status_at s' q = Some RUNNING ∧ status_at s' p = Some (final exitcode)
  | None =>
      ∃ s',
        task_finished_slot exitcode s
        = Some (tt, s', [task_finished exitcode; converter_stop;
                         all_tasks_finished]) ∧
        m_current_task s' = None ∧ is_busy s' = false ∧
        status_at s' p = Some (final exitcode) ∧ running s' = []
  end.
Proof.
  intros Hwf%Reachable_WF Hc.
  destruct (task_finished_slot_cases exitcode s Hwf)
    as [[Hc' _]|(p' & t & i & it & w & s' & e & Hc' & Ht & Hr & Hl & Hit & Hw & Hst & Hs)];
    [congruence|].
  assert (p' = p) as -> by congruence.
  pose proof (WF_finished exitcode s p t i it w Hwf Hc Ht Hit Hw) as Hwf1.
  pose proof (first_queued_finished exitcode s p t i it Ht Hr) as Hfq.
  assert (tasks (finished exitcode p t i it s) !! p
          = Some (set_status (final exitcode) t)) as Ht1.
  { unfold finished, final. destruct (decide (exitcode = 0)); cbn;
      by rewrite lookup_insert_eq. }
  assert (m_tasks (finished exitcode p t i it s) = m_tasks s) as Hm
    by (unfold finished; by destruct (decide (exitcode = 0))).
  assert (final exitcode ≠ QUEUED) as Hfin
    by (unfold final; by destruct (decide (exitcode = 0))).
  destruct (start_cases _ Hwf1)
    as [[Hb _]|[(_ & He & _)|[(_ & k & q & u & Hf & Hu & Hq & Hs1)
                              |(_ & _ & Hf & Hs1)]]].
  - unfold finished in Hb. done.
  - rewrite Hm in He. apply (wf_current s Hwf) in Hc as [Hp _].
    rewrite He in Hp. by apply elem_of_nil in Hp.
  - rewrite <- Hfq, Hf. rewrite Hs1 in Hst. injection Hst as <- <-.
    assert (q ≠ p) as Hne.
    { intros ->. rewrite Ht1 in Hu. injection Hu as <-. done. }
    exists u, (started q u (finished exitcode p t i it s)).
    split_and!; try done.
    + rewrite <- Hu. unfold finished.
      destruct (decide (exitcode = 0)); cbn; by rewrite lookup_insert_ne.
    + unfold status_at. cbn. by rewrite lookup_insert_eq.
    + unfold status_at, started, set_m_current_task, set_tasks. cbn [tasks].
      rewrite lookup_insert_ne by done. by rewrite Ht1.
  - rewrite <- Hfq, Hf. rewrite Hs1 in Hst. injection Hst as <- <-.
    eexists. split_and!; try done.
    + unfold status_at, set_is_busy. cbn [tasks]. by rewrite Ht1.
    + assert (WF (set_is_busy false (finished exitcode p t i it s))) as Hwf2.
      { apply WF_stop_idle; [done|]. unfold finished.
        by destruct (decide (exitcode = 0)). }
      rewrite (running_current _ Hwf2). unfold finished.
      by destruct (decide (exitcode = 0)).
Qed.

(** X8: a task that ends with exit code 0 leaves every row as it is:
    the bar of its row is not moved to 100, it keeps the last percentage
    the converter reported. *)
Theorem X8_success_keeps_rows s :
  Reachable s →
  ∃ s' e, task_finished_slot 0 s = Some (tt, s', e) ∧
          items s' = items s ∧ topLevelItems s' = topLevelItems s ∧
          ∀ p, p ∈ m_tasks s → progress_of s' p = progress_of s p.
Proof.
  intros Hwf%Reachable_WF.
  assert (∀ s' : ConvertList,
            items s' = items s →
            (∀ p t, tasks s !! p = Some t →
                    ∃ t', tasks s' !! p = Some t' ∧ listitem t' = listitem t) →
            ∀ p, p ∈ m_tasks s → progress_of s' p = progress_of s p) as Hrows.
  { intros s' Hi Ht p Hp. unfold progress_of.
    destruct (WF_alloc s Hwf p Hp) as [t Hpt].
    destruct (Ht p t Hpt) as (t' & Hpt' & Hl).
    rewrite Hpt, Hpt'. cbn. rewrite Hl, Hi. done. }
  destruct (task_finished_slot_cases 0 s Hwf)
    as [[Hc Hs]|(p & t & i & it & w & s' & e & Hc & Ht & Hr & Hl & Hit & Hw & Hst & Hs)].
  { exists s, []. split_and!; try done. }
  pose proof (WF_finished 0 s p t i it w Hwf Hc Ht Hit Hw) as Hwf1.
  pose proof (task_finished_slot_moves 0 s s' _ Hwf Hs) as (_ & _ & Hmv).
  assert (items s' = items s ∧ topLevelItems s' = topLevelItems s) as [Hi Htl].
  { destruct (start_cases _ Hwf1)
      as [[_ Hs1]|[(_ & _ & Hs1)|[(_ & k & q & u & _ & _ & _ & Hs1)|(_ & _ & _ & Hs1)]]];
      rewrite Hs1 in Hst; injection Hst as <- <-; done. }
  exists s', (task_finished 0 :: e). split_and!; try done.
  apply Hrows; [done|]. intros q u Hq.
  destruct (Hmv q u Hq) as (u' & Hu' & _ & _ & Hlu & _). eauto.
Qed.

(** X9: the running task cannot be removed, but once [stop] has put it
    back in the queue [removeTask] on its position takes it out of the
    list; nothing is current afterwards. *)
Theorem X9_stop_then_remove s k p t :
  Reachable s →
  m_tasks s !! k = Some p → tasks s !! p = Some t → status t = RUNNING →
  run_ops [op_removeTask (Z.of_nat k)] s = Some (tt, s, []) ∧
  ∃ s',
    run_ops [op_stop; op_removeTask (Z.of_nat k)] s
    = Some (tt, s', [converter_stop]) ∧
    m_tasks s' = delete k (m_tasks s) ∧ (p ∉ m_tasks s') ∧
    m_current_task s' = None ∧ is_busy s' = false ∧ running s' = [].
Proof.
  intros Hwf%Reachable_WF Hk Ht Hr. split.
  { cbn. unfold bind, ret.
    rewrite (removeTask_running (Z.of_nat k) s p t); rewrite ?Nat2Z.id; try done. lia. }
  assert (m_current_task s = Some p) as Hc.
  { apply (wf_current s Hwf). split; [by eapply list_elem_of_lookup_2|].
    apply status_at_Some. eauto. }
  destruct (stop_cases s Hwf)
    as [[Hc' _]|(p' & t' & i & it & w & Hc' & Ht' & _ & Hl & Hit & Hw & Hs)];
    [congruence|].
  assert (p' = p) as -> by congruence. assert (t' = t) as -> by congruence.
  pose proof (WF_stopped s p t i it Hwf Hc Ht Hit) as Hwf1.
  destruct (WF_row_at s k p Hwf Hk) as (t' & i' & it' & w' & Ht'' & Hl' & Hti & _).
  assert (i' = i) as -> by congruence.
  assert (removeTask (Z.of_nat k) (stopped p t i it s)
          = Some (tt, removed k p i (stopped p t i it s), [])) as Hrm.
  { eapply removeTask_not_running; try done.
    - cbn. by rewrite lookup_insert_eq.
    - done.
    - by apply (NoDup_delete_lookup _ _ _ (wf_nodup s Hwf) Hk).
    - cbn. by rewrite lookup_insert_eq. }
  exists (removed k p i (stopped p t i it s)). split_and!; try done.
  - cbn. unfold bind, ret. rewrite Hs, Hrm. done.
  - by apply (NoDup_delete_lookup _ _ _ (wf_nodup s Hwf) Hk).
  - assert (WF (removed k p i (stopped p t i it s))) as Hwf2.
    { eapply (WF_removed _ k p (set_status QUEUED t) i); try done.
      cbn. by rewrite lookup_insert_eq. }
    by rewrite (running_current _ Hwf2).
Qed.

End stop_and_advance.

(** ** Draining the queue *)

Lemma filter_ext_elem {A} (P Q : A → Prop)
    `{!∀ x, Decision (P x), !∀ x, Decision (Q x)} (l : list A) :
  (∀ x, x ∈ l → (P x ↔ Q x)) → filter P l = filter Q l.
Proof.
  induction l as [|a l IH]; intros Hext; [done|].
  assert (filter P l = filter Q l) as Hl.
  { apply IH. intros x Hx. apply Hext. by right. }
  destruct (decide (P a)) as [Ha|Ha].
  - rewrite !filter_cons_True; [by rewrite Hl| |done]. apply Hext; [by left|done].
  - rewrite !filter_cons_False; [done| |done]. intros Hq. apply Ha, Hext; [by left|done].
Qed.

Lemma filter_all {A} (P : A → Prop) `{!∀ x, Decision (P x)} (l : list A) :
  (∀ x, x ∈ l → P x) → filter P l = l.
Proof.
  induction l as [|a l IH]; intros Hall; [done|].
  rewrite filter_cons_True by (apply Hall; by left).
  f_equal. apply IH. intros x Hx. apply Hall. by right.
Qed.

Lemma filter_list_find {A} (P : A → Prop) `{!∀ x, Decision (P x)} (l : list A) :
  match list_find P l with
  | Some (k, x) => l !! k = Some x ∧ filter P l = x :: filter P (drop (S k) l)
  | None => filter P l = []
  end.
Proof.
  destruct (list_find P l) as [[k x]|] eqn:Hf.
  - apply list_find_Some in Hf as (Hk & Hx & Hbefore). split; [done|].
    rewrite <- (take_drop_middle l k x Hk) at 1.
    rewrite filter_app, filter_cons_True by done.
    rewrite (filter_none P (take k l)); [done|].
    intros y Hy. apply list_elem_of_lookup_1 in Hy as [j Hj].
    apply lookup_take_Some in Hj as [Hj Hlt]. by apply (Hbefore j).
  - apply list_find_None in Hf. apply filter_none.
    intros y Hy. rewrite Forall_forall in Hf. by apply Hf.
Qed.

Section drain.
Context `{Platform}.

(** The head of the QUEUED tasks is the task [start] looks for. *)
Lemma first_queued_head s :
  match queued s with
  | [] => first_queued s = None
  | q :: _ => ∃ k, first_queued s = Some (k, q)
  end.
Proof.
  pose proof (filter_list_find (λ p, status_at s p = Some QUEUED) (m_tasks s)) as Hf.
  unfold queued, first_queued.
  destruct (list_find _ (m_tasks s)) as [[k x]|].
  - destruct Hf as [_ ->]. eauto.
  - by rewrite Hf.
Qed.

Lemma queued_same s s' :
  m_tasks s' = m_tasks s →
  (∀ r, r ∈ m_tasks s → (status_at s' r = Some QUEUED ↔ status_at s r = Some QUEUED)) →
  queued s' = queued s.
Proof. intros Hm Hext. unfold queued. rewrite Hm. by apply filter_ext_elem. Qed.

Lemma queued_started s q t qs :
  WF s → tasks s !! q = Some t → queued s = q :: qs →
  queued (started q t s) = qs.
Proof.
  intros Hwf Ht Hq.
  assert (NoDup (q :: qs)) as Hnd.
  { rewrite <- Hq. apply NoDup_filter, Hwf. }
  apply NoDup_cons in Hnd as [Hnq _].
  transitivity (filter (λ a, a ≠ q) (queued s)).
  - unfold queued at 2. rewrite list_filter_filter. unfold queued.
    change (m_tasks (started q t s)) with (m_tasks s).
    apply filter_ext_elem. intros r _. unfold status_at. cbn.
    destruct (decide (r = q)) as [->|Hne].
    + rewrite lookup_insert_eq. cbn. split; [done|]. by intros [? _].
    + rewrite lookup_insert_ne by done. tauto.
  - rewrite Hq, filter_cons_False by (intros Hne; by apply Hne).
    apply filter_all. intros x Hx ->. done.
Qed.

Lemma params_at_cons s q t qs :
  tasks s !! q = Some t → params_at s (q :: qs) = param t :: params_at s qs.
Proof. intros Ht. unfold params_at. cbn. by rewrite Ht. Qed.

Lemma params_at_ext s s' ps :
  (∀ p, p ∈ ps → tasks s' !! p = tasks s !! p) →
  params_at s' ps = params_at s ps.
Proof.
  intros Hext. unfold params_at.
  apply list_omap_ext, Forall2_same_length_lookup. split; [done|].
  intros j x y Hx Hy. assert (y = x) as -> by congruence.
  rewrite Hext; [done|]. by eapply list_elem_of_lookup_2.
Qed.

(** One exit code while [p] runs: [p] gets its final status and the head
    of the QUEUED tasks, if any, is started. *)
Lemma slot_step exitcode s p :
  WF s → m_current_task s = Some p →
  ∃ s' e,
    task_finished_slot exitcode s = Some (tt, s', e) ∧ WF s' ∧
    m_tasks s' = m_tasks s ∧ status_at s' p = Some (final exitcode) ∧
    finished_codes e = [exitcode] ∧
    match queued s with
    | [] =>
        e = [task_finished exitcode; converter_stop; all_tasks_finished] ∧
        m_current_task s' = None ∧ is_busy s' = false ∧ queued s' = [] ∧
        (∀ r, r ≠ p → tasks s' !! r = tasks s !! r)
    | q :: qs =>
        ∃ k t,
          m_tasks s !! k = Some q ∧ tasks s !! q = Some t ∧ q ≠ p ∧
          e = [task_finished exitcode; converter_start (param t);
               start_conversion (Z.of_nat k) (param t)] ∧
          m_current_task s' = Some q ∧ queued s' = qs ∧
          (∀ r, r ≠ p → r ≠ q → tasks s' !! r = tasks s !! r)
    end.
Proof.
  intros Hwf Hc.
  destruct (task_finished_slot_cases exitcode s Hwf)
    as [[Hc' _]|(p' & t & i & it & w & s' & e & Hc' & Ht & Hr & Hl & Hit & Hw & Hst & Hs)];
    [congruence|].
  assert (p' = p) as -> by congruence.
  pose proof (WF_finished exitcode s p t i it w Hwf Hc Ht Hit Hw) as Hwf1.
  remember (finished exitcode p t i it s) as s1 eqn:Hdef.
  assert (tasks s1 = <[p := set_status (final exitcode) t]> (tasks s)) as Hts1.
  { subst s1. unfold finished, final. by destruct (decide (exitcode = 0)). }
  assert (m_tasks s1 = m_tasks s) as Hm
    by (subst s1; unfold finished; by destruct (decide (exitcode = 0))).
  assert (m_current_task s1 = None) as Hc1
    by (subst s1; unfold finished; by destruct (decide (exitcode = 0))).
  assert (is_busy s1 = false) as Hb1
    by (subst s1; unfold finished; by destruct (decide (exitcode = 0))).
  clear Hdef.
  assert (final exitcode ≠ QUEUED) as Hfin
    by (unfold final; by destruct (decide (exitcode = 0))).
  assert (queued s1 = queued s) as Hq1.
  { apply queued_same; [done|]. intros r _. unfold status_at. rewrite Hts1.
    destruct (decide (r = p)) as [->|Hne].
    - rewrite lookup_insert_eq, Ht. cbn. rewrite Hr. split; intros [=]. done.
    - by rewrite lookup_insert_ne. }
  pose proof (first_queued_head s1) as Hhead. rewrite Hq1 in Hhead.
  destruct (start_cases _ Hwf1)
    as [[Hb _]|[(_ & He & _)|[(_ & k & q & u & Hf & Hu & Hqu & Hs1)
                              |(_ & _ & Hf & Hs1)]]].
  - congruence.
  - rewrite Hm in He. apply (wf_current s Hwf) in Hc as [Hp _].
    rewrite He in Hp. by apply elem_of_nil in Hp.
  - rewrite Hs1 in Hst. injection Hst as <- <-.
    destruct (queued s) as [|q' qs] eqn:Hqs; [congruence|].
    destruct Hhead as [k' Hk']. assert (q' = q) as -> by congruence.
    apply list_find_Some in Hf as (Hk & _). rewrite Hm in Hk.
    assert (q ≠ p) as Hne.
    { intros ->. rewrite Hts1, lookup_insert_eq in Hu. injection Hu as <-. done. }
    assert (tasks s !! q = Some u) as Hu'.
    { by rewrite Hts1, lookup_insert_ne in Hu. }
    exists (started q u s1), (task_finished exitcode :: [converter_start (param u);
                               start_conversion (Z.of_nat k) (param u)]).
    split_and!; try done.
    + apply WF_started; try done. rewrite Hm. by eapply list_elem_of_lookup_2.
    + unfold status_at, started, set_m_current_task, set_tasks. cbn [tasks].
      rewrite lookup_insert_ne by done. by rewrite Hts1, lookup_insert_eq.
    + exists k, u. split_and!; try done.
      * apply queued_started; [done|done|]. by rewrite Hq1.
      * intros r Hrp Hrq. unfold started, set_m_current_task, set_tasks. cbn [tasks].
        rewrite lookup_insert_ne by done. by rewrite Hts1, lookup_insert_ne.
  - rewrite Hs1 in Hst. injection Hst as <- <-.
    destruct (queued s) as [|q' qs] eqn:Hqs; [|destruct Hhead; congruence].
    exists (set_is_busy false s1), [task_finished exitcode; converter_stop;
                                    all_tasks_finished].
    split_and!; try done.
    + by apply WF_stop_idle.
    + unfold status_at, set_is_busy. cbn [tasks]. by rewrite Hts1, lookup_insert_eq.
    + intros r Hrp. unfold set_is_busy. cbn [tasks]. by rewrite Hts1, lookup_insert_ne.
Qed.

(** The exit codes [cs] arrive one after the other while [p] runs and
    the tasks of [queued s] wait behind it. *)
Lemma drain_busy cs : ∀ s p,
  WF s → m_current_task s = Some p → length cs = S (length (queued s)) →
  ∃ s' e e0,
    run_ops (op_finished <$> cs) s = Some (tt, s', e) ∧
    is_busy s' = false ∧ m_current_task s' = None ∧ queued s' = [] ∧
    m_tasks s' = m_tasks s ∧
    Forall2 (λ r c, status_at s' r = Some (final c)) (p :: queued s) cs ∧
    (∀ r, r ∉ p :: queued s → tasks s' !! r = tasks s !! r) ∧
    finished_codes e = cs ∧
    started_params e = params_at s (queued s) ∧
    e = e0 ++ [converter_stop; all_tasks_finished] ∧ (all_tasks_finished ∉ e0).
Proof.
  induction cs as [|c cs IH]; intros s p Hwf Hc Hlen; [done|].
  destruct (slot_step c s p Hwf Hc) as (s1 & e1 & Hs1 & Hwf1 & Hm1 & Hp1 & Hcodes1 & Hq).
  assert (p ∉ queued s) as Hpq.
  { intros Hin. apply list_elem_of_filter in Hin as [Hin _].
    apply (wf_current s Hwf) in Hc as [_ Hc]. congruence. }
  destruct (queued s) as [|q qs] eqn:Hqs.
  - destruct cs; [|done]. destruct Hq as (-> & Hc1 & Hb1 & Hq1 & Hothers).
    exists s1, [task_finished c; converter_stop; all_tasks_finished], [task_finished c].
    split_and!; try done.
    + cbn. unfold bind, ret. by rewrite Hs1.
    + by repeat constructor.
    + intros r Hr. apply Hothers. intros ->. apply Hr. by left.
    + intros Hin. apply list_elem_of_singleton in Hin. done.
  - destruct Hq as (k & t & Hk & Ht & Hne & -> & Hc1 & Hq1 & Hothers).
    destruct (IH s1 q Hwf1 Hc1) as (s' & e & e0 & Hrun & Hb & Hc' & Hq' & Hm' & Hst & Hun & Hcodes & Hpar & -> & He0).
    { rewrite Hq1. cbn in Hlen. lia. }
    assert (NoDup (q :: qs)) as Hnd.
    { rewrite <- Hqs. apply NoDup_filter, Hwf. }
    apply NoDup_cons in Hnd as [Hqqs _].
    exists s', ([task_finished c; converter_start (param t);
                 start_conversion (Z.of_nat k) (param t)]
                ++ e0 ++ [converter_stop; all_tasks_finished]),
      ([task_finished c; converter_start (param t);
        start_conversion (Z.of_nat k) (param t)] ++ e0).
    split_and!; try done.
    + cbn [fmap list_fmap run_ops]. unfold bind at 1. cbn [run_op].
      rewrite Hs1. change (list_fmap _ _ op_finished cs) with (op_finished <$> cs).
      by rewrite Hrun.
    + congruence.
    + constructor.
      * unfold status_at. rewrite Hun; [done|]. rewrite Hq1.
        intros Hin. apply elem_of_cons in Hin as [->|Hin]; [done|].
        apply Hpq. by right.
      * by rewrite <- Hq1.
    + intros r Hr. rewrite Hun.
      * apply Hothers; intros ->; apply Hr; [by left|right; by left].
      * rewrite Hq1. intros Hin. apply Hr. by right.
    + unfold finished_codes in *. rewrite omap_app. cbn. by rewrite Hcodes.
    + unfold started_params in *. rewrite omap_app, Hpar. cbn.
      unfold params_at. cbn. rewrite Ht. cbn. f_equal. rewrite Hq1.
      apply list_omap_ext, Forall2_same_length_lookup. split; [done|].
      intros j x y Hx Hy. assert (y = x) as -> by congruence.
      rewrite Hothers; [done|..]; intros ->.
      * apply Hpq. right. by eapply list_elem_of_lookup_2.
      * apply Hqqs. by eapply list_elem_of_lookup_2.
    + intros Hin. apply elem_of_app in Hin as [Hin|Hin]; [|done].
      repeat (apply elem_of_cons in Hin as [?|Hin]; [done|]).
      by apply elem_of_nil in Hin.
Qed.

(** X10: [start] on a state at rest with [n] QUEUED tasks, followed by
    [n] exit codes from the converter, drains the queue: the QUEUED tasks
    are converted one after the other in list order, each gets FINISHED
    or FAILED from its own exit code, every other task is left alone, and
    [all_tasks_finished] is emitted once, at the very end, after the
    converter is told to stop; the controller is then at rest. *)
Theorem X10_queue_drains s cs :
  Reachable s → is_busy s = false →
  queued s ≠ [] → length cs = length (queued s) →
  ∃ s' e e0,
    run_ops (op_start :: (op_finished <$> cs)) s = Some (tt, s', e) ∧
    is_busy s' = false ∧ m_current_task s' = None ∧ queued s' = [] ∧
    m_tasks s' = m_tasks s ∧
    Forall2 (λ r c, status_at s' r = Some (final c)) (queued s) cs ∧
    (∀ r, r ∉ queued s → tasks s' !! r = tasks s !! r) ∧
    finished_codes e = cs ∧
    started_params e = params_at s (queued s) ∧
    e = e0 ++ [converter_stop; all_tasks_finished] ∧ (all_tasks_finished ∉ e0).
Proof.
  intros Hwf%Reachable_WF Hb Hne Hlen.
  destruct (queued s) as [|q qs] eqn:Hqs; [done|]. clear Hne.
  pose proof (first_queued_head s) as Hhead. rewrite Hqs in Hhead.
  destruct Hhead as [k Hf].
  destruct (start_first s k q (WF_alloc s Hwf) Hb Hf) as (t & Ht & Hst & Hs).
  assert (q ∈ m_tasks s) as Hq.
  { apply list_find_Some in Hf as (Hk & _). by eapply list_elem_of_lookup_2. }
  pose proof (WF_started s q t Hwf Hb Hq Ht) as Hwf1.
  pose proof (queued_started s q t qs Hwf Ht Hqs) as Hq1.
  assert (NoDup (q :: qs)) as Hnd.
  { rewrite <- Hqs. apply NoDup_filter, Hwf. }
  apply NoDup_cons in Hnd as [Hqqs _].
  destruct (drain_busy cs (started q t s) q Hwf1 eq_refl)
    as (s' & e & e0 & Hrun & Hb' & Hc' & Hq' & Hm' & Hfin & Hun & Hcodes & Hpar & -> & He0).
  { rewrite Hq1. cbn in Hlen. lia. }
  exists s', ([converter_start (param t); start_conversion (Z.of_nat k) (param t)]
              ++ e0 ++ [converter_stop; all_tasks_finished]),
    ([converter_start (param t); start_conversion (Z.of_nat k) (param t)] ++ e0).
  split_and!; try done.
  - cbn [run_ops]. unfold bind at 1. cbn [run_op]. rewrite Hs. by rewrite Hrun.
  - by rewrite <- Hq1.
  - intros r Hr. rewrite Hun.
    + cbn. rewrite lookup_insert_ne; [done|]. intros ->. apply Hr. by left.
    + by rewrite Hq1.
  - unfold started_params. rewrite omap_app.
    fold (started_params (e0 ++ [converter_stop; all_tasks_finished])).
    rewrite Hpar, Hq1, (params_at_cons s q t qs Ht).
    rewrite (params_at_ext s (started q t s) qs); [done|].
    intros r Hr. cbn. rewrite lookup_insert_ne; [done|]. by intros ->.
  - intros Hin. apply elem_of_app in Hin as [Hin|Hin]; [|done].
    repeat (apply elem_of_cons in Hin as [?|Hin]; [done|]).
    by apply elem_of_nil in Hin.
Qed.

End drain.

(** ** The Delete key *)

Lemma filter_delete_rejected {A} (P : A → Prop) `{!∀ x, Decision (P x)}
    (l : list A) k x :
  l !! k = Some x → ¬ P x → filter P l = filter P (delete k l).
Proof.
  intros Hk Hx. rewrite <- (take_drop_middle l k x Hk) at 1.
  rewrite delete_take_drop, !filter_app, filter_cons_False by done. done.
Qed.

Section delete_key.
Context `{Platform}.

Lemma indexOfTopLevelItem_at s k i :
  NoDup (topLevelItems s) → topLevelItems s !! k = Some i →
  indexOfTopLevelItem i s = Some (Z.of_nat k, s, []).
Proof.
  intros Hnd Hk. unfold indexOfTopLevelItem, gets.
  assert (list_find (λ j, j = i) (topLevelItems s) = Some (k, i)) as ->; [|done].
  apply list_find_Some. split_and!; try done.
  intros j y Hj Hlt ->. pose proof (NoDup_lookup _ _ _ _ Hnd Hj Hk). lia.
Qed.

(** Different tasks of the list have different rows. *)
Lemma WF_item_inj s p q i :
  WF s → p ∈ m_tasks s → q ∈ m_tasks s →
  item_at s p = Some i → item_at s q = Some i → p = q.
Proof.
  intros Hwf Hp Hq Hip Hiq.
  apply list_elem_of_lookup_1 in Hp as [j Hj].
  apply list_elem_of_lookup_1 in Hq as [k Hk].
  destruct (WF_row_at s j p Hwf Hj) as (t & i1 & _ & _ & Ht & Hl & Hti & _).
  destruct (WF_row_at s k q Hwf Hk) as (u & i2 & _ & _ & Hu & Hlu & Htu & _).
  unfold item_at in Hip, Hiq. rewrite Ht in Hip. rewrite Hu in Hiq. cbn in Hip, Hiq.
  assert (i1 = i) as -> by congruence. assert (i2 = i) as -> by congruence.
  pose proof (NoDup_lookup _ _ _ _ (wf_items_nodup s Hwf) Hti Htu) as ->.
  congruence.
Qed.

Lemma survives_selected s sel p i :
  item_at s p = Some i → status_at s p ≠ Some RUNNING →
  survives s (i :: sel) p = false.
Proof.
  intros Hi Hs. unfold survives. rewrite Hi.
  rewrite bool_decide_eq_false_2, bool_decide_eq_false_2; [done|done|].
  intros Hn. apply Hn. by left.
Qed.

Lemma survives_other s sel p i j :
  item_at s p = Some j → j ≠ i →
  survives s (i :: sel) p = survives s sel p.
Proof.
  intros Hj Hne. unfold survives. rewrite Hj. f_equal.
  apply bool_decide_ext. rewrite not_elem_of_cons. tauto.
Qed.

Lemma survives_running s sel sel' p :
  is_Some (item_at s p) → status_at s p = Some RUNNING →
  survives s sel p = survives s sel' p.
Proof.
  intros [i Hi] Hs. unfold survives. rewrite Hi.
  rewrite !(bool_decide_eq_true_2 (status_at s p = Some RUNNING)) by done.
  by rewrite !orb_true_r.
Qed.

Lemma WF_item_at s p : WF s → p ∈ m_tasks s → is_Some (item_at s p).
Proof.
  intros Hwf Hp. destruct (WF_row s p Hwf Hp) as (t & i & _ & _ & Ht & Hl & _).
  unfold item_at. rewrite Ht. cbn. eauto.
Qed.

(** The loop of the Delete key over the selected rows. *)
Lemma delete_selected sel : ∀ s,
  Reachable s → NoDup sel → sel ⊆ topLevelItems s →
  ∃ s',
    foreach sel (λ item, index <- indexOfTopLevelItem item ;; removeTask index) s
    = Some (tt, s', []) ∧
    Reachable s' ∧
    m_tasks s' = filter (λ p, survives s sel p = true) (m_tasks s) ∧
    (∀ q, q ∈ m_tasks s' → tasks s' !! q = tasks s !! q) ∧
    prev_index s' = prev_index s ∧
    m_current_task s' = m_current_task s ∧ is_busy s' = is_busy s.
Proof.
  induction sel as [|i sel IH]; intros s Hr Hnd Hsub.
  { exists s. split_and!; try done. symmetry. apply filter_all.
    intros p _. unfold survives. destruct (item_at s p); [|done].
    rewrite bool_decide_eq_true_2; [done|]. apply not_elem_of_nil. }
  pose proof (Reachable_WF s Hr) as Hwf.
  apply NoDup_cons in Hnd as [Hi Hnd].
  assert (i ∈ topLevelItems s) as Hin by (apply Hsub; by left).
  apply list_elem_of_lookup_1 in Hin as [k Hk].
  destruct (Forall2_lookup_r _ _ _ _ _ (wf_rows s Hwf) Hk)
    as (p & Hp & t & it & Ht & Hl & Hit & Hw).
  assert (p ∈ m_tasks s) as Hpin by by eapply list_elem_of_lookup_2.
  assert (item_at s p = Some i) as Hip by (unfold item_at; by rewrite Ht).
  assert (0 ≤ Z.of_nat k < Z.of_nat (length (m_tasks s))) as Hrange.
  { apply lookup_lt_Some in Hp. lia. }
  cbn [foreach]. unfold bind at 1. unfold bind at 1.
  rewrite (indexOfTopLevelItem_at s k i (wf_items_nodup s Hwf) Hk).
  destruct (removeTask_cases (Z.of_nat k) s Hwf Hrange)
    as (p' & t' & i' & Hp' & Ht' & Hti & [[Hs Hrm]|[Hs Hrm]]);
    rewrite Nat2Z.id in *; rewrite Hrm;
    assert (p' = p) as -> by congruence; assert (t' = t) as -> by congruence;
    assert (i' = i) as -> by congruence.
  - destruct (IH s Hr Hnd) as (s' & Hloop & Hr' & Hm & Hts & Hn & Hc & Hb).
    { intros x Hx. apply Hsub. by right. }
    exists s'. rewrite Hloop. split_and!; try done.
    rewrite Hm. apply filter_ext_elem. intros r Hrin.
    assert (status_at s p = Some RUNNING) as Hsp by (apply status_at_Some; eauto).
    destruct (WF_item_at s r Hwf Hrin) as [j Hj].
    destruct (decide (j = i)) as [->|Hne].
    + assert (r = p) as -> by by eapply (WF_item_inj s).
      by rewrite (survives_running s sel (i :: sel) p).
    + by rewrite (survives_other s sel r i j).
  - destruct (NoDup_delete_lookup _ _ _ (wf_nodup s Hwf) Hp) as [Hpn _].
    assert (Reachable (removed k p i s)) as Hr1.
    { apply (Reachable_step s (op_removeTask (Z.of_nat k))); [done|].
      exists []. cbn. done. }
    destruct (IH (removed k p i s) Hr1 Hnd)
      as (s' & Hloop & Hr' & Hm & Hts & Hn & Hc & Hb).
    { intros x Hx. cbn. eapply elem_of_delete_other; [done| |].
      - apply Hsub. by right.
      - intros ->. done. }
    assert (∀ r, r ∈ delete k (m_tasks s) → tasks (removed k p i s) !! r = tasks s !! r)
      as Hsame.
    { intros r Hrin. cbn. rewrite lookup_delete_ne; [done|]. by intros ->. }
    exists s'. rewrite Hloop. split_and!; try done.
    + rewrite Hm. cbn [removed m_tasks].
      rewrite (filter_delete_rejected (λ r, survives s (i :: sel) r = true) _ k p Hp).
      * apply filter_ext_elem. intros r Hrin.
        assert (r ∈ m_tasks s) as Hrin' by by eapply list_elem_of_delete_inv.
        destruct (WF_item_at s r Hwf Hrin') as [j Hj].
        assert (j ≠ i) as Hne.
        { intros ->. assert (r = p) as -> by by eapply (WF_item_inj s). done. }
        rewrite (survives_other s sel r i j) by done.
        unfold survives, item_at, status_at. by rewrite (Hsame r Hrin).
      * rewrite survives_selected; [done|done|].
        intros Hst. apply status_at_Some in Hst as (t' & Ht'' & Hst).
        congruence.
    + intros q Hq. rewrite Hts by done. apply Hsame.
      rewrite Hm in Hq. by apply list_elem_of_filter in Hq as [_ Hq].
Qed.

(** X11: the Delete key on a selection of rows of the view takes out of
    the list exactly the selected tasks that are not RUNNING, in any
    order of the selection; the running task stays even when its row is
    selected, the tasks left keep their order and their content, and no
    index is ever out of range.  Any other key leaves the controller as
    it is. *)
Theorem X11_delete_key s sel :
  Reachable s → NoDup sel → sel ⊆ topLevelItems s →
  (∃ s',
     keyPressEvent Key_Delete sel s = Some (tt, s', []) ∧
     Reachable s' ∧
     m_tasks s' = filter (λ p, survives s sel p = true) (m_tasks s) ∧
     (∀ q, q ∈ m_tasks s' → tasks s' !! q = tasks s !! q) ∧
     (∀ p, m_current_task s = Some p → p ∈ m_tasks s') ∧
     prev_index s' = prev_index s ∧
     m_current_task s' = m_current_task s ∧ is_busy s' = is_busy s) ∧
  (∀ key, key ≠ Key_Delete → keyPressEvent key sel s = Some (tt, s, [])).
Proof.
  intros Hr Hnd Hsub. split.
  - destruct (delete_selected sel s Hr Hnd Hsub)
      as (s' & Hloop & Hr' & Hm & Hts & Hn & Hc & Hb).
    exists s'. unfold keyPressEvent. rewrite decide_True by done.
    split_and!; try done.
    intros p Hp. apply (wf_current s' (Reachable_WF s' Hr')). by rewrite Hc.
  - intros key Hkey. unfold keyPressEvent. by rewrite decide_False.
Qed.

End delete_key.

(** ** Dropped files *)

Section drop.
Context `{Platform}.

Lemma task_list_added param_ probe s :
  WF s →
  task_list (added param_ probe s)
  = task_list s ++ [mkTask (prev_index s + 1) QUEUED param_
                           (Some (fresh (dom (items s))))].
Proof.
  intros Hwf. unfold task_list. cbn. rewrite omap_app. cbn.
  rewrite lookup_insert_eq. f_equal.
  apply list_omap_ext, Forall2_same_length_lookup. split; [done|].
  intros j x y Hx Hy. assert (y = x) as -> by congruence.
  rewrite lookup_insert_ne; [done|]. intros <-.
  destruct (WF_alloc s Hwf (fresh (dom (tasks s)))) as [t Ht];
    [by eapply list_elem_of_lookup_2|].
  assert (tasks s !! fresh (dom (tasks s)) = None) by apply not_elem_of_dom, is_fresh.
  congruence.
Qed.

(** The loop of [dropEvent] over the parameters the wizard returned. *)
Lemma drop_loop ps : ∀ s,
  Reachable s →
  ∃ s' new,
    foreach ps (λ entry, addTask entry.1 entry.2 ;; ret tt) s = Some (tt, s', []) ∧
    Reachable s' ∧
    task_list s' = task_list s ++ new ∧
    param <$> new = (fst <$> filter (λ entry, probe_succeeded entry.2 = true) ps) ∧
    id <$> new = seqZ (prev_index s + 1) (Z.of_nat (length new)) ∧
    Forall (λ t, status t = QUEUED) new ∧
    prev_index s' = prev_index s + Z.of_nat (length new) ∧
    (∀ p, p ∈ m_tasks s → p ∈ m_tasks s' ∧ tasks s' !! p = tasks s !! p) ∧
    m_current_task s' = m_current_task s ∧ is_busy s' = is_busy s.
Proof.
  induction ps as [|[pa probe] ps IH]; intros s Hr.
  { exists s, []. split_and!; try done.
    - by rewrite app_nil_r.
    - cbn. lia. }
  pose proof (Reachable_WF s Hr) as Hwf.
  cbn [foreach]. unfold bind at 1. unfold bind at 1. cbn [fst snd].
  destruct (probe_succeeded probe) eqn:Hok.
  - apply andb_true_iff in Hok as Hok'. destruct Hok' as [Hw He%negb_true_iff].
    rewrite (addTask_probe_ok pa probe s Hw He). cbn [ret].
    assert (Reachable (added pa probe s)) as Hr1.
    { apply (Reachable_step s (op_addTask pa probe)); [done|].
      exists []. cbn. unfold bind, ret. by rewrite (addTask_probe_ok pa probe s Hw He). }
    destruct (IH _ Hr1) as (s' & new & Hloop & Hr' & Htl & Hpar & Hid & Hst & Hn & Hold & Hc & Hb).
    rewrite Hloop.
    exists s', (mkTask (prev_index s + 1) QUEUED pa (Some (fresh (dom (items s)))) :: new).
    split_and!; try done.
    + rewrite Htl, (task_list_added pa probe s Hwf), <- app_assoc. done.
    + rewrite filter_cons_True by done. cbn. by rewrite Hpar.
    + cbn [fmap list_fmap id length]. rewrite (seqZ_cons (prev_index s + 1)) by lia.
      f_equal. change (list_fmap _ _ id new) with (id <$> new). rewrite Hid. cbn.
      f_equal; lia.
    + by constructor.
    + rewrite Hn. cbn. lia.
    + intros p Hp.
      assert (p ∈ m_tasks (added pa probe s)) as Hp1 by (cbn; apply elem_of_app; by left).
      destruct (Hold p Hp1) as [Hin ->]. split; [done|]. cbn.
      rewrite lookup_insert_ne; [done|]. intros <-.
      destruct (WF_alloc s Hwf _ Hp) as [t Ht].
      assert (tasks s !! fresh (dom (tasks s)) = None) by apply not_elem_of_dom, is_fresh.
      congruence.
  - assert (addTask pa probe s = Some (false, s, [])) as ->.
    { apply addTask_probe_failed. unfold probe_succeeded in Hok.
      destruct (probe_wait probe), (probe_error probe); try done; eauto. }
    cbn [ret].
    destruct (IH s Hr) as (s' & new & Hloop & Hr' & Htl & Hpar & Hid & Hst & Hn & Hold & Hc & Hb).
    rewrite Hloop. exists s', new. split_and!; try done.
    rewrite filter_cons_False; [done|]. cbn. by rewrite Hok.
Qed.

(** X12: a drop of files appends, in the order the wizard gave them,
    one QUEUED task for each file whose probe succeeded, with consecutive
    ids from the counter on; a file whose probe fails is left out without
    a word and does not stop the files behind it; the tasks already in
    the list, the current task and the busy flag are as they were, and
    nothing is started.  A drop without URLs does nothing. *)
Theorem X12_dropEvent s ps :
  Reachable s →
  (∃ s' new,
     dropEvent true ps s = Some (tt, s', []) ∧
     Reachable s' ∧
     task_list s' = task_list s ++ new ∧
     param <$> new = (fst <$> filter (λ entry, probe_succeeded entry.2 = true) ps) ∧
     id <$> new = seqZ (prev_index s + 1) (Z.of_nat (length new)) ∧
     Forall (λ t, status t = QUEUED) new ∧
     prev_index s' = prev_index s + Z.of_nat (length new) ∧
     (∀ p, p ∈ m_tasks s → p ∈ m_tasks s' ∧ tasks s' !! p = tasks s !! p) ∧
     m_current_task s' = m_current_task s ∧ is_busy s' = is_busy s) ∧
  dropEvent false ps s = Some (tt, s, []).
Proof.
  intros Hr. split; [|done]. unfold dropEvent. by apply drop_loop.
Qed.

End drop.

(** ** What the rows show *)

Section rows.
Context `{Platform}.

Lemma Rows_new : Rows ConvertList_new.
Proof. intros p t i it Hp. by apply elem_of_nil in Hp. Qed.

(** The task at [p0] changes its status and its row its content. *)
Lemma Rows_retag s s' p0 t0 i0 it0 it0' st :
  WF s → Rows s →
  p0 ∈ m_tasks s → tasks s !! p0 = Some t0 → listitem t0 = Some i0 →
  items s !! i0 = Some it0 →
  m_tasks s' = m_tasks s →
  tasks s' = <[p0 := set_status st t0]> (tasks s) →
  items s' = <[i0 := it0']> (items s) →
  row_shows (set_status st t0) it0' →
  Rows s'.
Proof.
  intros Hwf Hrows Hp0 Ht0 Hl0 Hit0 Hm Hts Hits Hrow p t i it Hp Ht Hl Hit.
  rewrite Hm in Hp. rewrite Hts in Ht. rewrite Hits in Hit.
  destruct (decide (p = p0)) as [->|Hne].
  - rewrite lookup_insert_eq in Ht. injection Ht as <-. cbn in Hl.
    assert (i = i0) as -> by congruence.
    rewrite lookup_insert_eq in Hit. by injection Hit as <-.
  - rewrite lookup_insert_ne in Ht by done.
    assert (i ≠ i0) as Hni.
    { intros ->. apply Hne. apply (WF_item_inj s p p0 i0); try done.
      - unfold item_at. by rewrite Ht.
      - unfold item_at. by rewrite Ht0. }
    rewrite lookup_insert_ne in Hit by done. by apply (Hrows p t i it).
Qed.

Lemma Rows_shown s p t i it w v :
  WF s → Rows s →
  m_current_task s = Some p → tasks s !! p = Some t → status t = RUNNING →
  listitem t = Some i → items s !! i = Some it → widget it = Some w →
  Rows (shown i it v s).
Proof.
  intros Hwf Hrows Hc Ht Hr Hl Hit Hw.
  apply (wf_current s Hwf) in Hc as [Hp _].
  apply (Rows_retag s _ p t i it (set_widget (Some (mkBar v)) it) (status t));
    try done.
  - cbn. rewrite insert_id; [done|]. rewrite Ht. by destruct t.
  - destruct (Hrows p t i it Hp Ht Hl Hit) as (? & ? & ? & ? & ? & ? & ? & ?).
    split_and!; try done; cbn; congruence.
Qed.

Lemma Rows_started s p t :
  WF s → Rows s → p ∈ m_tasks s → tasks s !! p = Some t → status t = QUEUED →
  Rows (started p t s).
Proof.
  intros Hwf Hrows Hp Ht Hq.
  destruct (WF_row s p Hwf Hp) as (t' & i & it & w & Ht' & Hl & Hit & Hw).
  assert (t' = t) as -> by congruence.
  apply (Rows_retag s _ p t i it it RUNNING); try done.
  - cbn. by rewrite insert_id.
  - destruct (Hrows p t i it Hp Ht Hl Hit) as (? & ? & ? & Htext & ? & ? & ? & ?).
    split_and!; try done. rewrite Htext, Hq. cbn. done.
Qed.

Lemma Rows_stopped s p t i it :
  WF s → Rows s →
  m_current_task s = Some p → tasks s !! p = Some t → status t = RUNNING →
  listitem t = Some i → items s !! i = Some it →
  Rows (stopped p t i it s).
Proof.
  intros Hwf Hrows Hc Ht Hr Hl Hit.
  apply (wf_current s Hwf) in Hc as [Hp _].
  apply (Rows_retag s _ p t i it (set_widget (Some (mkBar 0)) it) QUEUED); try done.
  destruct (Hrows p t i it Hp Ht Hl Hit) as (? & ? & ? & Htext & ? & ? & ? & ?).
  split_and!; try done; cbn.
  - rewrite Htext, Hr. done.
  - eauto.
Qed.

Lemma Rows_finished exitcode s p t i it :
  WF s → Rows s →
  m_current_task s = Some p → tasks s !! p = Some t → status t = RUNNING →
  listitem t = Some i → items s !! i = Some it →
  Rows (finished exitcode p t i it s).
Proof.
  intros Hwf Hrows Hc Ht Hr Hl Hit.
  apply (wf_current s Hwf) in Hc as [Hp _].
  destruct (Hrows p t i it Hp Ht Hl Hit)
    as (Hlen & Hsrc & Hdst & Htext & ? & ? & ? & ?).
  unfold finished. destruct (decide (exitcode = 0)) as [->|Hne].
  - apply (Rows_retag s _ p t i it it FINISHED); try done.
    + cbn. by rewrite insert_id.
    + split_and!; try done. rewrite Htext, Hr. done.
  - apply (Rows_retag s _ p t i it
             (setText m_progress_column_index (tr "Failed")
                (set_widget (Some (mkBar 0)) it)) FAILED); try done.
    unfold columnCount, m_progress_column_index in *.
    assert (text it ++ replicate (4 - length (text it)) EmptyString = text it) as Htxt.
    { rewrite Hlen. cbn. by rewrite app_nil_r. }
    split_and!; try done; cbn; rewrite ?Htxt.
    + by rewrite length_insert.
    + by rewrite list_lookup_insert_ne.
    + by rewrite list_lookup_insert_ne.
    + rewrite list_lookup_insert_eq by lia. done.
Qed.

Lemma Rows_added param_ probe s :
  WF s → Rows s → Rows (added param_ probe s).
Proof.
  intros Hwf Hrows p t i it Hp Ht Hl Hit. cbn in Hp, Ht, Hit.
  assert (tasks s !! fresh (dom (tasks s)) = None) as Hfp
    by apply not_elem_of_dom, is_fresh.
  assert (items s !! fresh (dom (items s)) = None) as Hfi
    by apply not_elem_of_dom, is_fresh.
  apply elem_of_app in Hp as [Hp|Hp%list_elem_of_singleton].
  - destruct (WF_row s p Hwf Hp) as (t' & i' & it' & w & Ht' & Hl' & Hit' & Hw).
    rewrite lookup_insert_ne in Ht by congruence.
    assert (t' = t) as -> by congruence. assert (i' = i) as -> by congruence.
    rewrite lookup_insert_ne in Hit by congruence.
    by apply (Hrows p t i it).
  - subst p. rewrite lookup_insert_eq in Ht. injection Ht as <-. cbn in Hl.
    injection Hl as <-. rewrite lookup_insert_eq in Hit. injection Hit as <-.
    split_and!; try done; cbn; eauto.
Qed.

Lemma Rows_removed s k p i :
  Rows s → Rows (removed k p i s).
Proof.
  intros Hrows q t j it Hq Ht Hl Hit. cbn in Hq, Ht, Hit.
  apply lookup_delete_Some in Ht as [_ Ht].
  apply lookup_delete_Some in Hit as [_ Hit].
  apply (Hrows q t j it); try done. by eapply list_elem_of_delete_inv.
Qed.

Lemma start_Rows s s' e :
  WF s → Rows s → start s = Some (tt, s', e) → Rows s'.
Proof.
  intros Hwf Hrows Hs.
  destruct (start_cases s Hwf)
    as [[Hb Hs']|[(Hb & He & Hs')|[(Hb & k & p & t & Hf & Ht & Hq & Hs')
                                  |(Hb & Hne & Hf & Hs')]]];
    rewrite Hs' in Hs; injection Hs as <- <-; try done.
  apply Rows_started; try done.
  apply list_find_Some in Hf as (Hk & _). by eapply list_elem_of_lookup_2.
Qed.

Lemma step_Rows s o s' : WF s → Rows s → step s o s' → Rows s'.
Proof.
  intros Hwf Hrows Hstep.
  pose proof (step_in_range s o s' Hstep) as Hr. destruct Hstep as [e He].
  destruct o as [pa probe|index| | |pct|exitcode]; cbn [run_op] in He.
  - unfold bind, ret in He.
    destruct (addTask_cases pa probe s) as [Ha|(_ & _ & Ha)]; rewrite Ha in He;
      injection He as <- <-; [done|by apply Rows_added].
  - cbn in Hr.
    destruct (removeTask_cases index s Hwf Hr)
      as (p & t & i & Hp & Ht & Hi & [[Hs Hrm]|[Hs Hrm]]);
      rewrite Hrm in He; injection He as <- <-; [done|by apply Rows_removed].
  - by eapply start_Rows.
  - destruct (stop_cases s Hwf)
      as [[Hc Hs']|(p & t & i & it & w & Hc & Ht & Hr' & Hl & Hit & Hw & Hs')];
      rewrite Hs' in He; injection He as <- <-; [done|].
    by apply Rows_stopped.
  - destruct (progress_refreshed_cases pct s Hwf)
      as [[Hc Hs']|(p & t & i & it & w & Hc & Ht & Hl & Hit & Hw & Hs')];
      rewrite Hs' in He; injection He as <- <-; [done|].
    destruct (WF_current_row s p Hwf Hc) as (t' & _ & _ & _ & Ht' & Hr' & _).
    assert (t' = t) as -> by congruence.
    by eapply Rows_shown.
  - destruct (task_finished_slot_cases exitcode s Hwf)
      as [[Hc Hs']|(p & t & i & it & w & s1 & e1 & Hc & Ht & Hr' & Hl & Hit & Hw & Hst & Hs')];
      rewrite Hs' in He; injection He as <- <-; [done|].
    eapply start_Rows; [| |done].
    + by eapply WF_finished.
    + by apply Rows_finished.
Qed.

(** X13: in a reachable state the row of every task of the list shows
    that task: it has the four columns of the widget; the first two hold
    the file names of its source and destination and the tool tips the
    full paths; the progress column reads the failure text exactly for a
    FAILED task and is empty otherwise; a FAILED task shows 0 on its bar,
    and a QUEUED task the value of a new bar or 0. *)
Theorem X13_rows_show_tasks s :
  Reachable s →
  ∀ p t i it,
    p ∈ m_tasks s → tasks s !! p = Some t → listitem t = Some i →
    items s !! i = Some it →
    row_shows t it.
Proof.
  induction 1 as [|s o s' Hr IH Hstep]; [apply Rows_new|].
  by apply (step_Rows s o s' (Reachable_WF s Hr)).
Qed.

End rows.

(** ** One conversion at a time *)

Lemma converter_ok_app e1 : ∀ e2 b b1,
  converter_ok b e1 = Some b1 → converter_ok b (e1 ++ e2) = converter_ok b1 e2.
Proof.
  induction e1 as [|ev e1 IH]; intros e2 b b1 H1; cbn in *.
  - by injection H1 as ->.
  - destruct ev; try destruct b; try done; by apply IH.
Qed.

Section one_at_a_time.
Context `{Platform}.

Lemma start_converter_ok s s' e :
  WF s → start s = Some (tt, s', e) →
  converter_ok (is_busy s) e = Some (is_busy s').
Proof.
  intros Hwf Hs.
  destruct (start_cases s Hwf)
    as [[Hb Hs']|[(Hb & He & Hs')|[(Hb & k & p & t & Hf & Ht & Hq & Hs')
                                  |(Hb & Hne & Hf & Hs')]]];
    rewrite Hs' in Hs; injection Hs as <- <-; rewrite ?Hb; done.
Qed.

Lemma run_op_converter_ok s o s' e :
  WF s → run_op o s = Some (tt, s', e) →
  converter_ok (is_busy s) e = Some (is_busy s').
Proof.
  intros Hwf He.
  assert (step s o s') as Hstep by by exists e.
  pose proof (step_in_range s o s' Hstep) as Hr.
  destruct o as [pa probe|index| | |pct|exitcode]; cbn [run_op] in He.
  - unfold bind, ret in He.
    destruct (addTask_cases pa probe s) as [Ha|(_ & _ & Ha)]; rewrite Ha in He;
      by injection He as <- <-.
  - cbn in Hr.
    destruct (removeTask_cases index s Hwf Hr)
      as (p & t & i & Hp & Ht & Hi & [[Hs Hrm]|[Hs Hrm]]);
      rewrite Hrm in He; by injection He as <- <-.
  - by apply start_converter_ok.
  - destruct (stop_cases s Hwf)
      as [[Hc Hs']|(p & t & i & it & w & Hc & Ht & Hr' & Hl & Hit & Hw & Hs')];
      rewrite Hs' in He; by injection He as <- <-.
  - destruct (progress_refreshed_cases pct s Hwf)
      as [[Hc Hs']|(p & t & i & it & w & Hc & Ht & Hl & Hit & Hw & Hs')];
      rewrite Hs' in He; by injection He as <- <-.
  - destruct (task_finished_slot_cases exitcode s Hwf)
      as [[Hc Hs']|(p & t & i & it & w & s1 & e1 & Hc & Ht & Hr' & Hl & Hit & Hw & Hst & Hs')];
      rewrite Hs' in He; injection He as <- <-; [done|].
    cbn [converter_ok].
    rewrite <- (start_converter_ok _ s1 e1
                 (WF_finished exitcode s p t i it w Hwf Hc Ht Hit Hw) Hst).
    replace (is_busy (finished exitcode p t i it s)) with false; [done|].
    unfold finished. by destruct (decide (exitcode = 0)).
Qed.

(** X14: over any sequence of operations from a reachable state the
    converter is never started while a conversion it was given is still
    going on: between two calls of [m_converter->start] the events show a
    [task_finished] or a call of [m_converter->stop]; and the busy flag
    at the end says whether a conversion is going on. *)
Theorem X14_one_conversion_at_a_time os : ∀ s s' e,
  Reachable s → run_ops os s = Some (tt, s', e) →
  converter_ok (is_busy s) e = Some (is_busy s').
Proof.
  induction os as [|o os IH]; intros s s' e Hr Hrun; cbn [run_ops] in Hrun.
  - unfold ret in Hrun. by injection Hrun as <- <-.
  - unfold bind in Hrun.
    destruct (run_op o s) as [[[[] s1] e1]|] eqn:Ho; [|done].
    destruct (run_ops os s1) as [[[[] s2] e2]|] eqn:Hos; [|done].
    injection Hrun as <- <-.
    rewrite (converter_ok_app e1 e2 _ (is_busy s1)).
    + apply (IH s1); [|done]. apply (Reachable_step s o); [done|]. by exists e1.
    + apply (run_op_converter_ok s o); [by apply Reachable_WF|done].
Qed.

End one_at_a_time.

(** ** The further properties at the sample states *)

Lemma X1_defined_iff_in_range_witness :
  @Reachable sample_platform two_queued ∧
  (is_Some (@run_op sample_platform (op_removeTask 1) two_queued) ↔
   @in_range sample_platform two_queued (op_removeTask 1)) ∧
  (is_Some (@run_op sample_platform (op_removeTask 2) two_queued) ↔
   @in_range sample_platform two_queued (op_removeTask 2)).
Proof.
  pose proof two_queued_Reachable as Hr.
  split; [exact Hr|]. split.
  - exact (@X1_defined_iff_in_range sample_platform two_queued (op_removeTask 1) Hr).
  - exact (@X1_defined_iff_in_range sample_platform two_queued (op_removeTask 2) Hr).
Defined.

Lemma X2_rows_beside_tasks_witness :
  @Reachable sample_platform first_running ∧
  length (topLevelItems first_running) = length (m_tasks first_running) ∧
  ∀ p, m_current_task first_running = Some p → p ∈ m_tasks first_running.
Proof.
  pose proof first_running_Reachable as Hr.
  split; [exact Hr|].
  destruct (@X2_rows_beside_tasks sample_platform first_running Hr)
    as (Hlen & _ & _ & _ & Hcur).
  split; [exact Hlen|]. intros p Hp. exact (proj1 (Hcur p Hp)).
Defined.

Lemma X3_count_is_list_length_witness :
  @Reachable sample_platform two_queued ∧
  count two_queued = Some (2, two_queued, []) ∧
  isEmpty two_queued = Some (false, two_queued, []).
Proof.
  pose proof two_queued_Reachable as Hr.
  split; [exact Hr|].
  exact (@X3_count_is_list_length sample_platform two_queued Hr).
Defined.

Lemma X4_removeTask_not_running_witness :
  @Reachable sample_platform first_running ∧
  0 ≤ 1 ∧
  m_tasks first_running !! Z.to_nat 1 = Some 2%positive ∧
  tasks first_running !! 2%positive
  = Some (mkTask 2 QUEUED (sample_param "b") (Some 2%positive)) ∧
  QUEUED ≠ RUNNING ∧
  ∃ s',
    @removeTask 1 first_running = Some (tt, s', []) ∧
    m_tasks s' = [1%positive] ∧
    m_current_task s' = Some 1%positive.
Proof.
  pose proof first_running_Reachable as Hr.
  assert (tasks first_running !! 2%positive
          = Some (mkTask 2 QUEUED (sample_param "b") (Some 2%positive))) as Ht
    by reflexivity.
  assert (QUEUED ≠ RUNNING) as Hs by discriminate.
  split; [exact Hr|]. split; [lia|]. split; [reflexivity|].
  split; [exact Ht|]. split; [exact Hs|].
  destruct (@X4_removeTask_not_running sample_platform 1 first_running 2%positive _
              Hr ltac:(lia) eq_refl Ht Hs)
    as (s' & i & Hrm & Hm & _ & _ & _ & _ & _ & _ & _ & Hc & _).
  exists s'. split; [exact Hrm|]. split; [exact Hm|exact Hc].
Defined.


Lemma X6_at_rest_after_stop_witness :
  @Reachable sample_platform first_running ∧
  ∃ s1, stop first_running = Some (tt, s1, [converter_stop]) ∧
        stop s1 = Some (tt, s1, [converter_stop]) ∧
        @task_finished_slot sample_platform 1 s1 = Some (tt, s1, []).
Proof.
  pose proof first_running_Reachable as Hr.
  split; [exact Hr|].
  destruct (@X6_at_rest_after_stop sample_platform first_running Hr)
    as (s1 & Hs & _ & _ & Hs1 & Hfin & _).
  exists s1. split; [exact Hs|]. split; [exact Hs1|exact (Hfin 1)].
Defined.

Lemma X7_queue_goes_on_witness :
  @Reachable sample_platform first_running ∧
  m_current_task first_running = Some 1%positive ∧
  first_queued first_running = Some (1%nat, 2%positive) ∧
  ∃ s',
    @task_finished_slot sample_platform 1 first_running
    = Some (tt, s', [task_finished 1; converter_start (sample_param "b");
                     start_conversion 1 (sample_param "b")]) ∧
    m_current_task s' = Some 2%positive ∧
    status_at s' 1%positive = Some FAILED.
Proof.
  pose proof first_running_Reachable as Hr.
  split; [exact Hr|]. split; [reflexivity|]. split; [reflexivity|].
  pose proof (@X7_queue_goes_on sample_platform 1 first_running 1%positive Hr eq_refl)
    as Hgo.
  change (first_queued first_running) with (Some (1%nat, 2%positive)) in Hgo.
  destruct Hgo as (t & s' & Ht & _ & Hs & Hc & _ & _ & Hp).
  assert (t = mkTask 2 QUEUED (sample_param "b") (Some 2%positive)) as ->.
  { assert (tasks first_running !! 2%positive
            = Some (mkTask 2 QUEUED (sample_param "b") (Some 2%positive))) as Ht'
      by reflexivity.
    rewrite Ht' in Ht. injection Ht as <-. reflexivity. }
  exists s'. split; [exact Hs|]. split; [exact Hc|exact Hp].
Defined.

Lemma X8_success_keeps_rows_witness :
  @Reachable sample_platform first_running ∧
  ∃ s' e, @task_finished_slot sample_platform 0 first_running = Some (tt, s', e) ∧
          items s' = items first_running.
Proof.
  pose proof first_running_Reachable as Hr.
  split; [exact Hr|].
  destruct (@X8_success_keeps_rows sample_platform first_running Hr)
    as (s' & e & Hs & Hi & _).
  exists s', e. split; [exact Hs|exact Hi].
Defined.

Lemma X9_stop_then_remove_witness :
  @Reachable sample_platform first_running ∧
  m_tasks first_running !! 0%nat = Some 1%positive ∧
  tasks first_running !! 1%positive
  = Some (mkTask 1 RUNNING (sample_param "a") (Some 1%positive)) ∧
  @run_ops sample_platform [op_removeTask 0] first_running
  = Some (tt, first_running, []) ∧
  ∃ s', @run_ops sample_platform [op_stop; op_removeTask 0] first_running
        = Some (tt, s', [converter_stop]) ∧
        m_tasks s' = [2%positive].
Proof.
  pose proof first_running_Reachable as Hr.
  assert (tasks first_running !! 1%positive
          = Some (mkTask 1 RUNNING (sample_param "a") (Some 1%positive))) as Ht
    by reflexivity.
  split; [exact Hr|]. split; [reflexivity|]. split; [exact Ht|].
  destruct (@X9_stop_then_remove sample_platform first_running 0%nat 1%positive _
              Hr eq_refl Ht eq_refl)
    as (Hno & s' & Hrun & Hm & _).
  split; [exact Hno|]. exists s'. split; [exact Hrun|exact Hm].
Defined.

Lemma X10_queue_drains_witness :
  @Reachable sample_platform two_queued ∧
  is_busy two_queued = false ∧
  queued two_queued = [1%positive; 2%positive] ∧
  ∃ s' e,
    @run_ops sample_platform (op_start :: (op_finished <$> [0; 1])) two_queued
    = Some (tt, s', e) ∧
    status_at s' 1%positive = Some FINISHED ∧
    status_at s' 2%positive = Some FAILED ∧
    finished_codes e = [0; 1] ∧
    started_params e = [sample_param "a"; sample_param "b"].
Proof.
  pose proof two_queued_Reachable as Hr.
  assert (queued two_queued = [1%positive; 2%positive]) as Hq by reflexivity.
  split; [exact Hr|]. split; [reflexivity|]. split; [exact Hq|].
  destruct (@X10_queue_drains sample_platform two_queued [0; 1] Hr eq_refl)
    as (s' & e & e0 & Hrun & _ & _ & _ & _ & Hst & _ & Hcodes & Hpar & _).
  { rewrite Hq. discriminate. }
  { rewrite Hq. reflexivity. }
  rewrite Hq in Hst.
  apply Forall2_cons_1 in Hst as [H1 Hst].
  apply Forall2_cons_1 in Hst as [H2 _].
  exists s', e. split; [exact Hrun|]. split; [exact H1|]. split; [exact H2|].
  split; [exact Hcodes|exact Hpar].
Defined.

Lemma X11_delete_key_witness :
  @Reachable sample_platform first_running ∧
  NoDup [2%positive; 1%positive] ∧
  [2%positive; 1%positive] ⊆ topLevelItems first_running ∧
  ∃ s', @keyPressEvent Key_Delete [2%positive; 1%positive] first_running
        = Some (tt, s', []) ∧
        m_tasks s' = [1%positive] ∧
        m_current_task s' = Some 1%positive.
Proof.
  pose proof first_running_Reachable as Hr.
  assert (NoDup [2%positive; 1%positive]) as Hnd.
  { apply NoDup_cons. split.
    - intros Hin. apply list_elem_of_singleton in Hin. discriminate.
    - apply NoDup_singleton. }
  assert ([2%positive; 1%positive] ⊆ topLevelItems first_running) as Hsub.
  { intros x Hx. apply elem_of_cons in Hx as [->|Hx].
    - right. left.
    - apply list_elem_of_singleton in Hx as ->. left. }
  split; [exact Hr|]. split; [exact Hnd|]. split; [exact Hsub|].
  destruct (proj1 (@X11_delete_key sample_platform first_running _ Hr Hnd Hsub))
    as (s' & Hk & _ & Hm & _ & _ & _ & Hc & _).
  exists s'. split; [exact Hk|]. split; [exact Hm|exact Hc].
Defined.

Lemma X12_dropEvent_witness :
  @Reachable sample_platform two_queued ∧
  ∃ s' new,
    @dropEvent sample_platform true
      [(sample_param "c", probe_timeout); (sample_param "d", probe_ok)] two_queued
    = Some (tt, s', []) ∧
    task_list s' = task_list two_queued ++ new ∧
    param <$> new = [sample_param "d"] ∧
    id <$> new = [3].
Proof.
  pose proof two_queued_Reachable as Hr.
  split; [exact Hr|].
  destruct (proj1 (@X12_dropEvent sample_platform two_queued
                     [(sample_param "c", probe_timeout); (sample_param "d", probe_ok)]
                     Hr))
    as (s' & new & Hd & _ & Htl & Hpar & Hid & _).
  assert (length new = 1%nat) as Hlen.
  { rewrite <- (length_fmap param), Hpar. reflexivity. }
  rewrite Hlen in Hid.
  exists s', new. split; [exact Hd|]. split; [exact Htl|].
  split; [exact Hpar|exact Hid].
Defined.

Lemma X13_rows_show_tasks_witness :
  @Reachable sample_platform all_done ∧
  1%positive ∈ m_tasks all_done ∧
  tasks all_done !! 1%positive
  = Some (mkTask 1 FAILED (sample_param "a") (Some 1%positive)) ∧
  ∃ it, items all_done !! 1%positive = Some it ∧
        text it !! m_progress_column_index = Some "Failed" ∧
        widget it = Some (mkBar 0).
Proof.
  pose proof all_done_Reachable as Hr.
  assert (1%positive ∈ m_tasks all_done) as Hin by left.
  assert (tasks all_done !! 1%positive
          = Some (mkTask 1 FAILED (sample_param "a") (Some 1%positive))) as Ht
    by reflexivity.
  split; [exact Hr|]. split; [exact Hin|]. split; [exact Ht|].
  destruct (items all_done !! 1%positive) as [it|] eqn:Hit; [|discriminate].
  destruct (@X13_rows_show_tasks sample_platform all_done Hr
              1%positive _ 1%positive it Hin Ht eq_refl Hit)
    as (_ & _ & _ & Htext & _ & _ & Hbar & _).
  exists it. split; [reflexivity|]. split; [exact Htext|exact (Hbar eq_refl)].
Defined.

Lemma X14_one_conversion_at_a_time_witness :
  @Reachable sample_platform two_queued ∧
  ∃ s' e,
    @run_ops sample_platform [op_start; op_start; op_finished 0; op_stop] two_queued
    = Some (tt, s', e) ∧
    converter_ok (is_busy two_queued) e = Some (is_busy s').
Proof.
  pose proof two_queued_Reachable as Hr.
  split; [exact Hr|].
  destruct (@run_ops sample_platform [op_start; op_start; op_finished 0; op_stop]
              two_queued) as [[[[] s'] e]|] eqn:Hrun; [|discriminate].
  exists s', e. split; [reflexivity|].
  exact (@X14_one_conversion_at_a_time sample_platform _ two_queued s' e Hr Hrun).
Defined.
